(** * LegalBot AI: the agent orchestration core, embedded and verified

    A shallow embedding of the orchestration code of the LegalBot backend:

    - [app/agent/graph.py]: [should_continue], [call_model] and the run of
      the compiled graph over [AgentState] ([app/agent/state.py]);
    - [app/agent/legal_tools.py]: [legal_assistant], [web_search],
      [calculate_fee], [get_date_info] and [format_document];
    - [app/api/v1/chat.py]: [chat_endpoint], [delete_message],
      [upload_pdf] and [websocket_endpoint], a turn and the whole
      connection, with the [ConnectionManager];
    - [app/api/deps.py]: [verify_api_key], [get_user_from_token],
      [get_current_user], [verify_admin] and [get_current_user_optional];
    - [app/core/resources.py]: the cached [pc] and [get_index].

    Python text is kept as UTF-8 byte strings.  Calls that leave the
    repository (model backends, the vector index, the web search, the
    clock, the token decoder, the database, the socket) are outcomes
    supplied by an environment record: each one either returns a value or
    raises. *)

From Stdlib Require Import Ascii Bool Arith Lia.
From stdpp Require Import base option list strings pretty gmap.


(** ** Python text *)

Module PyStr.

(** The double quote, which the f-strings of the source put around a
    user-supplied fragment. *)
Definition dq : string := String (ascii_of_nat 34) EmptyString.

(** The line feed, [chr(10)] in the source. *)
Definition nl : string := String (ascii_of_nat 10) EmptyString.

(** [p] is an initial segment of [s]. *)
Fixpoint startswith (p s : string) : bool :=
  match p, s with
  | EmptyString, _ => true
  | String _ _, EmptyString => false
  | String a p', String b s' => Ascii.eqb a b && startswith p' s'
  end.

(** [needle in hay].  On valid UTF-8 a match on bytes is a match on code
    points, since no code point's encoding occurs inside another's. *)
Fixpoint py_in (needle hay : string) : bool :=
  startswith needle hay ||
  match hay with
  | EmptyString => false
  | String _ hay' => py_in needle hay'
  end.

(** [any(kw in s for kw in keywords)]. *)
Definition any_in (keywords : list string) (s : string) : bool :=
  existsb (fun kw => py_in kw s) keywords.

(** A byte that continues a UTF-8 code point: [10xxxxxx]. *)
Definition is_continuation (c : ascii) : bool :=
  let n := nat_of_ascii c in (128 <=? n) && (n <? 192).

(** [s[:n]]: the first [n] code points of [s]. *)
Fixpoint slice_to (n : nat) (s : string) : string :=
  match s with
  | EmptyString => EmptyString
  | String c s' =>
      if is_continuation c then String c (slice_to n s')
      else match n with
           | 0 => EmptyString
           | S n' => String c (slice_to n' s')
           end
  end.

(** [sep.join(parts)]. *)
Fixpoint join (sep : string) (parts : list string) : string :=
  match parts with
  | [] => EmptyString
  | [p] => p
  | p :: rest => p +:+ sep +:+ join sep rest
  end.

(** Truthiness of a [str]. *)
Definition truthy (s : string) : bool :=
  match s with EmptyString => false | _ => true end.

(** The case and whitespace methods of [str] are Unicode-aware and belong
    to the interpreter, not to this repository: they are an interface. *)
Class Text := {
  lower : string -> string;
  upper : string -> string;
  strip : string -> string
}.

(** The interface on text in the Vietnamese alphabet and in Latin-1: the
    ASCII letters, the letters of the table below and the white space of
    Unicode.  Cased letters of other alphabets are left as they are. *)
Definition ascii_lower_char (c : ascii) : ascii :=
  let n := nat_of_ascii c in
  if (65 <=? n) && (n <=? 90) then ascii_of_nat (n + 32) else c.

Definition ascii_upper_char (c : ascii) : ascii :=
  let n := nat_of_ascii c in
  if (97 <=? n) && (n <=? 122) then ascii_of_nat (n - 32) else c.

(** The code points of a text: each byte that starts one, with the
    continuation bytes after it. *)
Fixpoint code_points (s : string) : list string :=
  match s with
  | EmptyString => []
  | String c s' =>
      let points := code_points s' in
      match s' with
      | String c' _ =>
          if is_continuation c' then
            match points with
            | point :: rest => String c point :: rest
            | [] => [String c EmptyString]
            end
          else String c EmptyString :: points
      | EmptyString => String c EmptyString :: points
      end
  end.

Definition of_points (points : list string) : string :=
  fold_right String.append EmptyString points.

Definition utf8 (bytes : list nat) : string :=
  fold_right (fun n s => String (ascii_of_nat n) s) EmptyString bytes.

(** The upper-case letters outside ASCII, each with its lower case. *)
Definition cased : list (string * string) :=
  [ ("À", "à"); ("Á", "á"); ("Â", "â"); ("Ã", "ã"); ("Ä", "ä"); ("Å", "å");
    ("Æ", "æ"); ("Ç", "ç"); ("È", "è"); ("É", "é"); ("Ê", "ê"); ("Ë", "ë");
    ("Ì", "ì"); ("Í", "í"); ("Î", "î"); ("Ï", "ï"); ("Ð", "ð"); ("Ñ", "ñ");
    ("Ò", "ò"); ("Ó", "ó"); ("Ô", "ô"); ("Õ", "õ"); ("Ö", "ö"); ("Ø", "ø");
    ("Ù", "ù"); ("Ú", "ú"); ("Û", "û"); ("Ü", "ü"); ("Ý", "ý"); ("Þ", "þ");
    ("Ă", "ă"); ("Đ", "đ"); ("Ĩ", "ĩ"); ("Ũ", "ũ"); ("Ơ", "ơ"); ("Ư", "ư");
    ("Ÿ", "ÿ"); ("Ạ", "ạ"); ("Ả", "ả"); ("Ấ", "ấ"); ("Ầ", "ầ"); ("Ẩ", "ẩ");
    ("Ẫ", "ẫ"); ("Ậ", "ậ"); ("Ắ", "ắ"); ("Ằ", "ằ"); ("Ẳ", "ẳ"); ("Ẵ", "ẵ");
    ("Ặ", "ặ"); ("Ẹ", "ẹ"); ("Ẻ", "ẻ"); ("Ẽ", "ẽ"); ("Ế", "ế"); ("Ề", "ề");
    ("Ể", "ể"); ("Ễ", "ễ"); ("Ệ", "ệ"); ("Ỉ", "ỉ"); ("Ị", "ị"); ("Ọ", "ọ");
    ("Ỏ", "ỏ"); ("Ố", "ố"); ("Ồ", "ồ"); ("Ổ", "ổ"); ("Ỗ", "ỗ"); ("Ộ", "ộ");
    ("Ớ", "ớ"); ("Ờ", "ờ"); ("Ở", "ở"); ("Ỡ", "ỡ"); ("Ợ", "ợ"); ("Ụ", "ụ");
    ("Ủ", "ủ"); ("Ứ", "ứ"); ("Ừ", "ừ"); ("Ử", "ử"); ("Ữ", "ữ"); ("Ự", "ự");
    ("Ỳ", "ỳ"); ("Ỵ", "ỵ"); ("Ỷ", "ỷ"); ("Ỹ", "ỹ"); ("Ỻ", "ỻ"); ("Ỽ", "ỽ");
    ("Ỿ", "ỿ") ].

Fixpoint lower_of (table : list (string * string)) (point : string) : string :=
  match table with
  | [] => point
  | (u, l) :: table' => if String.eqb point u then l else lower_of table' point
  end.

Fixpoint upper_of (table : list (string * string)) (point : string) : string :=
  match table with
  | [] => point
  | (u, l) :: table' => if String.eqb point l then u else upper_of table' point
  end.

Definition lower_point (point : string) : string :=
  match point with
  | String c EmptyString => String (ascii_lower_char c) EmptyString
  | _ => lower_of cased point
  end.

(** The sharp s (U+00DF) becomes [SS] and the micro sign (U+00B5) the
    Greek capital mu (U+039C). *)
Definition upper_point (point : string) : string :=
  match point with
  | String c EmptyString => String (ascii_upper_char c) EmptyString
  | _ =>
      if String.eqb point (utf8 [195; 159]) then "SS"
      else if String.eqb point (utf8 [194; 181]) then utf8 [206; 156]
      else upper_of cased point
  end.

Definition is_space (c : ascii) : bool :=
  let n := nat_of_ascii c in
  ((9 <=? n) && (n <=? 13)) || ((28 <=? n) && (n <=? 32)).

(** The white space outside ASCII: U+0085, U+00A0, U+1680, U+2000 to
    U+200A, U+2028, U+2029, U+202F, U+205F and U+3000. *)
Definition wide_spaces : list string :=
  [utf8 [194; 133]; utf8 [194; 160]; utf8 [225; 154; 128]] ++
  map (fun n => utf8 [226; 128; n]) (seq 128 11) ++
  [utf8 [226; 128; 168]; utf8 [226; 128; 169]; utf8 [226; 128; 175];
   utf8 [226; 129; 159]; utf8 [227; 128; 128]].

Definition is_space_point (point : string) : bool :=
  match point with
  | String c EmptyString => is_space c
  | _ => existsb (String.eqb point) wide_spaces
  end.

Fixpoint lstrip (points : list string) : list string :=
  match points with
  | [] => []
  | point :: rest => if is_space_point point then lstrip rest else points
  end.

Definition rstrip (points : list string) : list string :=
  rev (lstrip (rev points)).

#[export] Instance vietnamese_text : Text := {|
  lower := fun s => of_points (map lower_point (code_points s));
  upper := fun s => of_points (map upper_point (code_points s));
  strip := fun s => of_points (rstrip (lstrip (code_points s)))
|}.

End PyStr.

Import PyStr.

(** ** Exceptions and outcomes *)

(** The exception classes the handlers of the source tell apart.  All of
    them derive from [Exception]. *)
Inductive exn : Type :=
  | HTTPException (status_code : nat) (detail : string)
  | WebSocketDisconnect
  | RuntimeError (msg : string)
  | AttributeError (msg : string)
  | ValueError (msg : string)
  | KeyError (key : string)
  | TimeoutError
  | OtherException (msg : string).

(** What a call does: it returns or it raises. *)
Inductive outcome (A : Type) : Type :=
  | Returned (a : A)
  | Raised (e : exn).

Arguments Returned {A} a.
Arguments Raised {A} e.

(** [str(e)]. *)
Definition exn_str (e : exn) : string :=
  match e with
  | HTTPException c d => pretty c +:+ ": " +:+ d
  | WebSocketDisconnect | TimeoutError => EmptyString
  | KeyError k => "'" +:+ k +:+ "'"
  | RuntimeError m | AttributeError m | ValueError m | OtherException m => m
  end.

(** ** Effects: a state-passing monad *)

Module Eff.

Definition M (S A : Type) : Type := S -> A * S.

Definition ret {S A} (a : A) : M S A := fun s => (a, s).

Definition bind {S A B} (m : M S A) (k : A -> M S B) : M S B :=
  fun s => let '(a, s') := m s in k a s'.

Definition get {S} : M S S := fun s => (s, s).

Definition modify {S} (f : S -> S) : M S unit := fun s => (tt, f s).

End Eff.

Declare Scope eff_scope.
Delimit Scope eff_scope with eff.
Notation "x <- m ;; k" := (Eff.bind m (fun x => k))
  (at level 100, m at next level, right associativity) : eff_scope.
Notation "m ;;; k" := (Eff.bind m (fun _ => k))
  (at level 100, right associativity) : eff_scope.

(** * Part I: the embedding *)

(** ** [app/agent/state.py] and [app/agent/graph.py] *)

Module Graph.

Import Eff.
Local Open Scope eff_scope.

(** A tool call requested by a model response. *)
Record tool_call : Type := ToolCall {
  tc_name : string;
  tc_args : string
}.

Inductive kind : Type := system | human | ai | tool.

(** A message of the conversation.  [tool_calls] is [None] for the message
    classes that have no such attribute ([hasattr] is false). *)
Record message : Type := Message {
  type : kind;
  content : string;
  tool_calls : option (list tool_call)
}.

Definition SystemMessage (c : string) : message := Message system c None.
Definition AIMessage (c : string) : message := Message ai c (Some []).

(** [AgentState]: a dict whose [summary] and [pdf_context] may be absent. *)
Record AgentState : Type := {
  messages : list message;
  summary : option string;
  pdf_context : option string
}.

(** [hasattr(m, 'tool_calls') and m.tool_calls]. *)
Definition carries_tool_calls (m : message) : bool :=
  match tool_calls m with
  | Some (_ :: _) => true
  | _ => false
  end.

Inductive route : Type := END | tools.

Definition should_continue (state : AgentState) : route :=
  let messages := messages state in
  match last messages with
  | None => END
  | Some last_message =>
      let tool_calls := filter (fun m => carries_tool_calls m = true) messages in
      if 4 <? length tool_calls then END
      else if carries_tool_calls last_message then tools
      else END
  end.

(** What [call_model] does to the world: lines handed to [log_to_file]
    (which swallows its own failures) and backend invocations. *)
Inductive event : Type :=
  | Logged (line : string)
  | Invoked (model_name : string) (input : list message).

Definition log_to_file (line : string) : M (list event) unit :=
  modify (fun t => t ++ [Logged line]).

(** A tool-bound model: what [ainvoke] does on a message list. *)
Definition backend : Type := list message -> outcome message.

(** The three module-level handles; [gemini_with_tools] is [None] when no
    Google key is configured or Gemini failed to initialise. *)
Record handles : Type := {
  llama_70b_with_tools : backend;
  llama_8b_with_tools : backend;
  gemini_with_tools : option backend
}.

(** [await model.ainvoke(formatted_messages)]; on [None] the attribute
    lookup raises before any backend is reached. *)
Definition ainvoke (model_name : string) (model : option backend)
    (input : list message) : M (list event) (outcome message) :=
  match model with
  | Some b =>
      modify (fun t => t ++ [Invoked model_name input]) ;;; ret (b input)
  | None =>
      ret (Raised (AttributeError
                     "'NoneType' object has no attribute 'ainvoke'"))
  end.

Definition str_last_error (last_error : option exn) : string :=
  match last_error with
  | None => "None"
  | Some e => exn_str e
  end.

Definition apology : string :=
  "⚠️ Hệ thống AI hiện đang chịu tải cao. Vui lòng thử lại sau giây lát hoặc làm mới trang.".

Section WithText.
Context `{Text}.

Definition base_prompt (state : AgentState) : string :=
  let summary := default EmptyString (summary state) in
  let pdf_context := default EmptyString (pdf_context state) in
  let base_prompt :=
    "Bạn là Luật sư Trợ lý AI cao cấp của Việt Nam. 
Nhiệm vụ: Cung cấp tư vấn pháp lý chuyên sâu, chi tiết và có căn cứ.

" +:+ (if truthy pdf_context
   then "NHẬN DIỆN TÀI LIỆU PDF: " +:+ pdf_context
   else EmptyString) +:+ "

QUY TẮC PHẢN HỒI (BẮT BUỘC):
1. ƯU TIÊN CÔNG CỤ: Luôn sử dụng công cụ `legal_assistant` ĐẦU TIÊN cho mọi câu hỏi về pháp luật. 
2. CHẾ ĐỘ FALLBACK: Nếu `legal_assistant` trả về thông báo có thẻ `[FALLBACK_SIGNAL]`, bạn PHẢI ngay lập tức sử dụng công cụ `web_search` để tìm kiếm thông tin thay thế từ internet mà không cần hỏi lại người dùng.
3. HẠN CHẾ WEB SEARCH: Chỉ sử dụng `web_search` khi công cụ nội bộ không có dữ liệu hoặc khi người dùng hỏi về tin tức/sự kiện mới nhất.
4. ƯU TIÊN NỘI DUNG: Luôn trình bày phần phân tích pháp lý và giải thích chi tiết TRƯỚC.
4. CẤU TRÚC: Sử dụng Markdown (H2, H3, Bold, Lists).
5. GỢI Ý (BẮT BUỘC): Kết thúc bằng 3-4 câu hỏi gợi ý trong thẻ [SUGGESTIONS]...[/SUGGESTIONS].
" in
  if truthy summary
  then base_prompt +:+ "

BẢN TÓM TẮT BỐI CẢNH:
" +:+ summary
  else base_prompt.

Definition formatted_messages (state : AgentState) : list message :=
  [SystemMessage (base_prompt state)] ++ messages state.

Definition models_to_try (h : handles) : list (string * option backend) :=
  [ ("Llama 3.3 70B", Some (llama_70b_with_tools h));
    ("Llama 3.1 8B", Some (llama_8b_with_tools h));
    ("Gemini 2.5 Flash", gemini_with_tools h) ].

(** The [for ... in models_to_try] loop.  [inl response] is the [return]
    inside the loop; [inr last_error] is the loop running off its end. *)
Fixpoint fallback_loop (models : list (string * option backend))
    (formatted_messages : list message) (last_error : option exn)
    : M (list event) (message + option exn) :=
  match models with
  | [] => ret (inr last_error)
  | (model_name, model) :: rest =>
      log_to_file ("DEBUG Graph: Attempting model " +:+ model_name +:+ "...") ;;;
      r <- ainvoke model_name model formatted_messages ;;
      match r with
      | Returned response =>
          log_to_file ("DEBUG Graph: " +:+ model_name +:+ " SUCCESS.") ;;;
          ret (inl response)
      | Raised e =>
          let last_error := Some e in
          let error_str := lower (exn_str e) in
          if py_in "not found" error_str || py_in "models/" error_str then
            log_to_file ("WARNING Graph: Model " +:+ model_name +:+
                         " returned NotFound error (" +:+
                         slice_to 120 error_str +:+
                         "). Skipping to next fallback.") ;;;
            fallback_loop rest formatted_messages last_error
          else
            log_to_file ("DEBUG Graph: " +:+ model_name +:+ " FAILED: " +:+
                         slice_to 100 error_str) ;;;
            if py_in "429" error_str || py_in "rate limit" error_str ||
               py_in "overloaded" error_str || py_in "unavailable" error_str
            then fallback_loop rest formatted_messages last_error
            else fallback_loop rest formatted_messages last_error
      end
  end.

(** [call_model] returns the state update [{"messages": [response]}]:
    the list under the key is what is modelled. *)
Definition call_model (h : handles) (state : AgentState)
    : M (list event) (list message) :=
  r <- fallback_loop (models_to_try h) (formatted_messages state) None ;;
  match r with
  | inl response => ret [response]
  | inr last_error =>
      log_to_file ("CRITICAL ERROR Graph: All models failed. Last error: " +:+
                   str_last_error last_error) ;;;
      ret [AIMessage apology]
  end.

End WithText.

(** The backends that [ainvoke] reached, in order. *)
Definition invocations (t : list event) : list string :=
  omap (fun e => match e with
                 | Invoked n _ => Some n
                 | Logged _ => None
                 end) t.

End Graph.

(** ** [app/agent/legal_tools.py] *)

Module LegalTools.

(** An entry of the built-in knowledge base. *)
Record procedure : Type := {
  title : string;
  steps : list string;
  documents : list string;
  time : string;
  fee : string;
  note : string;
  suggestions : option (list string)
}.

(** A dict literal: keys in insertion order, which is the order a [for]
    loop over it follows. *)
Fixpoint dict_get {V : Type} (d : list (string * V)) (key : string) : option V :=
  match d with
  | [] => None
  | (k, v) :: d' => if String.eqb k key then Some v else dict_get d' key
  end.

Definition procedures : list (string * procedure) :=
  [ ("giấy phép lái xe",
     {| title := "Thủ tục Cấp/Đổi Giấy Phép Lái Xe";
        steps :=
          [ "1. Khám sức khỏe lái xe tại cơ sở y tế có thẩm quyền";
            "2. Nộp hồ sơ trực tuyến qua https://dichvucong.gov.vn hoặc trực tiếp tại Sở GTVT";
            "3. Chụp ảnh và đóng lệ phí";
            "4. Nhận giấy hẹn";
            "5. Nhận GPLX (trực tiếp hoặc qua bưu điện)" ];
        documents :=
          [ "Đơn đề nghị (mẫu có sẵn)";
            "Giấy khám sức khỏe lái xe";
            "GPLX cũ (nếu đổi)";
            "CCCD gốc";
            "Ảnh 3x4 (chụp tại nơi làm)" ];
        time := "5-10 ngày làm việc";
        fee := "135,000 VNĐ + phí khám (~300k)";
        note := "Có thể làm online 100% nếu có VNeID";
        suggestions := None |});
    ("đăng ký kết hôn",
     {| title := "Thủ tục Đăng Ký Kết Hôn";
        steps :=
          [ "1. Chuẩn bị hồ sơ đầy đủ";
            "2. Nộp hồ sơ tại UBND phường/xã nơi một trong hai bên cư trú";
            "3. Chờ thẩm tra (3 ngày làm việc)";
            "4. Đến đăng ký và ký tên";
            "5. Nhận Giấy chứng nhận kết hôn" ];
        documents :=
          [ "Đơn đăng ký kết hôn";
            "CMND/CCCD cả hai bên";
            "Giấy xác nhận tình trạng hôn nhân";
            "Sổ hộ khẩu" ];
        time := "3 ngày làm việc";
        fee := "0 VNĐ (miễn phí)";
        note := "Cả hai bên phải có mặt khi đăng ký";
        suggestions := None |});
    ("đăng ký kinh doanh",
     {| title := "Thủ tục Đăng Ký Kinh Doanh";
        steps :=
          [ "1. Đăng ký tài khoản tại https://dangkykinhdoanh.gov.vn";
            "2. Điền thông tin doanh nghiệp";
            "3. Upload hồ sơ (CMND, địa chỉ, điều lệ)";
            "4. Nộp phí online";
            "5. Nhận Giấy CNĐKDN qua email hoặc bưu điện" ];
        documents :=
          [ "CMND/CCCD người đại diện";
            "Địa chỉ trụ sở (hợp đồng thuê/sở hữu)";
            "Điều lệ công ty (nếu là công ty)" ];
        time := "3-5 ngày";
        fee := "Hộ KD: 40-100k, Công ty: 300-500k";
        note := "100% online, không cần đến trực tiếp";
        suggestions := None |});
    ("ly hôn",
     {| title := "Thủ tục Ly Hôn";
        steps :=
          [ "1. Gửi đơn tại TAND cấp huyện nơi bị đơn cư trú/làm việc";
            "2. Thụ lý đơn và nộp tạm ứng án phí";
            "3. Tham gia phiên họp kiểm tra việc giao nộp, tiếp cận vật chứng";
            "4. Hòa giải sơ thẩm (nếu không được sẽ đưa ra xét xử)";
            "5. Tòa ra Bản án hoặc Quyết định ly hôn" ];
        documents :=
          [ "Đơn xin ly hôn";
            "Giấy chứng nhận đăng ký kết hôn (Bản chính)";
            "CCCD của vợ/chồng (Bản sao công chứng)";
            "Giấy khai sinh của các con";
            "Giấy tờ về tài sản chung (Sổ đỏ, đăng ký xe...)" ];
        time := "3-6 tháng";
        fee := "300,000 VNĐ án phí sơ thẩm";
        note := "Ly hôn thuận tình sẽ nhanh hơn ly hôn đơn phương";
        suggestions := Some
          [ "Quyền nuôi con sau khi ly hôn";
            "Cách phân chia tài sản chung";
            "Giá thuê luật sư ly hôn 2024" ] |});
    ("thông báo mẫu dấu",
     {| title := "Thủ tục Thông báo Mẫu con dấu";
        steps :=
          [ "1. Doanh nghiệp tự khắc dấu";
            "2. Thông báo mẫu dấu qua mạng tại Cổng thông tin quốc gia";
            "3. Hệ thống tiếp nhận và cấp Giấy xác nhận" ];
        documents :=
          [ "Thông báo theo mẫu của Bộ Kế hoạch và Đầu tư" ];
        time := "1-3 ngày";
        fee := "Miễn phí";
        note := "Từ 2021 doanh nghiệp không bắt buộc phải thông báo mẫu dấu lên cổng thông tin";
        suggestions := None |});
    ("tạm ngừng kinh doanh",
     {| title := "Thủ tục Tạm ngừng Kinh Doanh";
        steps :=
          [ "1. Thông báo cho cơ quan ĐKKD ít nhất 3 ngày làm việc trước khi tạm ngừng";
            "2. Nộp hồ sơ qua mạng tại Cổng thông tin quốc gia";
            "3. Nhận Giấy xác nhận tạm ngừng" ];
        documents :=
          [ "Thông báo tạm ngừng";
            "Nghị quyết/Quyết định của chủ sở hữu/HĐTV/HĐQT" ];
        time := "3 ngày làm việc";
        fee := "Miễn phí";
        note := "Tổng thời gian tạm ngừng không quá 02 năm liên tiếp";
        suggestions := Some
          [ "Thủ tục đóng mã số thuế doanh nghiệp";
            "Cách tính thuế khi tạm ngừng kinh doanh";
            "Điều kiện để doanh nghiệp hoạt động trở lại trước thời hạn" ] |});
    ("thành lập doanh nghiệp",
     {| title := "Thủ tục Thành lập Công ty TNHH/Cổ phần";
        steps :=
          [ "1. Chuẩn bị thông tin (tên, địa chỉ, vốn, ngành nghề)";
            "2. Soạn hồ sơ đăng ký doanh nghiệp trực tuyến";
            "3. Nộp hồ sơ tại Cổng thông tin quốc gia về đăng ký doanh nghiệp";
            "4. Nhận kết quả và Giấy chứng nhận ĐKDN";
            "5. Khắc dấu và công bố thông tin doanh nghiệp" ];
        documents :=
          [ "Giấy đề nghị đăng ký doanh nghiệp";
            "Điều lệ công ty";
            "Danh sách thành viên/cổ đông sáng lập";
            "Bản sao CCCD/Hộ chiếu các thành viên" ];
        time := "3-5 ngày làm việc";
        fee := "Lệ phí ĐK: 50k, Phí công bố: 300k";
        note := "Nên đăng ký tài khoản kinh doanh trước tại dangkykinhdoanh.gov.vn";
        suggestions := Some
          [ "Sự khác biệt giữa Công ty TNHH và Cổ phần";
            "Cách đặt tên công ty không bị trùng";
            "Thủ tục sau khi nhận giấy phép kinh doanh" ] |});
    ("thừa kế",
     {| title := "Thủ tục Khai nhận Di sản Thừa kế";
        steps :=
          [ "1. Chuẩn bị hồ sơ chứng minh quan hệ và tài sản";
            "2. Đến văn phòng Công chứng để lập văn bản khai nhận";
            "3. Niêm yết thông báo thừa kế tại UBND xã/phường (15 ngày)";
            "4. Ký văn bản khai nhận/phân chia di sản";
            "5. Đăng ký sang tên tài sản (nếu là nhà đất/xe)" ];
        documents :=
          [ "Giấy chứng tử của người để lại di sản";
            "Di chúc (nếu có)";
            "Giấy tờ chứng minh quan hệ (Khai sinh, kết hôn, hộ khẩu)";
            "Giấy chứng nhận quyền sử dụng đất/đăng ký xe" ];
        time := "20-30 ngày";
        fee := "Phí công chứng + Thuế thu nhập (nếu không được miễn)";
        note := "Miễn thuế nếu thừa kế giữa cha mẹ - con cái, anh chị em ruột";
        suggestions := Some
          [ "Thủ tục khai nhận di sản thừa kế tại văn phòng công chứng";
            "Thuế thu nhập cá nhân khi bán nhà đất thừa kế";
            "Chia thừa kế theo pháp luật khi không có di chúc" ] |});
    ("sổ đỏ",
     {| title := "Thủ tục Cấp/Sang tên Sổ đỏ (Giấy chứng nhận Quyền sử dụng đất)";
        steps :=
          [ "1. Nộp hồ sơ tại Văn phòng đăng ký đất đai hoặc UBND cấp huyện";
            "2. Cơ quan chức năng kiểm tra hồ sơ và hiện trạng";
            "3. Thực hiện nghĩa vụ tài chính (thuế, phí)";
            "4. Nhận Giấy chứng nhận mới hoặc xác nhận sang tên" ];
        documents :=
          [ "Đơn đăng ký biến động đất đai";
            "Giấy chứng nhận quyền sử dụng đất (Bản gốc)";
            "Hợp đồng chuyển nhượng/tặng cho (Công chứng)";
            "Tờ khai thuế thu nhập cá nhân và lệ phí trước bạ" ];
        time := "15-30 ngày làm việc";
        fee := "Lệ phí trước bạ (0.5%), Thuế TNCN (2%)";
        note := "Kiểm tra kỹ thông tin quy hoạch trước khi giao dịch";
        suggestions := Some
          [ "Thủ tục xóa nợ thuế đất để sang tên sổ đỏ";
            "Chi phí làm sổ đỏ lần đầu";
            "Hợp đồng đặt cọc mua bán đất chuẩn pháp lý" ] |});
    ("tạm trú",
     {| title := "Thủ tục Đăng ký Tạm trú";
        steps :=
          [ "1. Chuẩn bị hồ sơ pháp lý về chỗ ở";
            "2. Nộp hồ sơ tại Công an xã/phường hoặc qua Cổng dịch vụ công Bộ Công an";
            "3. Cán bộ tiếp nhận và kiểm tra thông tin";
            "4. Nhận thông báo kết quả đăng ký cư trú" ];
        documents :=
          [ "Tờ khai thay đổi thông tin cư trú (mẫu CT01)";
            "Hợp đồng thuê nhà hoặc giấy tờ chứng minh chỗ ở hợp pháp";
            "CCCD/Hộ chiếu của người đăng ký" ];
        time := "3 ngày làm việc";
        fee := "15,000 VNĐ (nộp trực tiếp), 7,000 VNĐ (trực tuyến)";
        note := "Đăng ký qua dịch vụ công trực tuyến sẽ nhanh và rẻ hơn";
        suggestions := Some
          [ "Đăng ký tạm trú qua VNeID như thế nào?";
            "Xác nhận thông tin cư trú (CT07) xin ở đâu?";
            "Mức phạt khi không đăng ký tạm trú" ] |}) ].

Definition key_map : list (string * list string) :=
  [ ("giấy phép lái xe", ["giấy phép lái xe"; "bằng lái"; "gplx"]);
    ("đăng ký kết hôn", ["kết hôn"; "lấy vợ"; "lấy chồng"]);
    ("đăng ký kinh doanh", ["đăng ký kinh doanh"; "hộ kinh doanh"]);
    ("ly hôn", ["ly hôn"; "chia tay"]);
    ("thành lập doanh nghiệp", ["thành lập doanh nghiệp"; "thành lập công ty"; "mở công ty"]);
    ("thừa kế", ["thừa kế"; "di sản"]);
    ("sổ đỏ", ["sổ đỏ"; "sổ hồng"; "quyền sử dụng đất"; "đất đai"]);
    ("tạm trú", ["tạm trú"; "vắng mặt"]);
    ("thông báo mẫu dấu", ["mẫu dấu"; "con dấu"]);
    ("tạm ngừng kinh doanh", ["tạm ngừng kinh doanh"; "ngừng kinh doanh"]);
    ("giao thông", ["giao thông"; "xe máy"; "ô tô"; "biển báo"; "bị phạt"]) ].

Definition fee_table : list (string * list (string * string)) :=
  [ ("đăng ký kinh doanh",
     [ ("Hộ kinh doanh", "50,000 VNĐ");
       ("Công ty TNHH", "300,000 VNĐ");
       ("Công ty cổ phần", "500,000 VNĐ");
       ("Doanh nghiệp tư nhân", "100,000 VNĐ") ]);
    ("ly hôn",
     [ ("Ly hôn thuận tình (UBND)", "0 VNĐ (miễn phí)");
       ("Ly hôn có tranh chấp (Tòa án)", "200,000 - 500,000 VNĐ");
       ("Phí luật sư (nếu thuê)", "5,000,000 - 20,000,000 VNĐ") ]);
    ("công chứng",
     [ ("Hợp đồng mua bán đất (< 100m²)", "500,000 VNĐ");
       ("Hợp đồng mua bán đất (100-300m²)", "1,000,000 VNĐ");
       ("Hợp đồng vay tiền", "0.5% giá trị (tối thiểu 50k)");
       ("Di chúc", "50,000 - 200,000 VNĐ") ]);
    ("giấy phép lái xe",
     [ ("Cấp mới/Đổi GPLX", "135,000 VNĐ");
       ("Khám sức khỏe", "~300,000 VNĐ") ]);
    ("hộ chiếu",
     [ ("Hộ chiếu thường (cấp tại địa phương)", "200,000 VNĐ");
       ("Cấp lại do bị mất/hư hỏng", "400,000 VNĐ");
       ("Gia hạn hộ chiếu", "100,000 VNĐ") ]);
    ("visa",
     [ ("E-visa 30 ngày (nhập cảnh 1 lần)", "25 USD");
       ("Visa 90 ngày (nhập cảnh nhiều lần)", "50 USD");
       ("Thẻ tạm trú (1-3 năm)", "145 - 155 USD") ]) ].


(** The tag the system prompt of [call_model] tells the model to react to. *)
Definition fallback_tag : string := "[FALLBACK_SIGNAL]".

Definition traffic_answer : string :=
  "## Tra cứu Luật Giao thông Đường bộ
                
Tôi đã tìm thấy tài liệu về **Trật tự, an toàn giao thông đường bộ**. Bạn có thể hỏi cụ thể về:
- Các quy tắc tham gia giao thông (đi bộ, xe máy, ô tô).
- Điều kiện phương tiện và người điều khiển.
- Các hành vi bị nghiêm cấm và mức xử phạt.
- Hệ thống biển báo và tín hiệu đèn.

*Gợi ý: Hãy đặt câu hỏi cụ thể như " +:+ dq +:+ "Mức phạt nồng độ cồn" +:+ dq +:+ " hoặc " +:+ dq +:+ "Quy tắc vượt xe" +:+ dq +:+ " để tôi tra cứu chi tiết nhé!*".

Definition unavailable_answer : string :=
  "⚠️ Xin lỗi, hệ thống tra cứu đang tạm thời không khả dụng. Vui lòng thử lại sau.".

Definition no_match_answer (query : string) : string :=
  "[FALLBACK_SIGNAL] Tôi chưa tìm thấy thông tin chi tiết về " +:+ dq +:+ query +:+ dq +:+ " trong cơ sở dữ liệu luật nội bộ.
                
Bạn vui lòng sử dụng công cụ `web_search` để tìm kiếm thông tin mới nhất trên internet hoặc hỏi về các dịch vụ phổ biến: GPLX, Kết hôn, Ly hôn, ĐK Kinh doanh.".

Definition search_trouble_answer : string :=
  "[FALLBACK_SIGNAL] Hệ thống tra cứu nội bộ đang gặp sự cố. Vui lòng sử dụng công cụ `web_search` để tìm kiếm từ internet hoặc diễn đạt lại câu hỏi.".

Definition processing_error_answer : string :=
  "⚠️ Xin lỗi, đã có lỗi khi xử lý câu hỏi. Vui lòng thử lại.".

Definition opt_prompt (query : string) : string :=
  "Bạn là chuyên gia tra cứu pháp luật Việt Nam. 
Nhiệm vụ: Chuyển đổi câu hỏi của người dùng (có thể có lỗi chính tả) thành một chuỗi từ khóa (keywords) ngắn gọn, súc tích để tìm kiếm trong cơ sở dữ liệu luật.

QUY TẮC:
- Trích xuất 3-5 từ khóa quan trọng nhất.
- Sửa lỗi chính tả nếu có (VD: " +:+ dq +:+ "quy tậc" +:+ dq +:+ " -> " +:+ dq +:+ "quy tắc" +:+ dq +:+ ").
- Ngôn ngữ: Tiếng Việt.
- CHỈ TRẢ VỀ TỪ KHÓA, không thêm bất kỳ lời dẫn nào.

Câu hỏi: " +:+ query +:+ "
Từ khóa tìm kiếm:".

(** The first key of [key_map] one of whose keywords occurs in the query. *)
Definition match_key (query_lower : string) : option string :=
  fst <$> List.find (fun entry => any_in entry.2 query_lower) key_map.

Definition kb_answer (proc : procedure) : string :=
  let response := "## " +:+ title proc +:+ "

### CÁC BƯỚC THỰC HIỆN:
" in
  let response := response +:+ join nl (steps proc) in
  let response := response +:+ "

### HỒ SƠ CẦN THIẾT:
" in
  let response := response +:+ join nl (map (fun doc => "- " +:+ doc) (documents proc)) in
  response +:+ "

### THỜI GIAN: " +:+ time proc +:+ "
### PHÍ: " +:+ fee proc +:+ "
### LƯU Ý: " +:+ note proc +:+ "
".

Section VectorSearch.
(** An embedding and a similarity score are floating-point data that
    this code only passes on; [percent] is the format [{score:.0%}]. *)
Context `{Text} {vector score : Type} (percent : score -> string) (zero : score).

(** The metadata of a match: a dict whose keys may be absent. *)
Record metadata : Type := {
  md_text : option string;
  md_source : option string
}.

(** A match of the index.  A vector stored without metadata comes back
    with [None] for it: the client's [get] gives the attribute, not the
    default.  The score of a match is always there; the default of the
    code is kept for a match without one. *)
Record hit : Type := {
  hit_metadata : option metadata;
  hit_score : option score
}.

(** [index.query(...)]: the reply, [None] when it is falsy or has no
    ['matches']. *)
Definition index : Type := vector -> outcome (option (list hit)).

(** The shared [resources] object, as this tool meets it. *)
Record Resources : Type := {
  fast_llm : option (string -> outcome string);
  embeddings : outcome (string -> outcome vector);
  get_index : outcome (option index)
}.

(** The query sent to the index: the optimizer's keywords, or the
    original query when there is no optimizer, it times out or fails. *)
Definition optimize (resources : Resources) (query : string) : string :=
  let search_query := query in
  match fast_llm resources with
  | Some ainvoke =>
      match ainvoke (opt_prompt query) with
      | Returned content => strip content
      | Raised TimeoutError => search_query
      | Raised _ => search_query
      end
  | None => search_query
  end.

(** One entry of [formatted_results]; on a match without metadata,
    [metadata.get] is looked up on [None]. *)
Definition format_hit (i : nat) (m : hit) : outcome string :=
  match hit_metadata m with
  | None => Raised (AttributeError "'NoneType' object has no attribute 'get'")
  | Some metadata =>
      let text := slice_to 800 (default EmptyString (md_text metadata)) in
      let source := default "Không rõ nguồn" (md_source metadata) in
      let score := default zero (hit_score m) in
      Returned ("### Kết quả " +:+ pretty i +:+ " (Độ liên quan: " +:+ percent score +:+ ")
**Nguồn:** " +:+ source +:+ "
**Nội dung:** " +:+ text +:+ "...")
  end.

(** The [for i, match in enumerate(..., 1)] loop, from index [i] on. *)
Fixpoint format_hits (i : nat) (matches : list hit) : outcome (list string) :=
  match matches with
  | [] => Returned []
  | m :: rest =>
      match format_hit i m with
      | Raised e => Raised e
      | Returned entry =>
          match format_hits (S i) rest with
          | Raised e => Raised e
          | Returned formatted_results => Returned (entry :: formatted_results)
          end
      end
  end.

Definition found_answer (matches : list hit) : outcome string :=
  match format_hits 1 (take 3 matches) with
  | Raised e => Raised e
  | Returned formatted_results =>
      let result_text := join (nl +:+ nl) formatted_results in
      Returned ("Dựa trên tài liệu pháp luật, tôi tìm thấy thông tin sau:

" +:+ result_text +:+ "

💡 **Lưu ý:** Đây là tham khảo chung. Nên liên hệ cơ quan có thẩm quyền để biết chính xác.")
  end.

(** The body of the inner [try]: what it returns, or what it raises. *)
Definition vector_search (resources : Resources) (query search_query : string)
    : outcome string :=
  match embeddings resources with
  | Raised e => Raised e
  | Returned embeddings =>
      match get_index resources with
      | Raised e => Raised e
      | Returned None => Returned unavailable_answer
      | Returned (Some index) =>
          match embeddings search_query with
          | Raised e => Raised e
          | Returned query_vector =>
              match index query_vector with
              | Raised e => Raised e
              | Returned None | Returned (Some []) =>
                  Returned (no_match_answer query)
              | Returned (Some matches) => found_answer matches
              end
          end
      end
  end.

(** The body of the outer [try]. *)
Definition answer (resources : Resources) (query : string) : outcome string :=
  let query_lower := strip (lower query) in
  match match_key query_lower with
  | Some matched_key =>
      if String.eqb matched_key "giao thông" then Returned traffic_answer
      else
        match dict_get procedures matched_key with
        | Some proc => Returned (kb_answer proc)
        | None => Raised (KeyError matched_key)
        end
  | None =>
      let search_query := optimize resources query in
      match vector_search resources query search_query with
      | Returned text => Returned text
      | Raised vector_error => Returned search_trouble_answer
      end
  end.

Definition legal_assistant (resources : Resources) (query : string) : string :=
  match answer resources query with
  | Returned text => text
  | Raised e => processing_error_answer
  end.

End VectorSearch.

Section Fees.
Context `{Text}.

Definition fee_lines (fees : list (string * string)) : string :=
  foldl (fun result entry =>
           result +:+ "- **" +:+ entry.1 +:+ ":** " +:+ entry.2 +:+ "
") EmptyString fees.

Definition unknown_service (service : string) : string :=
  "Chưa có thông tin lệ phí cho " +:+ dq +:+ service +:+ dq +:+ ".

**Các dịch vụ có thể tra:**
- Đăng ký kinh doanh
- Ly hôn
- Công chứng
- Giấy phép lái xe
- Hộ chiếu

Vui lòng chọn một trong các dịch vụ trên.".

(** [fee_table[matched]] is read off the entry the loop stopped at. *)
Definition calculate_fee (service : string) (details : string) : string :=
  let service_lower := lower service in
  match List.find (fun entry => py_in entry.1 service_lower) fee_table with
  | Some (matched, fees) =>
      if truthy matched then
        "### Lệ phí: " +:+ upper matched +:+ "

" +:+ fee_lines fees +:+ "
📌 **Lưu ý:** Phí có thể thay đổi, nên kiểm tra với cơ quan trực tiếp."
      else unknown_service service
  | None => unknown_service service
  end.

End Fees.

End LegalTools.

(** ** [app/api/v1/chat.py] *)

Module Chat.

(** *** Message contents *)

(** A content part: a dict that may hold ["text"], or anything else, of
    which the code takes [str(part)]. *)
Inductive part : Type :=
  | DictPart (text : option string)
  | RawPart (repr : string).

(** A message content is a [str] or a list of parts (Gemini). *)
Inductive content : Type :=
  | Str (s : string)
  | Parts (ps : list part).

Definition part_text (p : part) : string :=
  match p with
  | DictPart text => default EmptyString text
  | RawPart repr => repr
  end.

(** [_get_text_content]; its last branch, [str(content)], is for contents
    that are neither, which the message type excludes. *)
Definition _get_text_content (c : content) : string :=
  match c with
  | Str s => s
  | Parts ps => join EmptyString (map part_text ps)
  end.

(** Truthiness of a content. *)
Definition nonempty (c : content) : bool :=
  match c with
  | Str s => truthy s
  | Parts [] => false
  | Parts (_ :: _) => true
  end.

(** Truthiness of an optional identifier: [None] and [""] are falsy. *)
Definition given (id : option string) : bool :=
  match id with
  | Some s => truthy s
  | None => false
  end.

(** [str(x)] of an optional text. *)
Definition str_opt (x : option string) : string := default "None" x.

(** [len(s)]: the number of code points. *)
Fixpoint len (s : string) : nat :=
  match s with
  | EmptyString => 0
  | String c s' => if is_continuation c then len s' else S (len s')
  end.

(** [text.replace('\x00', '')]. *)
Fixpoint remove_nul (s : string) : string :=
  match s with
  | EmptyString => EmptyString
  | String c s' =>
      if Ascii.eqb c Ascii.zero then remove_nul s' else String c (remove_nul s')
  end.

(** *** The database *)

Record conversation_row : Type := {
  c_id : string;
  c_user_id : string;
  c_title : string
}.

Record message_row : Type := {
  m_conversation_id : string;
  m_role : string;
  m_content : content
}.

(** Both tables hold their rows in creation order, the order that
    [order("created_at", desc=False)] asks for. *)
Record database : Type := {
  conversations : list conversation_row;
  messages : list message_row
}.

(** The statements this file sends with [.execute()]. *)
Inductive statement : Type :=
  | select_conversation (id user_id : string)
  | select_messages (conversation_id : string) (limit : nat)
  | insert_conversation (title user_id : string)
  | insert_messages (rows : list message_row)
  | update_conversation (id : string).

(** What the database does with a statement: it runs it, it runs it and
    hands back no rows (row-level security), or [.execute()] raises. *)
Inductive reply : Type :=
  | Done
  | NoData
  | Refused (e : exn).

(** *** The checkpointer *)

(** The checkpointed channels of a thread: the [values] dict. *)
Record values : Type := {
  v_messages : option (list content);
  v_summary : option string;
  v_pdf_context : option string
}.

Definition no_values : values :=
  {| v_messages := None; v_summary := None; v_pdf_context := None |}.

(** The [thread_id] of a config; it is [None] in a turn without a
    conversation. *)
Definition thread : Type := option string.

Abbreviation checkpoints := (gmap thread values).

(** *** The socket *)

(** The JSON frames of the outward protocol, by their ["type"]. *)
Inductive frame : Type :=
  | ev_meta (conversation_id : string)
  | ev_start
  | ev_status (content : string)
  | ev_token (content : content)
  | ev_error (content : string)
  | ev_end (full_content : content).

(** *** The world around one request *)

(** The database behind [supabase] ([None] when the client is not
    configured), the checkpointer's memory, what the request has done so
    far (statements executed, agent runs started, frames handed to the
    socket and frames delivered), and what the outside will do next: one
    script per collaborator, read an entry per call. *)
Record world : Type := World {
  supabase : option database;
  memory : checkpoints;
  statements : list statement;
  agent_calls : list (thread * list (string * content));
  outbox : list frame;
  wire : list frame;
  db_script : list reply;
  memory_script : list (option exn);
  link_script : list (option exn);
  disk_script : list (option exn)
}.

Definition set_supabase (d : option database) (w : world) : world :=
  World d (memory w) (statements w) (agent_calls w) (outbox w)
        (wire w) (db_script w) (memory_script w) (link_script w) (disk_script w).
Definition set_memory (m : checkpoints) (w : world) : world :=
  World (supabase w) m (statements w) (agent_calls w) (outbox w)
        (wire w) (db_script w) (memory_script w) (link_script w) (disk_script w).
Definition set_statements (l : list statement) (w : world) : world :=
  World (supabase w) (memory w) l (agent_calls w) (outbox w)
        (wire w) (db_script w) (memory_script w) (link_script w) (disk_script w).
Definition set_agent_calls (l : list (thread * list (string * content))) (w : world) : world :=
  World (supabase w) (memory w) (statements w) l (outbox w)
        (wire w) (db_script w) (memory_script w) (link_script w) (disk_script w).
Definition set_outbox (l : list frame) (w : world) : world :=
  World (supabase w) (memory w) (statements w) (agent_calls w) l
        (wire w) (db_script w) (memory_script w) (link_script w) (disk_script w).
Definition set_wire (l : list frame) (w : world) : world :=
  World (supabase w) (memory w) (statements w) (agent_calls w) (outbox w)
        l (db_script w) (memory_script w) (link_script w) (disk_script w).
Definition set_db_script (l : list reply) (w : world) : world :=
  World (supabase w) (memory w) (statements w) (agent_calls w) (outbox w)
        (wire w) l (memory_script w) (link_script w) (disk_script w).
Definition set_memory_script (l : list (option exn)) (w : world) : world :=
  World (supabase w) (memory w) (statements w) (agent_calls w) (outbox w)
        (wire w) (db_script w) l (link_script w) (disk_script w).
Definition set_link_script (l : list (option exn)) (w : world) : world :=
  World (supabase w) (memory w) (statements w) (agent_calls w) (outbox w)
        (wire w) (db_script w) (memory_script w) l (disk_script w).
Definition set_disk_script (l : list (option exn)) (w : world) : world :=
  World (supabase w) (memory w) (statements w) (agent_calls w) (outbox w)
        (wire w) (db_script w) (memory_script w) (link_script w) l.

(** *** Code that may raise: state passing with an outcome *)

Definition M (A : Type) : Type := world -> outcome A * world.

Definition ret {A} (a : A) : M A := fun w => (Returned a, w).

Definition raise {A} (e : exn) : M A := fun w => (Raised e, w).

Definition bind {A B} (m : M A) (k : A -> M B) : M B :=
  fun w =>
    match m w with
    | (Returned a, w') => k a w'
    | (Raised e, w') => (Raised e, w')
    end.

(** [try: body except ...: handler]; a handler that does not take the
    exception raises it again. *)
Definition try_except {A} (body : M A) (handler : exn -> M A) : M A :=
  fun w =>
    match body w with
    | (Returned a, w') => (Returned a, w')
    | (Raised e, w') => handler e w'
    end.

Definition gets {A} (f : world -> A) : M A := fun w => (Returned (f w), w).

Definition modify (f : world -> world) : M unit := fun w => (Returned tt, f w).

Declare Scope chat_scope.
Delimit Scope chat_scope with chat.
Notation "x <- m ;; k" := (bind m (fun x => k))
  (at level 100, m at next level, right associativity) : chat_scope.
Notation "m ;;; k" := (bind m (fun _ => k))
  (at level 100, right associativity) : chat_scope.
Local Open Scope chat_scope.

(** The next entry of a script; a script that has run out stands for an
    outside that works. *)
Definition next_fault (script : list (option exn)) : option exn * list (option exn) :=
  match script with
  | [] => (None, [])
  | o :: rest => (o, rest)
  end.

Definition next_reply (script : list reply) : reply * list reply :=
  match script with
  | [] => (Done, [])
  | r :: rest => (r, rest)
  end.

(** **** Statements *)

Definition owned_by (id user_id : string) (c : conversation_row) : bool :=
  String.eqb (c_id c) id && String.eqb (c_user_id c) user_id.

Definition of_conversation (conversation_id : string) (m : message_row) : bool :=
  String.eqb (m_conversation_id m) conversation_id.

(** The identifier the database gives to a new conversation. *)
Definition fresh_id (d : database) : string :=
  "conv-" +:+ pretty (length (conversations d)).

(** [supabase.table(...)....execute()].  Without a client the attribute
    lookup raises; otherwise the statement is recorded and the database
    replies. *)
Definition execute {A} (s : statement) (run : database -> list A * database) : M (list A) :=
  fun w =>
    match supabase w with
    | None =>
        (Raised (AttributeError "'NoneType' object has no attribute 'table'"), w)
    | Some d =>
        let '(r, rest) := next_reply (db_script w) in
        let w := set_db_script rest (set_statements (statements w ++ [s]) w) in
        match r with
        | Refused e => (Raised e, w)
        | NoData => (Returned [], w)
        | Done => let '(rows, d') := run d in (Returned rows, set_supabase (Some d') w)
        end
    end.

Definition query_conversation (id user_id : string) : M (list conversation_row) :=
  execute (select_conversation id user_id)
    (fun d => (List.filter (owned_by id user_id) (conversations d), d)).

Definition query_messages (conversation_id : string) (limit : nat) : M (list message_row) :=
  execute (select_messages conversation_id limit)
    (fun d => (take limit (List.filter (of_conversation conversation_id) (messages d)), d)).

Definition create_conversation (title user_id : string) : M (list conversation_row) :=
  execute (insert_conversation title user_id)
    (fun d =>
       let row := {| c_id := fresh_id d; c_user_id := user_id; c_title := title |} in
       ([row], {| conversations := conversations d ++ [row]; messages := messages d |})).

Definition add_messages (rows : list message_row) : M (list message_row) :=
  execute (insert_messages rows)
    (fun d => (rows, {| conversations := conversations d; messages := messages d ++ rows |})).

(** The new [updated_at] is wall-clock time and is not kept. *)
Definition touch_conversation (id : string) : M (list conversation_row) :=
  execute (update_conversation id)
    (fun d => (List.filter (fun c => String.eqb (c_id c) id) (conversations d), d)).

(** **** The checkpointer *)

Definition checkpointer_call : M unit :=
  fun w =>
    let '(o, rest) := next_fault (memory_script w) in
    let w := set_memory_script rest w in
    match o with
    | Some e => (Raised e, w)
    | None => (Returned tt, w)
    end.

(** What can be read back of a thread: an unknown thread has the empty
    dict, and so has a config whose [thread_id] is [None], which names no
    thread: what a run under it ends with is not kept for a reader. *)
Definition snapshot (m : checkpoints) (thread_id : thread) : values :=
  match thread_id with
  | Some _ => default no_values (m !! thread_id)
  | None => no_values
  end.

(** [agent_executor.aget_state(config)]: the snapshot's [values]. *)
Definition aget_state (thread_id : thread) : M values :=
  checkpointer_call ;;;
  gets (fun w => snapshot (memory w) thread_id).

(** [agent_executor.aupdate_state(config, {"pdf_context": ...})]. *)
Definition aupdate_pdf_context (thread_id : thread) (updated : string) : M unit :=
  checkpointer_call ;;;
  modify (fun w =>
    let v := default no_values (memory w !! thread_id) in
    set_memory (<[thread_id :=
                    {| v_messages := v_messages v;
                       v_summary := v_summary v;
                       v_pdf_context := Some updated |}]> (memory w)) w).

(** A dict is truthy when it has a key. *)
Definition has_values (v : values) : bool :=
  match v_messages v, v_summary v, v_pdf_context v with
  | None, None, None => false
  | _, _, _ => true
  end.

(** **** The socket and the log file *)

(** [manager.send_personal_message(json.dumps(frame), websocket)]: a
    closed connection is ignored, anything else [send_text] raises goes
    on to the caller. *)
Definition send_personal_message (f : frame) : M unit :=
  fun w =>
    let '(o, rest) := next_fault (link_script w) in
    let w := set_link_script rest (set_outbox (outbox w ++ [f]) w) in
    match o with
    | None => (Returned tt, set_wire (wire w ++ [f]) w)
    | Some WebSocketDisconnect | Some (RuntimeError _) => (Returned tt, w)
    | Some e => (Raised e, w)
    end.

(** [log_to_file] of this file opens and writes without a [try]. *)
Definition log_to_file : M unit :=
  fun w =>
    let '(o, rest) := next_fault (disk_script w) in
    let w := set_disk_script rest w in
    match o with
    | Some e => (Raised e, w)
    | None => (Returned tt, w)
    end.

(** **** The agent *)

Record chunk : Type := {
  tool_call_chunks : bool;
  kwargs_tool_calls : bool;
  chunk_content : content
}.

Inductive agent_event : Type :=
  | on_tool_start (name : string)
  | on_tool_end (name : string)
  | on_chat_model_stream (c : chunk)
  | on_other (kind : string).

(** The compiled graph, seen from this file: a run reads and writes its
    thread's checkpoint; [ainvoke] gives the contents of the final
    [messages] or raises; [astream_events] gives the events of the run
    and what ends it. *)
Record executor : Type := {
  ainvoke : list (string * content) -> thread -> checkpoints ->
            outcome (list content) * checkpoints;
  astream_events : list (string * content) -> thread -> checkpoints ->
                   list agent_event * option exn * checkpoints
}.

Section Endpoints.
Context `{Text} (agent_executor : executor) (format_exc : exn -> string).

Definition history_of (rows : list message_row) : list (string * content) :=
  map (fun msg => (m_role msg, m_content msg)) rows.

(** [await agent_executor.ainvoke(input_state, config=config)]. *)
Definition run_agent (input : list (string * content)) (thread_id : thread)
    : M (list content) :=
  fun w =>
    let '(r, m) := ainvoke agent_executor input thread_id (memory w) in
    (r, set_memory m (set_agent_calls (agent_calls w ++ [(thread_id, input)]) w)).

(** **** [POST /chat] *)

Record ChatRequest : Type := {
  message : string;
  conversation_id : option string
}.

Record ChatResponse : Type := {
  response : string;
  response_conversation_id : option string
}.

(** The first [try] of the handler: ownership check, then history. *)
Definition fetch_history (id current_user : string) : M (list (string * content)) :=
  try_except
    (conv_check <- query_conversation id current_user ;;
     match conv_check with
     | [] => raise (HTTPException 403 "Access denied to conversation")
     | _ :: _ =>
         msg_result <- query_messages id 20 ;;
         ret (history_of msg_result)
     end)
    (fun db_error => ret []).

(** The second [try]: create the conversation if there is none, save
    both messages, touch the conversation.  [conversation_id] is
    assigned inside the [try] and read after it, so the body is cut at
    the assignment; after a failed insert the second half has nothing
    to do, its guard being false. *)
Definition save_exchange (conversation_id : option string)
    (current_user message assistant_response : string) : M (option string) :=
  conversation_id <-
    (if given conversation_id then ret conversation_id
     else
       try_except
         (conv_result <- create_conversation (slice_to 50 message +:+ "...") current_user ;;
          ret (match conv_result with
               | row :: _ => Some (c_id row)
               | [] => conversation_id
               end))
         (fun db_error => ret conversation_id)) ;;
  (if given conversation_id then
     let id := default EmptyString conversation_id in
     try_except
       (add_messages
          [ {| m_conversation_id := id; m_role := "user"; m_content := Str message |};
            {| m_conversation_id := id; m_role := "assistant";
               m_content := Str assistant_response |} ] ;;;
        touch_conversation id ;;;
        ret tt)
       (fun db_error => ret tt)
   else ret tt) ;;;
  ret conversation_id.

Definition chat_endpoint (request : ChatRequest) (current_user : string)
    : M ChatResponse :=
  try_except
    (let conversation_id := conversation_id request in
     configured <- gets (fun w => bool_decide (is_Some (supabase w))) ;;
     history_messages <-
       (if given conversation_id && configured
        then fetch_history (default EmptyString conversation_id) current_user
        else ret []) ;;
     let history_messages := history_messages ++ [("user", Str (message request))] in
     output_state <- run_agent history_messages conversation_id ;;
     last_message <-
       match last output_state with
       | Some m => ret m
       | None => raise (OtherException "list index out of range")
       end ;;
     let assistant_response := _get_text_content last_message in
     conversation_id <-
       (if configured
        then save_exchange conversation_id current_user (message request)
               assistant_response
        else ret conversation_id) ;;
     log_to_file ;;;
     ret {| response := assistant_response;
            response_conversation_id := conversation_id |})
    (fun e =>
       if py_in "row-level security" (lower (exn_str e))
       then raise (HTTPException 500
                     ("Database RLS error (chat still works): " +:+
                      slice_to 100 (exn_str e)))
       else raise (HTTPException 500 (exn_str e))).

(** **** [POST /chat/upload/{conversation_id}] *)

(** The uploaded file: its name, and what reading it and extracting the
    text of its pages gives. *)
Record UploadFile : Type := {
  filename : option string;
  pages : outcome (list (option string))
}.

Record upload_result : Type := {
  status : string;
  result_filename : string;
  result_message : string;
  extracted_text : string
}.

Definition extract (pages : list (option string)) : string :=
  foldl (fun text page => text +:+ default EmptyString page +:+ nl)
        EmptyString pages.

(** What one upload appends to [pdf_context]. *)
Definition document_block (file : UploadFile) (text : string) : string :=
  nl +:+ nl +:+ "--- DOCUMENT: " +:+ str_opt (filename file) +:+ " ---" +:+ nl +:+ text.

Definition read_pdf (file : UploadFile) : M string :=
  try_except
    (match pages file with
     | Raised e => raise e
     | Returned pages =>
         let text := remove_nul (extract pages) in
         if truthy (strip text) then ret text
         else raise (ValueError "PDF không chứa văn bản có thể đọc được")
     end)
    (fun pdf_err => raise (HTTPException 400 ("Lỗi đọc PDF: " +:+ exn_str pdf_err))).

Definition update_agent_memory (conversation_id : string) (file : UploadFile)
    (text : string) : M unit :=
  try_except
    (current_state <- aget_state (Some conversation_id) ;;
     let existing_pdf_context :=
       if has_values current_state
       then default EmptyString (v_pdf_context current_state)
       else EmptyString in
     let updated_context := existing_pdf_context +:+ document_block file text in
     aupdate_pdf_context (Some conversation_id) updated_context)
    (fun state_err => ret tt).

Definition upload_pdf (conversation_id : string) (file : UploadFile)
    (silent : bool) (current_user : string) : M upload_result :=
  let filename :=
    match filename file with
    | Some name => if truthy name then name else "unknown.pdf"
    | None => "unknown.pdf"
    end in
  try_except
    (conv_check <- query_conversation conversation_id current_user ;;
     match conv_check with
     | [] => raise (HTTPException 403 "Không có quyền truy cập đoạn chat này")
     | _ :: _ => ret tt
     end ;;;
     text <- read_pdf file ;;
     update_agent_memory conversation_id file text ;;;
     let system_msg_content :=
       "[PDF_ATTACHMENT]" +:+ nl +:+
       "Filename: " +:+ filename +:+ nl +:+
       "Size: " +:+ pretty (len text) +:+ " chars" +:+ nl +:+
       "---CONTENT---" +:+ nl +:+
       strip (slice_to 2000 text) +:+ nl +:+
       "[/PDF_ATTACHMENT]" in
     (if negb silent then
        try_except
          (add_messages
             [ {| m_conversation_id := conversation_id; m_role := "assistant";
                  m_content := Str system_msg_content |} ] ;;;
           ret tt)
          (fun db_err =>
             raise (HTTPException 500 ("Lỗi lưu Database: " +:+ exn_str db_err)))
      else ret tt) ;;;
     ret {| status := "success";
            result_filename := filename;
            result_message := system_msg_content;
            extracted_text := text |})
    (fun e =>
       match e with
       | HTTPException _ _ => raise e
       | _ => raise (HTTPException 500
                       ("Lỗi hệ thống: " +:+ exn_str e +:+ nl +:+
                        slice_to 200 (format_exc e)))
       end).

(** **** One turn of [/ws/chat]: the body of the [while True] loop from
    a received text on *)

(** How the turn leaves the loop body: to the next [receive_text], or
    out of the endpoint. *)
Inductive flow : Type :=
  | next_turn (conversation_id : option string)
  | closed.

Definition load_history (conversation_id : option string)
    : M (list (string * content)) :=
  configured <- gets (fun w => bool_decide (is_Some (supabase w))) ;;
  if given conversation_id && configured then
    try_except
      (msg_result <- query_messages (default EmptyString conversation_id) 20 ;;
       ret (history_of msg_result))
      (fun history_err => ret [])
  else ret [].

(** The new identifier is assigned before the [meta] frame is sent, in
    one [try]: the body is cut at the assignment. *)
Definition open_conversation (conversation_id : option string)
    (user_id data : string) : M (option string) :=
  configured <- gets (fun w => bool_decide (is_Some (supabase w))) ;;
  if negb (given conversation_id) && configured then
    res <- try_except (create_conversation (slice_to 50 data) user_id)
                      (fun e => ret []) ;;
    match res with
    | row :: _ =>
        try_except (send_personal_message (ev_meta (c_id row)))
                   (fun e => ret tt) ;;;
        ret (Some (c_id row))
    | [] => ret conversation_id
    end
  else ret conversation_id.

Definition save_user_message (conversation_id : option string) (data : string)
    : M unit :=
  configured <- gets (fun w => bool_decide (is_Some (supabase w))) ;;
  if given conversation_id && configured then
    try_except
      (add_messages
         [ {| m_conversation_id := default EmptyString conversation_id;
              m_role := "user"; m_content := Str data |} ] ;;;
       ret tt)
      (fun e => ret tt)
  else ret tt.

(** The text of a streamed chunk, or [None] when the chunk is skipped. *)
Definition fragment (c : chunk) : option string :=
  if tool_call_chunks c then None
  else if kwargs_tool_calls c && negb (nonempty (chunk_content c)) then None
  else
    let content := _get_text_content (chunk_content c) in
    if truthy content then Some content else None.

(** The [async for event in ...] loop, with its two counters. *)
Fixpoint consume (events : list agent_event) (full_response : string)
    (tokens_streamed : nat) : M (string * nat) :=
  match events with
  | [] => ret (full_response, tokens_streamed)
  | on_tool_start name :: rest =>
      send_personal_message (ev_status ("Running tool: " +:+ name +:+ "...")) ;;;
      consume rest full_response tokens_streamed
  | on_tool_end name :: rest => consume rest full_response tokens_streamed
  | on_chat_model_stream c :: rest =>
      match fragment c with
      | Some content =>
          send_personal_message (ev_token (Str content)) ;;;
          consume rest (full_response +:+ content) (S tokens_streamed)
      | None => consume rest full_response tokens_streamed
      end
  | on_other _ :: rest => consume rest full_response tokens_streamed
  end.

(** The stream: the events reach the loop one by one, then the run ends
    or raises; the checkpoint the run leaves is there once it ends. *)
Definition stream_agent (input : list (string * content)) (thread_id : thread)
    : M (string * nat) :=
  modify (fun w => set_agent_calls (agent_calls w ++ [(thread_id, input)]) w) ;;;
  run <- gets (fun w => astream_events agent_executor input thread_id (memory w)) ;;
  let '(events, ending, after) := run in
  streamed <- consume events EmptyString 0 ;;
  modify (set_memory after) ;;;
  match ending with
  | Some e => raise e
  | None => ret streamed
  end.

(** The last content of the final state, when there is one to show. *)
Definition final_content (v : values) : option content :=
  match v_messages v with
  | Some messages =>
      match last messages with
      | Some c => if nonempty c then Some c else None
      | None => None
      end
  | None => None
  end.

(** The fallback after a stream without tokens; [full_response] is
    assigned before the frame is sent, in one [try]: the body is cut at
    the assignment. *)
Definition no_stream_fallback (thread_id : thread) (full_response : content)
    : M content :=
  found <- try_except (state_snapshot <- aget_state thread_id ;;
                       ret (final_content state_snapshot))
                      (fun fallback_err => ret None) ;;
  match found with
  | Some c =>
      try_except (send_personal_message (ev_token c)) (fun fallback_err => ret tt) ;;;
      ret c
  | None => ret full_response
  end.

Definition save_assistant_message (conversation_id : option string)
    (full_response : content) : M unit :=
  configured <- gets (fun w => bool_decide (is_Some (supabase w))) ;;
  if given conversation_id && configured then
    let id := default EmptyString conversation_id in
    try_except
      (add_messages
         [ {| m_conversation_id := id; m_role := "assistant";
              m_content := full_response |} ] ;;;
       touch_conversation id ;;;
       ret tt)
      (fun e => ret tt)
  else ret tt.

(** Step 3 of the loop body, inside its [try]. *)
Definition respond (history_messages : list (string * content))
    (conversation_id : option string) : M (content * nat) :=
  send_personal_message ev_start ;;;
  streamed <- stream_agent history_messages conversation_id ;;
  let '(full_response, tokens_streamed) := streamed in
  if (tokens_streamed =? 0) && negb (truthy full_response) then
    full_response <- no_stream_fallback conversation_id (Str full_response) ;;
    ret (full_response, tokens_streamed)
  else ret (Str full_response, tokens_streamed).

(** The two [except] clauses around step 3: a disconnect leaves the
    endpoint, anything else is reported and the loop goes on. *)
Definition stream_failed (conversation_id : option string) (e : exn) : M flow :=
  match e with
  | WebSocketDisconnect => ret closed
  | graph_err =>
      send_personal_message
        (ev_error ("Lỗi hệ thống AI: " +:+ slice_to 100 (exn_str graph_err))) ;;;
      ret (next_turn conversation_id)
  end.

(** Steps 4 and 5: the [end] frame, then the assistant message is saved. *)
Definition finish_turn (conversation_id : option string) (full_response : content)
    : M flow :=
  log_to_file ;;;
  send_personal_message (ev_end full_response) ;;;
  save_assistant_message conversation_id full_response ;;;
  ret (next_turn conversation_id).

Definition turn (user_id : string) (conversation_id : option string)
    (data : string) : M flow :=
  history_messages <- load_history conversation_id ;;
  let history_messages := history_messages ++ [("user", Str data)] in
  conversation_id <- open_conversation conversation_id user_id data ;;
  save_user_message conversation_id data ;;;
  answered <-
    try_except
      (r <- respond history_messages conversation_id ;; ret (inr r))
      (fun e => leave <- stream_failed conversation_id e ;; ret (inl leave)) ;;
  match answered with
  | inl leave => ret leave
  | inr (full_response, tokens_streamed) => finish_turn conversation_id full_response
  end.

End Endpoints.

End Chat.

(** ** [app/agent/graph.py]: the compiled graph *)

Module GraphRun.

Import Eff Graph.
Local Open Scope eff_scope.

(** [ToolMessage]: a message class without a [tool_calls] attribute. *)
Definition ToolMessage (c : string) : message := Message tool c None.

(** [ToolNode(tools)]: the calls of the last message are run and answered
    in their order, one [ToolMessage] each; what a tool returns, or the
    text of the error it raises, is the content of its message. *)
Definition tool_node (run_tool : tool_call -> string) (state : AgentState)
    : list message :=
  match last (messages state) with
  | Some last_message =>
      map (fun c => ToolMessage (run_tool c)) (default [] (tool_calls last_message))
  | None => []
  end.

(** The [add_messages] reducer that [AgentState] puts on [messages]: what
    a node returns under the key is put after what is there (the messages
    of a node are new ones). *)
Definition add_messages (left right : list message) : list message :=
  left ++ right.

Definition write (state : AgentState) (update : list message) : AgentState :=
  {| messages := add_messages (messages state) update;
     summary := summary state;
     pdf_context := pdf_context state |}.

Section WithText.
Context `{Text}.

(** The graph of [builder]: entry point ["agent"], the conditional edge
    [should_continue] after it, the edge from ["tools"] back to ["agent"].
    [fuel] bounds the visits of ["agent"]; [path] is the nodes visited. *)
Fixpoint run (fuel : nat) (h : handles) (run_tool : tool_call -> string)
    (state : AgentState) (path : list string)
    : M (list event) (option (AgentState * list string)) :=
  match fuel with
  | 0 => ret None
  | S fuel =>
      update <- call_model h state ;;
      let state := write state update in
      let path := path ++ ["agent"] in
      match should_continue state with
      | END => ret (Some (state, path))
      | tools =>
          let state := write state (tool_node run_tool state) in
          run fuel h run_tool state (path ++ ["tools"])
      end
  end.

End WithText.

End GraphRun.

(** ** [app/agent/legal_tools.py]: [web_search] *)

Module WebSearch.

(** A row of the search: a dict the code reads three keys of. *)
Record result : Type := {
  r_title : option string;
  r_body : option string;
  r_href : option string
}.

(** What importing [duckduckgo_search] and running [DDGS().text] does:
    an [ImportError], any other exception, or the rows found (none when
    the reply is empty or [None]). *)
Inductive search : Type :=
  | import_error
  | failed (e : exn)
  | found (results : list result).

Definition not_installed_answer : string :=
  "⚠️ Chức năng tìm kiếm web chưa được cài đặt. Vui lòng cài package 'duckduckgo-search'.".

Definition trouble_answer (e : exn) : string :=
  "⚠️ Không thể tìm kiếm web lúc này. Lỗi: " +:+ slice_to 100 (exn_str e).

Definition nothing_found_answer (query : string) : string :=
  "Không tìm thấy kết quả web cho " +:+ dq +:+ query +:+ dq +:+ ".

**Gợi ý:**
- Thử từ khóa khác
- Sử dụng công cụ tra cứu nội bộ
- Hỏi trực tiếp về thủ tục".

(** One entry of [formatted]; the keys are read from left to right and a
    missing one raises [KeyError]. *)
Definition format_result (i : nat) (r : result) : outcome string :=
  match r_title r with
  | None => Raised (KeyError "title")
  | Some title =>
      match r_body r with
      | None => Raised (KeyError "body")
      | Some body =>
          match r_href r with
          | None => Raised (KeyError "href")
          | Some href =>
              Returned ("**" +:+ pretty i +:+ ". " +:+ title +:+ "**
" +:+ slice_to 200 body +:+ "...
🔗 " +:+ href +:+ "
")
          end
      end
  end.

(** The [for i, r in enumerate(..., 1)] loop, from index [i] on. *)
Fixpoint format_results (i : nat) (rows : list result) : outcome (list string) :=
  match rows with
  | [] => Returned []
  | r :: rest =>
      match format_result i r with
      | Raised e => Raised e
      | Returned entry =>
          match format_results (S i) rest with
          | Raised e => Raised e
          | Returned formatted => Returned (entry :: formatted)
          end
      end
  end.

Definition results_answer (query : string) (formatted : list string) : string :=
  "### Kết quả tìm kiếm: " +:+ dq +:+ query +:+ dq +:+ "

" +:+ join nl formatted +:+ "

📌 **Lưu ý:** Đây là thông tin từ internet, nên kiểm tra nguồn chính thức.".

(** [ddgs] is the search engine, by the text it is asked. *)
Definition web_search (ddgs : string -> search) (query : string) : string :=
  match ddgs (query +:+ " pháp luật việt nam") with
  | import_error => not_installed_answer
  | failed e => trouble_answer e
  | found [] => nothing_found_answer query
  | found results =>
      match format_results 1 (take 3 results) with
      | Returned formatted => results_answer query formatted
      | Raised e => trouble_answer e
      end
  end.

End WebSearch.

(** ** [app/agent/legal_tools.py]: [get_date_info] *)

Module DateInfo.

(** [datetime.weekday()]: Monday is 0, Sunday is 6. *)
Inductive weekday_index : Type :=
  | day0 | day1 | day2 | day3 | day4 | day5 | day6.

(** [['Hai', 'Ba', 'Tư', 'Năm', 'Sáu', 'Bảy', 'CN'][...]]. *)
Definition thu (i : weekday_index) : string :=
  match i with
  | day0 => "Hai" | day1 => "Ba" | day2 => "Tư" | day3 => "Năm"
  | day4 => "Sáu" | day5 => "Bảy" | day6 => "CN"
  end.

(** The calendar belongs to the interpreter's library: the format
    ['%d/%m/%Y'], the day of the week, the ISO week number, and a date
    moved forward by a number of days. *)
Class Calendar := {
  datetime : Type;
  strftime : datetime -> string;
  weekday : datetime -> weekday_index;
  iso_week : datetime -> nat;
  plus_days : datetime -> nat -> datetime
}.

Section WithCalendar.
Context `{Text} `{Calendar}.

Definition today_answer (today : datetime) : string :=
  "📅 **Hôm nay:**
- Ngày: " +:+ strftime today +:+ "
- Thứ: " +:+ thu (weekday today) +:+ "
- Tuần: " +:+ pretty (iso_week today) +:+ "
".

Definition acceptance_answer : string :=
  "⚖️ **Thời hạn thụ lý đơn khởi kiện (Bộ luật TTDS 2015):**
- Theo quy định, trong vòng 03 ngày làm việc kể từ ngày nhận đơn, Chánh án phân công Thẩm phán xem xét.
- Trong vòng 05 ngày làm việc kể từ ngày được phân công, Thẩm phán phải ra quyết định thụ lý/trả đơn/sửa đổi.
-> **Tổng cộng:** Khoảng 08 ngày làm việc.".

Definition deadline_answer (today : datetime) (days : nat) : string :=
  let deadline := plus_days today days in
  "⏰ **Tính deadline:**
- Từ ngày: " +:+ strftime today +:+ "
- Cộng thêm: " +:+ pretty days +:+ " ngày
- Đến hạn: " +:+ strftime deadline +:+ " (Thứ " +:+ thu (weekday deadline) +:+ ")

💡 Lưu ý: Đây là tính theo ngày dương lịch, chưa trừ ngày lễ.".

Definition default_answer (today : datetime) : string :=
  "📅 Hôm nay là " +:+ strftime today +:+ "

**Tôi có thể:**
- Cho biết ngày hôm nay
- Tính deadline (ví dụ: " +:+ dq +:+ "deadline 30 ngày" +:+ dq +:+ ")
- Đếm ngày làm việc

Bạn cần thông tin gì?".

(** [today] is [datetime.now()]. *)
Definition get_date_info (today : datetime) (query : string) : string :=
  let query_lower := lower query in
  if py_in "hôm nay" query_lower || py_in "today" query_lower then
    today_answer today
  else if py_in "deadline" query_lower || py_in "hạn" query_lower then
    if py_in "15" query then deadline_answer today 15
    else if py_in "30" query then deadline_answer today 30
    else if py_in "60" query then deadline_answer today 60
    else if py_in "90" query then deadline_answer today 90
    else if py_in "thụ lý" query_lower then acceptance_answer
    else deadline_answer today 30
  else default_answer today.

End WithCalendar.

End DateInfo.

(** ** [app/agent/legal_tools.py]: [format_document] *)

Module FormatDocument.

Import LegalTools.

Record checklist : Type := {
  title : string;
  items : list string
}.

Definition checklists : list (string * checklist) :=
  [ ("kết hôn",
     {| title := "Hồ Sơ Đăng Ký Kết Hôn";
        items :=
          [ "☐ Đơn đăng ký kết hôn (mẫu có sẵn)";
            "☐ CMND/CCCD (bản chính cả 2 bên)";
            "☐ Sổ hộ khẩu";
            "☐ Giấy xác nhận tình trạng hôn nhân";
            "☐ Giấy khám sức khỏe (nếu yêu cầu)" ] |});
    ("ly hôn",
     {| title := "Hồ Sơ Ly Hôn";
        items :=
          [ "☐ Đơn ly hôn";
            "☐ CMND/CCCD (bản chính)";
            "☐ Giấy chứng nhận kết hôn";
            "☐ Sổ hộ khẩu";
            "☐ Thỏa thuận về con (nếu có)";
            "☐ Thỏa thuận chia tài sản (nếu có)" ] |});
    ("kinh doanh",
     {| title := "Hồ Sơ Đăng Ký Kinh Doanh";
        items :=
          [ "☐ CMND/CCCD người đại diện";
            "☐ Địa chỉ trụ sở (hợp đồng thuê/sở hữu)";
            "☐ Điều lệ công ty (nếu CT TNHH, CP)";
            "☐ Danh sách thành viên/cổ đông";
            "☐ Giấy ủy quyền (nếu ủy quyền)" ] |});
    ("lái xe",
     {| title := "Hồ Sơ Đổi/Cấp GPLX";
        items :=
          [ "☐ Đơn đề nghị (mẫu có sẵn)";
            "☐ Giấy khám sức khỏe lái xe";
            "☐ CCCD (bản chính)";
            "☐ GPLX cũ (nếu đổi)";
            "☐ Ảnh 3x4 (hoặc chụp tại chỗ)" ] |}) ].

Definition key_map : list (string * list string) :=
  [ ("kết hôn", ["kết hôn"; "lấy vợ"; "lấy chồng"; "phường"]);
    ("ly hôn", ["ly hôn"; "chia tay"; "tòa án"]);
    ("kinh doanh", ["kinh doanh"; "công ty"; "doanh nghiệp"]);
    ("lái xe", ["lái xe"; "gplx"; "bằng lái"]) ].

Definition checklist_answer (checklist : checklist) : string :=
  "## " +:+ title checklist +:+ "

### CHECKLIST HỒ SƠ:
" +:+ join nl (items checklist) +:+ "

📋 **Cách sử dụng:**
- Đánh dấu ✓ vào ☐ khi chuẩn bị xong
- Mang bản chính để đối chiếu
- Nộp bản photo công chứng (nếu yêu cầu)
".

Definition no_checklist_answer (document_type : string) : string :=
  "Chưa có checklist cho " +:+ dq +:+ document_type +:+ dq +:+ ".

**Checklist có sẵn:**
- Kết hôn
- Ly hôn
- Kinh doanh
- Lái xe (GPLX)

Vui lòng chọn một trong các thủ tục trên.".

Section WithText.
Context `{Text}.

(** The key the loop over [key_map] stops at. *)
Definition matched (doc_type_lower : string) : option string :=
  fst <$> List.find (fun entry => any_in entry.2 doc_type_lower) key_map.

(** The function has no [try]: a key of [key_map] without a checklist
    would leave it as a [KeyError]. *)
Definition format_document (document_type : string) : outcome string :=
  let doc_type_lower := lower document_type in
  match matched doc_type_lower with
  | Some matched =>
      if truthy matched then
        match dict_get checklists matched with
        | Some checklist => Returned (checklist_answer checklist)
        | None => Raised (KeyError matched)
        end
      else Returned (no_checklist_answer document_type)
  | None => Returned (no_checklist_answer document_type)
  end.

End WithText.

End FormatDocument.

(** ** Code that may raise, over any state *)

Module Raising.

Definition M (S A : Type) : Type := S -> outcome A * S.

Definition ret {S A} (a : A) : M S A := fun s => (Returned a, s).

Definition raise {S A} (e : exn) : M S A := fun s => (Raised e, s).

Definition bind {S A B} (m : M S A) (k : A -> M S B) : M S B :=
  fun s =>
    match m s with
    | (Returned a, s') => k a s'
    | (Raised e, s') => (Raised e, s')
    end.

Definition try_except {S A} (body : M S A) (handler : exn -> M S A) : M S A :=
  fun s =>
    match body s with
    | (Returned a, s') => (Returned a, s')
    | (Raised e, s') => handler e s'
    end.

Definition gets {S A} (f : S -> A) : M S A := fun s => (Returned (f s), s).

Definition modify {S} (f : S -> S) : M S unit := fun s => (Returned tt, f s).

End Raising.

Declare Scope raising_scope.
Delimit Scope raising_scope with raising.
Notation "x <- m ;; k" := (Raising.bind m (fun x => k))
  (at level 100, m at next level, right associativity) : raising_scope.
Notation "m ;;; k" := (Raising.bind m (fun _ => k))
  (at level 100, right associativity) : raising_scope.

(** ** [app/api/deps.py] *)

Module Deps.

(** The claims of a decoded token that the code reads. *)
Record payload : Type := {
  sub : option string;
  email : option string
}.

(** [jwt.decode(token, SECRET_KEY, algorithms=[ALGORITHM])]: the payload,
    a [JWTError] (bad signature, expired, malformed), or something else
    raised. *)
Inductive decoded : Type :=
  | claims (p : payload)
  | JWTError (msg : string)
  | decode_raised (e : exn).

(** The user dict [{"id": ..., "email": ...}]. *)
Record user : Type := {
  id : string;
  user_email : option string
}.

Definition user_of (p : payload) : option user :=
  match sub p with
  | Some user_id =>
      if truthy user_id then Some {| id := user_id; user_email := email p |}
      else None
  | None => None
  end.

Section WithDecoder.
Context (decode : string -> decoded).

Definition get_user_from_token (token : string) : option user :=
  match decode token with
  | claims p => user_of p
  | JWTError _ => None
  | decode_raised _ => None
  end.

(** [credentials.credentials] is the bearer token. *)
Definition get_current_user (credentials : string) : outcome user :=
  match get_user_from_token credentials with
  | Some user => Returned user
  | None => Raised (HTTPException 401 "Could not validate credentials")
  end.

(** Only [JWTError] is caught here. *)
Definition get_current_user_optional (credentials : option string)
    : outcome (option user) :=
  match credentials with
  | None => Returned None
  | Some token =>
      match decode token with
      | claims p => Returned (user_of p)
      | JWTError _ => Returned None
      | decode_raised e => Raised e
      end
  end.

End WithDecoder.

(** [settings.API_KEY] against the [X-API-Key] header. *)
Definition verify_api_key (API_KEY x_api_key : string) : outcome bool :=
  if negb (truthy API_KEY) then Returned true
  else if negb (String.eqb x_api_key API_KEY)
  then Raised (HTTPException 403 "Invalid API Key")
  else Returned true.

(** [supabase.table("user_profiles").select("role").eq("id", user_id)
    .single().execute()]: [None] without a client; otherwise the call
    raises, or gives the [data] of the reply: nothing, or a row whose
    [role] may be absent. *)
Definition profiles : Type := string -> outcome (option (option string)).

Definition verify_admin (supabase : option profiles) (current_user : user)
    : outcome user :=
  match supabase with
  | None => Raised (HTTPException 500 "Database not configured")
  | Some execute =>
      let body :=
        match execute (id current_user) with
        | Raised e => Raised e
        | Returned data =>
            match data with
            | Some (Some role) =>
                if String.eqb role "admin" then Returned current_user
                else Raised (HTTPException 403
                               "Not enough permissions. Admin role required.")
            | _ => Raised (HTTPException 403
                             "Not enough permissions. Admin role required.")
            end
        end in
      match body with
      | Returned user => Returned user
      | Raised e => Raised (HTTPException 403 "Forbidden")
      end
  end.

End Deps.

(** ** [app/api/v1/chat.py]: [DELETE /messages/{message_id}] *)

Module Messages.

Import Raising.
Local Open Scope raising_scope.

(** The columns of [messages] this handler reads. *)
Record stored_message : Type := {
  msg_id : string;
  msg_conversation_id : string
}.

Record tables : Type := {
  conversations : list Chat.conversation_row;
  messages : list stored_message
}.

Inductive statement : Type :=
  | select_message (message_id : string)
  | select_conversation (id user_id : string)
  | delete_from_messages (message_id : string).

(** The database behind [supabase], the statements executed so far, and
    what the database will reply to the next ones. *)
Record store : Type := Store {
  supabase : option tables;
  statements : list statement;
  db_script : list Chat.reply
}.

Definition has_id (message_id : string) (m : stored_message) : bool :=
  String.eqb (msg_id m) message_id.

Definition execute {A} (s : statement) (run : tables -> list A * tables)
    : M store (list A) :=
  fun st =>
    match supabase st with
    | None =>
        (Raised (AttributeError "'NoneType' object has no attribute 'table'"), st)
    | Some d =>
        let '(r, rest) := Chat.next_reply (db_script st) in
        let st := Store (supabase st) (statements st ++ [s]) rest in
        match r with
        | Chat.Refused e => (Raised e, st)
        | Chat.NoData => (Returned [], st)
        | Chat.Done =>
            let '(rows, d') := run d in
            (Returned rows, Store (Some d') (statements st) (db_script st))
        end
    end.

Definition delete_message (message_id current_user : string) : M store string :=
  configured <- gets (fun st => bool_decide (is_Some (supabase st))) ;;
  if negb configured then raise (HTTPException 500 "Database not configured")
  else
    try_except
      (let user_id := current_user in
       res <- execute (select_message message_id)
                (fun d => (List.filter (has_id message_id) (messages d), d)) ;;
       match res with
       | [] => raise (HTTPException 404 "Message not found")
       | found :: _ =>
           let conversation_id := msg_conversation_id found in
           conv_res <- execute (select_conversation conversation_id user_id)
                         (fun d =>
                            (List.filter (Chat.owned_by conversation_id user_id)
                                         (conversations d), d)) ;;
           match conv_res with
           | [] => raise (HTTPException 403 "Access denied")
           | _ :: _ =>
               execute (delete_from_messages message_id)
                 (fun d =>
                    (List.filter (has_id message_id) (messages d),
                     {| conversations := conversations d;
                        messages :=
                          List.filter (fun m => negb (has_id message_id m))
                                      (messages d) |})) ;;;
               ret "Message deleted successfully"
           end
       end)
      (fun e =>
         match e with
         | HTTPException _ _ => raise e
         | _ => raise (HTTPException 500 (exn_str e))
         end).

End Messages.

(** ** [app/api/v1/chat.py]: [/ws/chat], the whole connection *)

Module Session.

Import Raising.
Local Open Scope raising_scope.

(** The server around a connection: the world of the requests and the
    sockets that [manager] holds, each known by a number. *)
Record server : Type := Server {
  world : Chat.world;
  active_connections : list nat
}.

Definition lift {A} (m : Chat.M A) : M server A :=
  fun s =>
    let '(r, w) := m (world s) in
    (r, Server w (active_connections s)).

(** What the client does next: it sends a text, or its state is found
    [DISCONNECTED] before the next [receive_text]. *)
Inductive arrival : Type :=
  | received (data : string)
  | disconnected.

(** A connection: its socket, what [accept] does, and what arrives; when
    nothing is left to arrive, [receive_text] raises
    [WebSocketDisconnect]. *)
Record WebSocket : Type := {
  socket : nat;
  accept : option exn;
  incoming : list arrival
}.

(** [list.remove]. *)
Fixpoint remove (x : nat) (l : list nat) : option (list nat) :=
  match l with
  | [] => None
  | y :: l' =>
      if Nat.eqb y x then Some l'
      else (fun rest => y :: rest) <$> remove x l'
  end.

Definition connect_socket (websocket : nat) : M server unit :=
  modify (fun s => Server (world s) (active_connections s ++ [websocket])).

(** [manager.disconnect]. *)
Definition disconnect (websocket : nat) : M server unit :=
  fun s =>
    match remove websocket (active_connections s) with
    | Some l => (Returned tt, Server (world s) l)
    | None => (Raised (ValueError "list.remove(x): x not in list"), s)
    end.

(** [websocket.close()], a call on the link like [send_text]. *)
Definition close : M server unit :=
  lift (fun w =>
          let '(o, rest) := Chat.next_fault (Chat.link_script w) in
          let w := Chat.set_link_script rest w in
          match o with
          | Some e => (Raised e, w)
          | None => (Returned tt, w)
          end).

Section Endpoint.
Context (agent_executor : Chat.executor) (decode : string -> Deps.decoded).

(** The [while True] loop. *)
Fixpoint serve (websocket : nat) (user_id : string)
    (conversation_id : option string) (incoming : list arrival) : M server unit :=
  match incoming with
  | [] => raise WebSocketDisconnect
  | disconnected :: _ => ret tt
  | received data :: rest =>
      leave <- lift (Chat.turn agent_executor user_id conversation_id data) ;;
      match leave with
      | Chat.closed => disconnect websocket
      | Chat.next_turn conversation_id => serve websocket user_id conversation_id rest
      end
  end.

(** The error frame, then the socket is forgotten and closed. *)
Definition turn_away (websocket : nat) (content : string) : M server unit :=
  lift (Chat.send_personal_message (Chat.ev_error content)) ;;;
  disconnect websocket ;;;
  close.

Definition websocket_endpoint (websocket : WebSocket)
    (conversation_id token : option string) : M server unit :=
  accepted <-
    try_except
      (match accept websocket with
       | Some e => raise e
       | None => connect_socket (socket websocket) ;;; ret true
       end)
      (fun e => ret false) ;;
  if negb accepted then ret tt
  else
    let user :=
      match token with
      | Some t => if truthy t then Deps.get_user_from_token decode t else None
      | None => None
      end in
    match user with
    | None => turn_away (socket websocket) "Unauthorized"
    | Some user =>
        let user_id := Deps.id user in
        try_except
          (denied <-
             (if Chat.given conversation_id then
                conv_check <-
                  lift (Chat.query_conversation
                          (default EmptyString conversation_id) user_id) ;;
                match conv_check with
                | [] =>
                    turn_away (socket websocket) "Access denied to conversation" ;;;
                    ret true
                | _ :: _ => ret false
                end
              else ret false) ;;
           if denied : bool then ret tt
           else serve (socket websocket) user_id conversation_id (incoming websocket))
          (fun e =>
             match e with
             | WebSocketDisconnect => disconnect (socket websocket)
             | _ => disconnect (socket websocket)
             end)
    end.

End Endpoint.

End Session.

(** ** [app/core/resources.py]: the Pinecone client and index *)

Module ResourcesCache.

Import Raising.
Local Open Scope raising_scope.

(** The constructor calls that leave the process. *)
Inductive call : Type :=
  | Pinecone_call (api_key : string)
  | Index_call (index_name : string).

Section WithClient.
Context {client index : Type}.

(** The two cached attributes of the singleton, and the calls made so
    far.  The locks are not modelled: one thread is. *)
Record Resources : Type := {
  _pinecone_client : option client;
  _pinecone_index : option index;
  calls : list call
}.

(** The settings, and what the [n]-th call that leaves the process does:
    [Pinecone(api_key=...)] and [client.Index(index_name)]. *)
Context (PINECONE_API_KEY PINECONE_INDEX_NAME : string)
  (Pinecone : nat -> string -> outcome client)
  (Index : nat -> client -> string -> outcome index).

Definition record (c : call) (self : Resources) : Resources :=
  {| _pinecone_client := _pinecone_client self;
     _pinecone_index := _pinecone_index self;
     calls := calls self ++ [c] |}.

(** The property [pc]. *)
Definition pc : M Resources (option client) :=
  cached <- gets _pinecone_client ;;
  match cached with
  | Some client => ret (Some client)
  | None =>
      let api_key := PINECONE_API_KEY in
      if negb (truthy api_key) then ret None
      else
        n <- gets (fun self => length (calls self)) ;;
        modify (record (Pinecone_call api_key)) ;;;
        match Pinecone n api_key with
        | Raised e => raise e
        | Returned client =>
            modify (fun self =>
                      {| _pinecone_client := Some client;
                         _pinecone_index := _pinecone_index self;
                         calls := calls self |}) ;;;
            gets _pinecone_client
        end
  end.

Definition get_index (index_name : option string) : M Resources (option index) :=
  let index_name :=
    match index_name with
    | Some name => name
    | None =>
        if truthy PINECONE_INDEX_NAME then PINECONE_INDEX_NAME
        else "chatall-chatbot"
    end in
  cached <- gets _pinecone_index ;;
  match cached with
  | Some index => ret (Some index)
  | None =>
      client <- pc ;;
      match client with
      | Some client =>
          n <- gets (fun self => length (calls self)) ;;
          modify (record (Index_call index_name)) ;;;
          match Index n client index_name with
          | Raised e => raise e
          | Returned index =>
              modify (fun self =>
                        {| _pinecone_client := _pinecone_client self;
                           _pinecone_index := Some index;
                           calls := calls self |})
          end
      | None => ret tt
      end ;;;
      gets _pinecone_index
  end.

End WithClient.

End ResourcesCache.

(** * Part II: the vocabulary of the properties *)

(** ** [graph.py] *)

Section GraphVocabulary.
Import Graph.
Context `{Text}.

Definition tool_call_count (ms : list message) : nat :=
  length (filter (fun m => carries_tool_calls m = true) ms).

(** A handle fails on an input: there is no model behind it, or the model
    raises. *)
Definition fails (input : list message) (nb : string * option backend) : Prop :=
  match nb.2 with
  | Some b => exists e, b input = Raised e
  | None => True
  end.

(** The names behind which there is a model. *)
Definition reachable (models : list (string * option backend)) : list string :=
  omap (fun nb => match nb.2 with Some _ => Some nb.1 | None => None end) models.

(** The line logged when [model_name] raises [e]. *)
Definition failure_line (model_name : string) (e : exn) : string :=
  let error_str := lower (exn_str e) in
  if py_in "not found" error_str || py_in "models/" error_str
  then "WARNING Graph: Model " +:+ model_name +:+
       " returned NotFound error (" +:+ slice_to 120 error_str +:+
       "). Skipping to next fallback."
  else "DEBUG Graph: " +:+ model_name +:+ " FAILED: " +:+ slice_to 100 error_str.

End GraphVocabulary.

(** ** [legal_tools.py] *)

Section LegalToolsVocabulary.
Import LegalTools.
Context {vector score : Type}.

Abbreviation Resources := (@Resources vector score).

(** The ways the vector search comes back without data although an index
    is configured. *)
Inductive search_fails (resources : Resources) (search_query : string) : Prop :=
  | embeddings_unavailable e :
      embeddings resources = Raised e ->
      search_fails resources search_query
  | index_unreachable embed e :
      embeddings resources = Returned embed ->
      get_index resources = Raised e ->
      search_fails resources search_query
  | embedding_raises embed index e :
      embeddings resources = Returned embed ->
      get_index resources = Returned (Some index) ->
      embed search_query = Raised e ->
      search_fails resources search_query
  | query_raises embed index query_vector e :
      embeddings resources = Returned embed ->
      get_index resources = Returned (Some index) ->
      embed search_query = Returned query_vector ->
      index query_vector = Raised e ->
      search_fails resources search_query
  | zero_matches embed index query_vector reply :
      embeddings resources = Returned embed ->
      get_index resources = Returned (Some index) ->
      embed search_query = Returned query_vector ->
      index query_vector = Returned reply ->
      reply = None \/ reply = Some [] ->
      search_fails resources search_query.

(** The embedding model loads and no index is configured. *)
Definition index_unconfigured (resources : Resources) : Prop :=
  (exists embed, embeddings resources = Returned embed) /\
  get_index resources = Returned None.

End LegalToolsVocabulary.

(** ** [chat.py] *)

Section ChatVocabulary.
Import Chat.
Local Open Scope chat_scope.

(** A relation between the world before and the world after holds along a
    computation. *)
Definition along (R : relation world) {A : Type} (m : M A) : Prop :=
  forall w, R w (m w).2.

(** A computation that never raises. *)
Definition returns {A : Type} (m : M A) : Prop :=
  forall w, exists a, (m w).1 = Returned a.

(** The tables only grow at their end: no row is changed, moved or
    removed. *)
Definition db_grows (before after : option database) : Prop :=
  match before, after with
  | Some d, Some d' =>
      messages d `prefix_of` messages d' /\
      conversations d `prefix_of` conversations d'
  | None, None => True
  | _, _ => False
  end.

(** What a computation that only talks to the database leaves alone. *)
Record db_only (w w' : world) : Prop := DbOnly {
  db_only_tables : db_grows (supabase w) (supabase w');
  db_only_statements : statements w `prefix_of` statements w';
  db_only_memory : memory w' = memory w;
  db_only_agent_calls : agent_calls w' = agent_calls w;
  db_only_outbox : outbox w' = outbox w;
  db_only_wire : wire w' = wire w;
  db_only_memory_script : memory_script w' = memory_script w;
  db_only_link_script : link_script w' = link_script w;
  db_only_disk_script : disk_script w' = disk_script w
}.

(** Between two worlds the socket was handed [sent], in this order, and
    [delivered] of it reached the client, in the same order. *)
Definition grows (w w' : world) (sent delivered : list frame) : Prop :=
  outbox w' = outbox w ++ sent /\
  wire w' = wire w ++ delivered /\
  delivered `sublist_of` sent.

(** The same, for code that neither runs the agent nor touches its
    memory. *)
Definition emits (w w' : world) (sent delivered : list frame) : Prop :=
  grows w w' sent delivered /\
  agent_calls w' = agent_calls w /\
  memory w' = memory w.

(** The frame an event of the run becomes, if any. *)
Definition outward (e : agent_event) : option frame :=
  match e with
  | on_tool_start name => Some (ev_status ("Running tool: " +:+ name +:+ "..."))
  | on_chat_model_stream c => (fun content => ev_token (Str content)) <$> fragment c
  | on_tool_end _ | on_other _ => None
  end.

Definition is_mid (f : frame) : bool :=
  match f with
  | ev_status _ | ev_token _ => true
  | _ => false
  end.

Definition is_terminal (f : frame) : bool :=
  match f with
  | ev_end _ | ev_error _ => true
  | _ => false
  end.

(** [(status|token)* (end|error)]. *)
Fixpoint after_start (l : list frame) : bool :=
  match l with
  | [] => false
  | [f] => is_terminal f
  | f :: l' => is_mid f && after_start l'
  end.

(** [meta? start (status|token)* (end|error)]. *)
Definition turn_word (l : list frame) : bool :=
  match l with
  | ev_meta _ :: ev_start :: l' => after_start l'
  | ev_start :: l' => after_start l'
  | _ => false
  end.

Definition at_most_meta (l : list frame) : Prop :=
  l = [] \/ exists id, l = [ev_meta id].

Definition at_most_token (l : list frame) : Prop :=
  l = [] \/ exists c, l = [ev_token c].

Definition at_most_terminal (l : list frame) : Prop :=
  l = [] \/ (exists content, l = [ev_error content]) \/ (exists c, l = [ev_end c]).

(** What a turn hands to the socket, given the events of its run: the
    identifier of a conversation just created, [start], the frames of the
    events reached, in their order, the token of the fallback, and one
    closing frame. *)
Inductive turn_frames (events : list agent_event) : list frame -> Prop :=
  | TurnFrames metas n fallback terminal :
      at_most_meta metas ->
      at_most_token fallback ->
      at_most_terminal terminal ->
      turn_frames events
        (metas ++ [ev_start] ++ omap outward (take n events) ++ fallback ++ terminal).

(** A script without a failure in it. *)
Definition calm (script : list (option exn)) : Prop := Forall (eq None) script.

(** The socket, the checkpointer and the log file will not fail; the
    database may. *)
Definition healthy (w : world) : Prop :=
  calm (link_script w) /\ calm (memory_script w) /\ calm (disk_script w).

(** From [w] to [w'] the socket was handed [frames], all of them reached
    the client, the memory was left alone and nothing has started to
    fail. *)
Definition delivers (w w' : world) (frames : list frame) : Prop :=
  outbox w' = outbox w ++ frames /\
  wire w' = wire w ++ frames /\
  memory w' = memory w /\
  healthy w'.

Definition is_status (f : frame) : bool :=
  match f with
  | ev_status _ => true
  | _ => false
  end.

(** The run streams no fragment of text. *)
Definition no_fragments (events : list agent_event) : Prop :=
  Forall (fun e => match e with
                   | on_chat_model_stream c => fragment c = None
                   | _ => True
                   end) events.

(** The frames handed to the socket from [w] to [w'], all delivered. *)
Definition passes (w w' : world) (frames : list frame) : Prop :=
  outbox w' = outbox w ++ frames /\ wire w' = wire w ++ frames.

(** The [pdf_context] checkpointed for a conversation; the empty text when
    there is none. *)
Definition pdf_context_of (w : world) (conversation_id : string) : string :=
  default EmptyString
    (v_pdf_context (default no_values (memory w !! Some conversation_id))).

(** From [w] to [w'] the context of the conversation was at most extended
    at its end, and the checkpointer has not started to fail. *)
Definition extends (conversation_id : string) (w w' : world) : Prop :=
  (exists more,
      pdf_context_of w' conversation_id = pdf_context_of w conversation_id +:+ more) /\
  (calm (memory_script w) -> calm (memory_script w')).

(** The tables of the database only grow at their end. *)
Definition tables_kept (w w' : world) : Prop := db_grows (supabase w) (supabase w').

(** No run of the agent was started. *)
Definition calls_kept (w w' : world) : Prop := agent_calls w' = agent_calls w.

(** The database answers the next [n] statements. *)
Definition obliging (n : nat) (script : list reply) : Prop :=
  Forall (eq Done) (take n script).

(** The window of history the code reads: the first 20 rows of the
    conversation in creation order. *)
Definition window (d : database) (conversation_id : string) : list (string * content) :=
  history_of (take 20 (List.filter (of_conversation conversation_id) (messages d))).

(** The ways the first [try] of [POST /chat] raises inside: the ownership
    check is refused, it finds no row of this user (which raises the 403),
    or the history select is refused.  [rest] is what is left of the
    script afterwards. *)
Inductive fetch_fails (id current_user : string) (d : database)
    (script rest : list reply) : Prop :=
  | check_refused e :
      script = Refused e :: rest ->
      fetch_fails id current_user d script rest
  | rows_hidden :
      script = NoData :: rest ->
      fetch_fails id current_user d script rest
  | not_owned :
      next_reply script = (Done, rest) ->
      List.filter (owned_by id current_user) (conversations d) = [] ->
      fetch_fails id current_user d script rest
  | history_refused e :
      script = Done :: Refused e :: rest ->
      List.filter (owned_by id current_user) (conversations d) <> [] ->
      fetch_fails id current_user d script rest.

End ChatVocabulary.

Section RunVocabulary.
Import Chat.
Context (agent_executor : executor).

(** The run a turn started, if it started one: its events are those the
    executor streams for the input and thread of the call, from the memory
    the turn began with. *)
Definition run_of (w w' : world) (thread_id : thread)
    (input : list (string * content)) (events : list agent_event) : Prop :=
  (agent_calls w' = agent_calls w /\ events = []) \/
  (agent_calls w' = agent_calls w ++ [(thread_id, input)] /\
   events = (astream_events agent_executor input thread_id (memory w)).1.1).

(** What a turn from [w] to [w'] does, when its run, if any, is on
    [thread_id] with [input]. *)
Definition turn_outcome (w w' : world) (thread_id : thread)
    (input : list (string * content)) : Prop :=
  exists sent delivered events,
    grows w w' sent delivered /\
    turn_frames events sent /\
    run_of w w' thread_id input events.

End RunVocabulary.

(** ** [graph.py]: the compiled graph *)

Section GraphRunVocabulary.
Import Graph.

(** The backend calls of a trace: which handle, with which messages. *)
Definition calls (t : list event) : list (string * list message) :=
  omap (fun e => match e with
                 | Invoked n input => Some (n, input)
                 | Logged _ => None
                 end) t.

(** [k] rounds of a model response that asks for tools and the tools
    that answer it, then the response that ends the run. *)
Definition rounds (k : nat) : list string :=
  mjoin (replicate k ["agent"; "tools"]) ++ ["agent"].

End GraphRunVocabulary.

(** ** [legal_tools.py]: the other tools *)

Section ToolsVocabulary.
Import WebSearch.

(** A search engine that gives the same reply to every text. *)
Definition answering (s : search) : string -> search := fun _ => s.

(** A line of the fee list of [calculate_fee]. *)
Definition fee_line (entry : string * string) : string :=
  "- **" +:+ entry.1 +:+ ":** " +:+ entry.2 +:+ nl.

End ToolsVocabulary.

(** ** [chat.py]: the whole connection *)

Section SessionVocabulary.
Import Chat Session.

(** From [s] to [s'] the socket was handed the frames of [turns], one
    group a turn, each in the order of a turn, and at most one run of the
    agent was started for each. *)
Definition converses (s s' : server) (turns : list (list frame)) : Prop :=
  outbox (world s') = outbox (world s) ++ concat turns /\
  Forall (fun group => exists events, turn_frames events group) turns /\
  length (agent_calls (world s')) <= length (agent_calls (world s)) + length turns.

(** Nothing was read from or written to the database, no run of the
    agent was started and its memory was left alone. *)
Definition untouched (w w' : Chat.world) : Prop :=
  supabase w' = supabase w /\
  statements w' = statements w /\
  agent_calls w' = agent_calls w /\
  memory w' = memory w.

End SessionVocabulary.

(** ** [chat.py]: uploads, new conversations and streamed answers *)

Section ChatMoreVocabulary.
Import Chat.
Context `{Text}.

(** Why [upload_pdf] cannot use a file, with the text of the exception:
    reading it raises, or no page has text. *)
Inductive unreadable (file : UploadFile) : string -> Prop :=
  | reading_raises e :
      pages file = Raised e ->
      unreadable file (exn_str e)
  | no_text pages_read :
      pages file = Returned pages_read ->
      truthy (strip (remove_nul (extract pages_read))) = false ->
      unreadable file "PDF không chứa văn bản có thể đọc được".

(** The text of a readable file. *)
Definition readable (file : UploadFile) (text : string) : Prop :=
  exists pages_read,
    pages file = Returned pages_read /\
    text = remove_nul (extract pages_read) /\
    truthy (strip text) = true.

(** The text a run streams: its fragments, in the order of the events. *)
Definition streamed_text (events : list agent_event) : string :=
  foldr (fun e rest =>
           match outward e with
           | Some (ev_token (Str fragment)) => fragment +:+ rest
           | _ => rest
           end) EmptyString events.

End ChatMoreVocabulary.

(** ** Worked instances *)

Module GraphExamples.
Import Graph.

Definition call (n : string) : tool_call := ToolCall n "{}".

Definition asking : message := Message ai EmptyString (Some [call "web_search"]).

Definition five_rounds : AgentState :=
  {| messages := [asking; asking; asking; asking; asking; asking];
     summary := None; pdf_context := None |}.

Definition always (o : outcome message) : backend := fun _ => o.

Definition answer : message := AIMessage "Xin chào".

Definition chain_abc : handles :=
  {| llama_70b_with_tools := always (Raised (OtherException "model not found"));
     llama_8b_with_tools := always (Raised (OtherException "429 rate limit"));
     gemini_with_tools := Some (always (Returned answer)) |}.

Definition chain_down : handles :=
  {| llama_70b_with_tools := always (Raised (OtherException "model not found"));
     llama_8b_with_tools := always (Raised (OtherException "boom"));
     gemini_with_tools := None |}.

Definition hello : AgentState :=
  {| messages := [Message human "Xin chào" None];
     summary := None; pdf_context := None |}.

End GraphExamples.

Module LegalToolsExamples.
Import LegalTools.

Definition percent (n : nat) : string := pretty n +:+ "%".

Definition embed : string -> outcome unit := fun _ => Returned tt.

(** The embedding model loads, no Pinecone key is set. *)
Definition unconfigured : Resources (vector := unit) (score := nat) :=
  {| fast_llm := None;
     embeddings := Returned embed;
     get_index := Returned None |}.

(** Everything is up and the index knows nothing about the query. *)
Definition empty_index : Resources (vector := unit) (score := nat) :=
  {| fast_llm := None;
     embeddings := Returned embed;
     get_index := Returned (Some (fun _ => Returned (Some []))) |}.

(** Everything is up and the index finds a vector stored without
    metadata. *)
Definition bare_match : Resources (vector := unit) (score := nat) :=
  {| fast_llm := None;
     embeddings := Returned embed;
     get_index :=
       Returned (Some (fun _ =>
         Returned (Some [ {| hit_metadata := None; hit_score := Some 87 |} ]))) |}.

End LegalToolsExamples.

Module ChatExamples.
Import Chat.

(** A request's surroundings where nothing has happened yet and nothing
    will fail. *)
Definition fresh (db : option database) : world :=
  World db ∅ [] [] [] [] [] [] [] [].

Definition said (text : string) : values :=
  {| v_messages := Some [Str text]; v_summary := None; v_pdf_context := None |}.

(** An agent that runs one tool, streams a tool-call chunk and no text, and
    leaves its answer in the checkpoint of the thread. *)
Definition silent_agent : executor :=
  {| ainvoke := fun input thread_id m =>
       (Returned [Str "Xin chào"], <[thread_id := said "Xin chào"]> m);
     astream_events := fun input thread_id m =>
       ([ on_tool_start "legal_assistant";
          on_tool_end "legal_assistant";
          on_chat_model_stream
            {| tool_call_chunks := true; kwargs_tool_calls := false;
               chunk_content := Str EmptyString |} ],
        None,
        <[thread_id := said "Xin chào"]> m) |}.

Definition letter (i : nat) : string := String (ascii_of_nat (64 + i)) EmptyString.

(** Twenty-one messages, [A] to [U], of conversation [c1]. *)
Definition long_conversation : list message_row :=
  map (fun i => {| m_conversation_id := "c1"; m_role := "user";
                   m_content := Str (letter i) |})
      (seq 1 21).

Definition long_db : database :=
  {| conversations := [ {| c_id := "c1"; c_user_id := "u1"; c_title := "hỏi đáp" |} ];
     messages := long_conversation |}.

(** A conversation of user [u2]. *)
Definition other_db : database :=
  {| conversations := [ {| c_id := "c2"; c_user_id := "u2"; c_title := "riêng" |} ];
     messages := [ {| m_conversation_id := "c2"; m_role := "user";
                      m_content := Str "bí mật" |} ] |}.

Definition ask (id text : string) : ChatRequest :=
  {| message := text; conversation_id := Some id |}.

Definition alpha : UploadFile :=
  {| filename := Some "a.pdf"; pages := Returned [Some "Alpha"] |}.

Definition beta : UploadFile :=
  {| filename := Some "b.pdf"; pages := Returned [Some "Beta"; None] |}.

Definition no_trace : exn -> string := fun _ => EmptyString.

(** The window the claim of C8 describes: the latest [n] rows. *)
Definition most_recent {A : Type} (n : nat) (rows : list A) : list A :=
  drop (length rows - n) rows.

Definition most_recent_window (d : database) (conversation_id : string)
    : list (string * content) :=
  history_of (most_recent 20 (List.filter (of_conversation conversation_id) (messages d))).

End ChatExamples.

Module ToolsExamples.
Import WebSearch DateInfo.

Definition row (n : string) : result :=
  {| r_title := Some ("Luat " +:+ n);
     r_body := Some "Noi dung";
     r_href := Some ("https://example.vn/" +:+ n) |}.

(** A row without its link. *)
Definition broken : result :=
  {| r_title := Some "Luat 4"; r_body := Some "Noi dung"; r_href := None |}.

(** Days counted from a Monday, seven to a week. *)
Definition nth_day (d : nat) : weekday_index :=
  match d mod 7 with
  | 0 => day0 | 1 => day1 | 2 => day2 | 3 => day3 | 4 => day4 | 5 => day5
  | _ => day6
  end.

Definition day_count : Calendar :=
  {| datetime := nat;
     strftime := fun d => "day " +:+ pretty d;
     weekday := nth_day;
     iso_week := fun d => S (d / 7);
     plus_days := Nat.add |}.

End ToolsExamples.

Module ServiceExamples.

(** A decoder that knows the token of user [u1]. *)
Definition one_token (token : string) : Deps.decoded :=
  if String.eqb token "good"
  then Deps.claims {| Deps.sub := Some "u1"; Deps.email := Some "u1@example.vn" |}
  else Deps.JWTError "Signature verification failed".

Definition u1 : Deps.user :=
  {| Deps.id := "u1"; Deps.user_email := Some "u1@example.vn" |}.

(** Two conversations, of [u1] and of [u2], with a message each. *)
Definition board : Messages.tables :=
  {| Messages.conversations :=
       [ {| Chat.c_id := "c1"; Chat.c_user_id := "u1"; Chat.c_title := "hỏi đáp" |};
         {| Chat.c_id := "c2"; Chat.c_user_id := "u2"; Chat.c_title := "riêng" |} ];
     Messages.messages :=
       [ {| Messages.msg_id := "m1"; Messages.msg_conversation_id := "c1" |};
         {| Messages.msg_id := "m2"; Messages.msg_conversation_id := "c2" |} ] |}.

Definition shelf : Messages.store := Messages.Store (Some board) [] [].

(** A client on socket 7 that is accepted. *)
Definition caller (incoming : list Session.arrival) : Session.WebSocket :=
  {| Session.socket := 7; Session.accept := None; Session.incoming := incoming |}.

Definition lobby (db : option Chat.database) : Session.server :=
  Session.Server (ChatExamples.fresh db) [].

(** An agent that streams its answer in two fragments. *)
Definition talkative_agent : Chat.executor :=
  {| Chat.ainvoke := fun input thread_id m =>
       (Returned [Chat.Str "Xin chào"], <[thread_id := ChatExamples.said "Xin chào"]> m);
     Chat.astream_events := fun input thread_id m =>
       ([ Chat.on_chat_model_stream
            {| Chat.tool_call_chunks := false; Chat.kwargs_tool_calls := false;
               Chat.chunk_content := Chat.Str "Xin " |};
          Chat.on_tool_start "web_search";
          Chat.on_chat_model_stream
            {| Chat.tool_call_chunks := false; Chat.kwargs_tool_calls := false;
               Chat.chunk_content := Chat.Str "chào" |} ],
        None,
        <[thread_id := ChatExamples.said "Xin chào"]> m) |}.

(** An agent whose runs raise. *)
Definition failing_agent : Chat.executor :=
  {| Chat.ainvoke := fun input thread_id m => (Raised (OtherException "quota"), m);
     Chat.astream_events := fun input thread_id m =>
       ([], Some (OtherException "quota"), m) |}.

(** A Pinecone whose calls work: a client is its key, an index its name. *)
Definition Pinecone (n : nat) (api_key : string) : outcome string :=
  Returned api_key.

Definition Index (n : nat) (client index_name : string) : outcome string :=
  Returned index_name.

Definition cold : @ResourcesCache.Resources string string :=
  {| ResourcesCache._pinecone_client := None;
     ResourcesCache._pinecone_index := None;
     ResourcesCache.calls := [] |}.

Definition warm : @ResourcesCache.Resources string string :=
  {| ResourcesCache._pinecone_client := Some "key";
     ResourcesCache._pinecone_index := Some "laws";
     ResourcesCache.calls :=
       [ResourcesCache.Pinecone_call "key"; ResourcesCache.Index_call "laws"] |}.

(** A file whose pages have no text. *)
Definition scanned : Chat.UploadFile :=
  {| Chat.filename := Some "scan.pdf"; Chat.pages := Returned [None; None] |}.

End ServiceExamples.

(** * Part III: proofs *)

(** ** Text *)

Section TextFacts.

Lemma append_cons (c : ascii) (p s : string) :
  String c p +:+ s = String c (p +:+ s).
Proof. reflexivity. Qed.

Lemma startswith_app (p s : string) : startswith p (p +:+ s) = true.
Proof.
  induction p as [|c p IH]; [reflexivity|].
  rewrite append_cons. cbn [startswith]. rewrite Ascii.eqb_refl. exact IH.
Qed.

Lemma startswith_split (p s : string) :
  startswith p s = true -> exists post, s = p +:+ post.
Proof.
  revert s. induction p as [|c p IH]; intros s Hs.
  - exists s. reflexivity.
  - destruct s as [|d s]; [discriminate|]. cbn [startswith] in Hs.
    apply andb_true_iff in Hs as [Hc Hs]. apply Ascii.eqb_eq in Hc as ->.
    destruct (IH s Hs) as [post ->]. exists post. reflexivity.
Qed.

Lemma py_in_startswith (needle hay : string) :
  startswith needle hay = true -> py_in needle hay = true.
Proof. intros Hs. destruct hay; cbn [py_in]; rewrite Hs; reflexivity. Qed.

(** [py_in] decides occurrence as a contiguous fragment. *)
Lemma py_in_spec (needle hay : string) :
  py_in needle hay = true <-> exists pre post, hay = pre +:+ needle +:+ post.
Proof.
  split.
  - induction hay as [|c hay IH]; cbn [py_in]; intros Hin.
    + rewrite orb_false_r in Hin. destruct (startswith_split _ _ Hin) as [post ->].
      exists EmptyString, post. reflexivity.
    + apply orb_true_iff in Hin as [Hin|Hin].
      * destruct (startswith_split _ _ Hin) as [post ->].
        exists EmptyString, post. reflexivity.
      * destruct (IH Hin) as (pre & post & ->).
        exists (String c pre), post. reflexivity.
  - intros (pre & post & ->). induction pre as [|c pre IH].
    + change (EmptyString +:+ needle +:+ post) with (needle +:+ post).
      apply py_in_startswith, startswith_app.
    + rewrite append_cons. cbn [py_in]. rewrite IH. apply orb_true_r.
Qed.

End TextFacts.

(** ** [graph.py] *)

Section GraphFacts.
Import Graph.
Context `{Text}.

(** *** [should_continue] *)

Lemma tool_call_count_app (l k : list message) :
  tool_call_count (l ++ k) = tool_call_count l + tool_call_count k.
Proof. unfold tool_call_count. now rewrite filter_app, length_app. Qed.

(** The route in terms of the whole history: the count that is compared
    with 4 includes the latest message. *)
Lemma should_continue_snoc (state : AgentState) (prior : list message)
    (latest : message) :
  messages state = prior ++ [latest] ->
  should_continue state =
    if 4 <? tool_call_count (prior ++ [latest]) then END
    else if carries_tool_calls latest then tools else END.
Proof.
  intros Hm. unfold should_continue. rewrite Hm, last_snoc. reflexivity.
Qed.

(** *** [call_model] *)

Lemma invocations_app (t u : list event) :
  invocations (t ++ u) = invocations t ++ invocations u.
Proof. apply omap_app. Qed.

Lemma ainvoke_invocations model_name model input t :
  invocations (ainvoke model_name model input t).2 =
    invocations t ++ match model with Some _ => [model_name] | None => [] end.
Proof.
  destruct model; cbn.
  - now rewrite invocations_app.
  - now rewrite app_nil_r.
Qed.

Lemma reachable_cons n m (rest : list (string * option backend)) :
  reachable ((n, m) :: rest) =
    match m with Some _ => [n] | None => [] end ++ reachable rest.
Proof. unfold reachable. cbn. now destruct m. Qed.

(** A failing handle raises, and is reached only if there is a model
    behind it. *)
Lemma ainvoke_fails model_name model input t :
  fails input (model_name, model) ->
  exists e t1,
    ainvoke model_name model input t = (Raised e, t1) /\
    invocations t1 = invocations t ++ reachable [(model_name, model)].
Proof.
  unfold fails. intros Hfail.
  pose proof (ainvoke_invocations model_name model input t) as Hinv.
  destruct model as [b|]; cbn in Hfail |- *.
  - destruct Hfail as [e ->]. exists e. eexists. split; [reflexivity|].
    exact Hinv.
  - eexists _, t. split; [reflexivity|]. now rewrite app_nil_r.
Qed.

(** Traces are compared through the backends they reached: log lines
    drop out and appends reassociate. *)
Ltac trace_norm :=
  repeat first
    [ rewrite invocations_app
    | rewrite reachable_cons
    | rewrite <- app_assoc
    | rewrite app_nil_r
    | progress cbn [invocations omap list_omap app reachable] ].

(** One iteration of the loop, with the three [continue] branches read as
    the one thing they do. *)
Lemma fallback_loop_cons model_name model rest input last_error t :
  fallback_loop ((model_name, model) :: rest) input last_error t =
    match ainvoke model_name model input
            (t ++ [Logged ("DEBUG Graph: Attempting model " +:+ model_name +:+ "...")])
    with
    | (Returned response, t1) =>
        (inl response, t1 ++ [Logged ("DEBUG Graph: " +:+ model_name +:+ " SUCCESS.")])
    | (Raised e, t1) =>
        fallback_loop rest input (Some e) (t1 ++ [Logged (failure_line model_name e)])
    end.
Proof.
  cbn [fallback_loop]. unfold Eff.bind at 1 2. cbn [log_to_file Eff.modify].
  destruct (ainvoke _ _ _ _) as [[response|e] t1]; [reflexivity|].
  unfold failure_line.
  destruct (py_in "not found" _ || py_in "models/" _); [reflexivity|].
  unfold Eff.bind at 1. cbn [log_to_file Eff.modify].
  destruct (_ || _); reflexivity.
Qed.

Lemma fallback_loop_exhausted models input last_error t :
  Forall (fails input) models ->
  exists last_error' t',
    fallback_loop models input last_error t = (inr last_error', t') /\
    invocations t' = invocations t ++ reachable models.
Proof.
  intros Hall. revert last_error t.
  induction Hall as [|[model_name model] rest Hfail _ IH]; intros last_error t.
  - exists last_error, t. cbn. now rewrite app_nil_r.
  - rewrite fallback_loop_cons.
    destruct (ainvoke_fails model_name model input
                (t ++ [Logged ("DEBUG Graph: Attempting model " +:+ model_name +:+ "...")])
                Hfail) as (e & t1 & -> & Hinv).
    destruct (IH (Some e) (t1 ++ [Logged (failure_line model_name e)]))
      as (le' & t' & Heq & Ht').
    exists le', t'. split; [exact Heq|].
    rewrite Ht'. trace_norm. rewrite Hinv. trace_norm. reflexivity.
Qed.

Lemma fallback_loop_first_success pre model_name (b : backend) post input
    last_error t r :
  Forall (fails input) pre ->
  b input = Returned r ->
  exists t',
    fallback_loop (pre ++ (model_name, Some b) :: post) input last_error t
      = (inl r, t') /\
    invocations t' = invocations t ++ reachable pre ++ [model_name].
Proof.
  intros Hall Hok. revert last_error t.
  induction Hall as [|[n m] rest Hfail _ IH]; intros last_error t.
  - cbn [app]. rewrite fallback_loop_cons. cbn. rewrite Hok.
    eexists; split; [reflexivity|].
    rewrite !invocations_app. cbn. now rewrite !app_nil_r.
  - cbn [app]. rewrite fallback_loop_cons.
    destruct (ainvoke_fails n m input
                (t ++ [Logged ("DEBUG Graph: Attempting model " +:+ n +:+ "...")])
                Hfail) as (e & t1 & -> & Hinv).
    destruct (IH (Some e) (t1 ++ [Logged (failure_line n e)])) as (t' & Heq & Ht').
    exists t'. split; [exact Heq|].
    rewrite Ht'. trace_norm. rewrite Hinv. trace_norm. reflexivity.
Qed.

(** C1. Tool-call ceiling: when more than 4 of the messages before the
    latest one carry tool calls, [should_continue] routes to [END],
    whatever the latest response requests; 5 such messages are the first
    instance. *)
Theorem should_continue_ceiling (state : AgentState) (prior : list message)
    (latest : message) :
  messages state = prior ++ [latest] ->
  4 < tool_call_count prior ->
  should_continue state = END.
Proof.
  intros Hm Hc. rewrite (should_continue_snoc state prior latest Hm).
  rewrite tool_call_count_app.
  assert ((4 <? tool_call_count prior + tool_call_count [latest]) = true) as ->
    by (apply Nat.ltb_lt; lia).
  reflexivity.
Qed.

(** C3. All-fail safety: when every handle of the chain fails,
    [call_model] returns the fixed apology as an assistant message. *)
Theorem call_model_all_fail (h : handles) (state : AgentState) (t : list event) :
  Forall (fails (formatted_messages state)) (models_to_try h) ->
  (call_model h state t).1 = [AIMessage apology].
Proof.
  intros Hall. unfold call_model, Eff.bind.
  destruct (fallback_loop_exhausted _ _ None t Hall) as (le & t' & -> & _).
  reflexivity.
Qed.

Lemma models_to_try_prefix h pre model_name (b : backend) post :
  models_to_try h = pre ++ (model_name, Some b) :: post ->
  reachable pre = pre.*1.
Proof.
  unfold models_to_try. intros Heq.
  destruct pre as [|x0 [|x1 [|x2 pre]]]; cbn in Heq.
  - reflexivity.
  - injection Heq as <- _. reflexivity.
  - injection Heq as <- <- _. reflexivity.
  - injection Heq as _ _ _ Heq. now destruct pre.
Qed.

(** C4. Fallback ordering: when the handles before some backend of the
    chain fail and that backend answers, [call_model] returns its answer;
    the backends reached are the failing ones, once each and in chain
    order, then the answering one, and nothing after it. *)
Theorem call_model_fallback_order (h : handles) (state : AgentState)
    (t : list event) pre model_name (b : backend) post (r : message) :
  models_to_try h = pre ++ (model_name, Some b) :: post ->
  Forall (fails (formatted_messages state)) pre ->
  b (formatted_messages state) = Returned r ->
  (call_model h state t).1 = [r] /\
  invocations (call_model h state t).2 = invocations t ++ pre.*1 ++ [model_name] /\
  pre.*1 ++ [model_name] `prefix_of`
    ["Llama 3.3 70B"; "Llama 3.1 8B"; "Gemini 2.5 Flash"].
Proof.
  intros Hchain Hpre Hok. unfold call_model, Eff.bind. rewrite Hchain.
  destruct (fallback_loop_first_success pre model_name b post _ None t r Hpre Hok)
    as (t' & -> & Ht').
  rewrite (models_to_try_prefix _ _ _ _ _ Hchain) in Ht'.
  repeat split; [exact Ht'|].
  exists (post.*1).
  change ["Llama 3.3 70B"; "Llama 3.1 8B"; "Gemini 2.5 Flash"]
    with ((models_to_try h).*1).
  rewrite Hchain, fmap_app, <- app_assoc. reflexivity.
Qed.

End GraphFacts.

(** ** [legal_tools.py] *)

Section LegalToolsFacts.
Import LegalTools.
Context `{Text} {vector score : Type} (percent : score -> string) (zero : score).

Abbreviation Resources := (@Resources vector score).

(** Every key the matcher can return, the traffic one apart, has its
    entry in [procedures]: the [KeyError] branch is dead. *)
Lemma key_map_covered :
  Forall (fun entry =>
            String.eqb entry.1 "giao thông" = true \/
            is_Some (dict_get procedures entry.1)) key_map.
Proof.
  unfold key_map.
  repeat (constructor;
          [first [left; reflexivity | right; eexists; reflexivity]|]).
  constructor.
Qed.

Lemma fallback_tag_in_no_match_answer query :
  py_in fallback_tag (no_match_answer query) = true.
Proof. apply py_in_startswith. reflexivity. Qed.

Lemma fallback_tag_in_search_trouble_answer :
  py_in fallback_tag search_trouble_answer = true.
Proof. reflexivity. Qed.

Lemma fallback_tag_not_in_unavailable_answer :
  py_in fallback_tag unavailable_answer = false.
Proof. reflexivity. Qed.

Lemma vector_search_fails (resources : Resources) query search_query :
  search_fails resources search_query ->
  (exists e, vector_search percent zero resources query search_query = Raised e) \/
  vector_search percent zero resources query search_query = Returned (no_match_answer query).
Proof.
  unfold vector_search.
  intros [e He|embed e He Hi|embed index e He Hi Hq|embed index v e He Hi Hq Hr
         |embed index v reply He Hi Hq Hr Hreply];
    rewrite He; try rewrite Hi; try rewrite Hq; try rewrite Hr; eauto.
  destruct Hreply as [-> | ->]; eauto.
Qed.

(** C2, as the code has it. Fallback-signal propagation: for a query
    outside the knowledge base, when the embedding model or the index
    raises, embedding or querying raises, or the index returns no
    matches, [legal_assistant] returns a text that contains
    [[FALLBACK_SIGNAL]]; when no index is configured it returns the plain
    apology, which does not contain it. *)
Theorem legal_assistant_fallback_signal (resources : Resources) (query : string) :
  match_key (strip (lower query)) = None ->
  (search_fails resources (optimize resources query) ->
   py_in fallback_tag (legal_assistant percent zero resources query) = true) /\
  (index_unconfigured resources ->
   legal_assistant percent zero resources query = unavailable_answer /\
   py_in fallback_tag (legal_assistant percent zero resources query) = false).
Proof.
  intros Hkb. unfold legal_assistant, answer. rewrite Hkb. split.
  - intros Hfail.
    destruct (vector_search_fails resources query _ Hfail) as [[e ->] | ->].
    + apply fallback_tag_in_search_trouble_answer.
    + apply fallback_tag_in_no_match_answer.
  - intros [[embed He] Hi]. unfold vector_search. rewrite He, Hi.
    split; [reflexivity | apply fallback_tag_not_in_unavailable_answer].
Qed.

(** C10. [calculate_fee] depends on [service] alone: two calls that differ
    in [details] only return the same text. *)
Theorem calculate_fee_ignores_details (service d1 d2 : string) :
  calculate_fee service d1 = calculate_fee service d2.
Proof. reflexivity. Qed.

End LegalToolsFacts.

(** ** [chat.py]: reasoning about code that may raise *)

Section ChatMonad.
Import Chat.
Local Open Scope chat_scope.

Section Along.
Context (R : relation world) `{!PreOrder R}.

Lemma along_ret {A} (a : A) : along R (ret a).
Proof. intros w. reflexivity. Qed.

Lemma along_raise {A} (e : exn) : along R (raise (A := A) e).
Proof. intros w. reflexivity. Qed.

Lemma along_gets {A} (f : world -> A) : along R (gets f).
Proof. intros w. reflexivity. Qed.

Lemma along_modify (f : world -> world) :
  (forall w, R w (f w)) -> along R (modify f).
Proof. intros Hf w. apply Hf. Qed.

Lemma along_bind {A B} (m : M A) (k : A -> M B) :
  along R m -> (forall a, along R (k a)) -> along R (bind m k).
Proof.
  intros Hm Hk w. unfold bind. specialize (Hm w).
  destruct (m w) as [[a|e] w1]; cbn in *; [|exact Hm].
  etransitivity; [exact Hm | apply Hk].
Qed.

Lemma along_try_except {A} (body : M A) (handler : exn -> M A) :
  along R body -> (forall e, along R (handler e)) -> along R (try_except body handler).
Proof.
  intros Hm Hh w. unfold try_except. specialize (Hm w).
  destruct (body w) as [[a|e] w1]; cbn in *; [exact Hm|].
  etransitivity; [exact Hm | apply Hh].
Qed.

End Along.

Lemma bind_returned {A B} (m : M A) (k : A -> M B) w a w1 :
  m w = (Returned a, w1) -> bind m k w = k a w1.
Proof. unfold bind. now intros ->. Qed.

Lemma bind_raised {A B} (m : M A) (k : A -> M B) w e w1 :
  m w = (Raised e, w1) -> bind m k w = (Raised e, w1).
Proof. unfold bind. now intros ->. Qed.

Lemma bind_gets {A B} (f : world -> A) (k : A -> M B) w :
  bind (gets f) k w = k (f w) w.
Proof. reflexivity. Qed.

Lemma bind_modify {B} (f : world -> world) (k : unit -> M B) w :
  bind (modify f) k w = k tt (f w).
Proof. reflexivity. Qed.

Lemma returns_ret {A} (a : A) : returns (ret a).
Proof. intros w. exists a. reflexivity. Qed.

Lemma returns_gets {A} (f : world -> A) : returns (gets f).
Proof. intros w. eexists. reflexivity. Qed.

Lemma returns_modify (f : world -> world) : returns (modify f).
Proof. intros w. eexists. reflexivity. Qed.

Lemma returns_bind {A B} (m : M A) (k : A -> M B) :
  returns m -> (forall a, returns (k a)) -> returns (bind m k).
Proof.
  intros Hm Hk w. unfold bind. destruct (Hm w) as [a Ha].
  destruct (m w) as [r w1]; cbn in Ha; subst r. apply Hk.
Qed.

Lemma returns_try_except {A} (body : M A) (handler : exn -> M A) :
  (forall e, returns (handler e)) -> returns (try_except body handler).
Proof.
  intros Hh w. unfold try_except.
  destruct (body w) as [[a|e] w1]; [eexists; reflexivity | apply Hh].
Qed.

End ChatMonad.

(** Walks down a computation built from [bind], [try_except] and
    branches, leaving the calls it does not know to [eauto]. *)
Ltac walk_step :=
  first
    [ apply along_ret | apply along_raise | apply along_gets
    | apply along_bind | apply along_try_except
    | apply returns_ret | apply returns_gets | apply returns_modify
    | apply returns_bind | apply returns_try_except
    | match goal with
      | |- along _ (Chat.modify _) => apply along_modify
      | |- along _ (if ?b then _ else _) => destruct b
      | |- returns (if ?b then _ else _) => destruct b
      | |- along _ (match ?x with _ => _ end) => destruct x
      | |- returns (match ?x with _ => _ end) => destruct x
      end ].

Ltac walk :=
  repeat (walk_step;
          try (lazymatch goal with |- PreOrder _ => exact _ end);
          intros);
  eauto.

(** ** [chat.py]: the database *)

Section DatabaseFacts.
Import Chat.
Local Open Scope chat_scope.

Lemma db_grows_refl o : db_grows o o.
Proof. destruct o; cbn; auto. Qed.

Lemma db_grows_trans o1 o2 o3 : db_grows o1 o2 -> db_grows o2 o3 -> db_grows o1 o3.
Proof.
  destruct o1, o2, o3; cbn; try tauto.
  intros [? ?] [? ?]. split; etransitivity; eauto.
Qed.

#[local] Instance db_only_preorder : PreOrder db_only.
Proof.
  split.
  - intros w. split; auto using db_grows_refl.
  - intros w1 w2 w3 [] []. split; try congruence.
    + eauto using db_grows_trans.
    + etransitivity; eauto.
Qed.

Lemma execute_db_only {A} (s : statement) (run : database -> list A * database) :
  (forall d, messages d `prefix_of` messages (run d).2 /\
             conversations d `prefix_of` conversations (run d).2) ->
  along db_only (execute s run).
Proof.
  intros Hrun w. unfold execute.
  destruct (supabase w) as [d|] eqn:Hd; [|reflexivity].
  destruct (next_reply (db_script w)) as [r rest].
  assert (db_only w (set_db_script rest (set_statements (statements w ++ [s]) w)))
    as Hlog.
  { split; cbn; try reflexivity.
    - rewrite Hd. cbn. split; reflexivity.
    - now apply prefix_app_r. }
  destruct r as [| |e]; cbn; try exact Hlog.
  specialize (Hrun d). destruct (run d) as [rows d']. cbn in *.
  split; cbn; try reflexivity.
  - rewrite Hd. exact Hrun.
  - now apply prefix_app_r.
Qed.

Lemma query_conversation_db_only id user_id :
  along db_only (query_conversation id user_id).
Proof. apply execute_db_only. intros d. cbn. split; reflexivity. Qed.

Lemma query_messages_db_only conversation_id limit :
  along db_only (query_messages conversation_id limit).
Proof. apply execute_db_only. intros d. cbn. split; reflexivity. Qed.

Lemma create_conversation_db_only title user_id :
  along db_only (create_conversation title user_id).
Proof.
  apply execute_db_only. intros d. cbn. split; [reflexivity|].
  now apply prefix_app_r.
Qed.

Lemma add_messages_db_only rows : along db_only (add_messages rows).
Proof.
  apply execute_db_only. intros d. cbn. split; [|reflexivity].
  now apply prefix_app_r.
Qed.

Lemma touch_conversation_db_only id : along db_only (touch_conversation id).
Proof. apply execute_db_only. intros d. cbn. split; reflexivity. Qed.

End DatabaseFacts.

#[local] Existing Instance db_only_preorder.

#[local] Hint Resolve query_conversation_db_only query_messages_db_only
  create_conversation_db_only add_messages_db_only touch_conversation_db_only
  : core.

Section EndpointFacts.
Import Chat.
Local Open Scope chat_scope.
Context `{Text} (agent_executor : executor) (format_exc : exn -> string).

Lemma fetch_history_db_only id current_user :
  along db_only (fetch_history id current_user).
Proof. unfold fetch_history. walk. Qed.

Lemma fetch_history_returns id current_user :
  returns (fetch_history id current_user).
Proof. unfold fetch_history. walk. Qed.

Lemma save_exchange_db_only conversation_id current_user message assistant_response :
  along db_only (save_exchange conversation_id current_user message assistant_response).
Proof. unfold save_exchange. walk. Qed.

Lemma load_history_db_only conversation_id :
  along db_only (load_history conversation_id).
Proof. unfold load_history. walk. Qed.

Lemma load_history_returns conversation_id : returns (load_history conversation_id).
Proof. unfold load_history. walk. Qed.

Lemma save_user_message_db_only conversation_id data :
  along db_only (save_user_message conversation_id data).
Proof. unfold save_user_message. walk. Qed.

Lemma save_user_message_returns conversation_id data :
  returns (save_user_message conversation_id data).
Proof. unfold save_user_message. walk. Qed.

Lemma save_assistant_message_db_only conversation_id full_response :
  along db_only (save_assistant_message conversation_id full_response).
Proof. unfold save_assistant_message. walk. Qed.

Lemma save_assistant_message_returns conversation_id full_response :
  returns (save_assistant_message conversation_id full_response).
Proof. unfold save_assistant_message. walk. Qed.

End EndpointFacts.

(** ** [chat.py]: the frames of a turn *)

Section FrameFacts.
Import Chat.
Local Open Scope chat_scope.

Lemma grows_refl w : grows w w [] [].
Proof. unfold grows. rewrite !app_nil_r. auto. Qed.

Lemma grows_trans w1 w2 w3 s1 d1 s2 d2 :
  grows w1 w2 s1 d1 -> grows w2 w3 s2 d2 -> grows w1 w3 (s1 ++ s2) (d1 ++ d2).
Proof.
  intros (Ho1 & Hw1 & Hs1) (Ho2 & Hw2 & Hs2). unfold grows.
  rewrite Ho2, Ho1, Hw2, Hw1, <- !app_assoc. auto using sublist_app.
Qed.

Lemma emits_refl w : emits w w [] [].
Proof. split; auto using grows_refl. Qed.

Lemma emits_trans w1 w2 w3 s1 d1 s2 d2 :
  emits w1 w2 s1 d1 -> emits w2 w3 s2 d2 -> emits w1 w3 (s1 ++ s2) (d1 ++ d2).
Proof.
  intros (Hg1 & Hc1 & Hm1) (Hg2 & Hc2 & Hm2).
  split; [eauto using grows_trans | split; congruence].
Qed.

Lemma db_only_emits w w' : db_only w w' -> emits w w' [] [].
Proof.
  intros []. unfold emits, grows. rewrite !app_nil_r. auto 10.
Qed.

Lemma send_personal_message_emits f w :
  exists delivered, emits w (send_personal_message f w).2 [f] delivered.
Proof.
  unfold send_personal_message.
  destruct (next_fault (link_script w)) as [[e|] rest].
  - exists []. destruct e; cbn; unfold emits, grows; cbn;
      rewrite ?app_nil_r; auto using sublist_nil_l.
  - exists [f]. unfold emits, grows; cbn. auto.
Qed.

Lemma log_to_file_emits w : emits w (log_to_file w).2 [] [].
Proof.
  unfold log_to_file. destruct (next_fault (disk_script w)) as [[e|] rest];
    cbn; unfold emits, grows; cbn; rewrite !app_nil_r; auto.
Qed.

Lemma aget_state_emits thread_id w : emits w (aget_state thread_id w).2 [] [].
Proof.
  unfold aget_state, bind, checkpointer_call, gets.
  destruct (next_fault (memory_script w)) as [[e|] rest];
    cbn; unfold emits, grows; cbn; rewrite !app_nil_r; auto.
Qed.

(** The loop hands the socket the frames of the events it has reached, in
    the order of the events. *)
Lemma consume_emits events full_response tokens_streamed w :
  exists n delivered,
    emits w (consume events full_response tokens_streamed w).2
          (omap outward (take n events)) delivered.
Proof.
  revert full_response tokens_streamed w.
  induction events as [|event events IH]; intros full_response tokens_streamed w.
  - exists 0, []. cbn. apply emits_refl.
  - assert (forall f (k : M (string * nat)),
              outward event = Some f ->
              (forall w1, exists n delivered,
                  emits w1 (k w1).2 (omap outward (take n events)) delivered) ->
              exists n delivered,
                emits w ((send_personal_message f ;;; k) w).2
                      (omap outward (take n (event :: events))) delivered)
      as Hsend.
    { intros f k Hf Hk. unfold bind.
      destruct (send_personal_message_emits f w) as [d1 H1].
      destruct (send_personal_message f w) as [[[]|e] w1]; cbn [snd] in *.
      - destruct (Hk w1) as (n & d2 & H2). exists (S n), (d1 ++ d2).
        cbn [take omap list_omap]. rewrite Hf.
        apply (emits_trans _ _ _ [f] _ _ _ H1 H2).
      - exists 1, d1. cbn [take omap list_omap]. rewrite Hf. exact H1. }
    assert (forall k : M (string * nat),
              outward event = None ->
              (forall w1, exists n delivered,
                  emits w1 (k w1).2 (omap outward (take n events)) delivered) ->
              exists n delivered,
                emits w (k w).2 (omap outward (take n (event :: events))) delivered)
      as Hskip.
    { intros k Hf Hk. destruct (Hk w) as (n & d & Hn). exists (S n), d.
      cbn [take omap list_omap]. rewrite Hf. exact Hn. }
    destruct event as [name|name|c|kind]; cbn [consume].
    + apply Hsend; [reflexivity | intros w1; apply IH].
    + apply Hskip; [reflexivity | intros w1; apply IH].
    + destruct (fragment c) as [content|] eqn:Hc.
      * apply Hsend; [cbn; now rewrite Hc | intros w1; apply IH].
      * apply Hskip; [cbn; now rewrite Hc | intros w1; apply IH].
    + apply Hskip; [reflexivity | intros w1; apply IH].
Qed.

End FrameFacts.

(** ** [chat.py]: one turn of the socket *)

Section TurnFacts.
Import Chat.
Local Open Scope chat_scope.
Context (agent_executor : executor).

Lemma outward_is_mid e f : outward e = Some f -> is_mid f = true.
Proof.
  destruct e as [name|name|c|kind]; cbn; try discriminate.
  - now intros [= <-].
  - destruct (fragment c); cbn; [now intros [= <-] | discriminate].
Qed.

Lemma omap_outward_mid events : Forall (fun f => is_mid f = true) (omap outward events).
Proof.
  induction events as [|e events IH]; cbn; [constructor|].
  destruct (outward e) as [f|] eqn:He; [|exact IH].
  constructor; eauto using outward_is_mid.
Qed.

Lemma after_start_app mids t :
  Forall (fun f => is_mid f = true) mids ->
  is_terminal t = true ->
  after_start (mids ++ [t]) = true.
Proof.
  intros Hmids Ht. induction Hmids as [|f mids Hf _ IH]; cbn; [exact Ht|].
  destruct (mids ++ [t]) eqn:E; [now destruct mids|].
  rewrite Hf. exact IH.
Qed.

Lemma is_terminal_not_mid f : is_mid f = true -> is_terminal f = false.
Proof. now destruct f. Qed.

(** The frames of a turn are an initial part of a word of the protocol
    and close at most once. *)
Lemma turn_frames_word events sent :
  turn_frames events sent ->
  (exists word, turn_word word = true /\ sent `prefix_of` word) /\
  length (filter (fun f => is_terminal f = true) sent) <= 1.
Proof.
  intros [metas n fallback terminal Hmeta Hfb Hterm].
  set (mids := omap outward (take n events) ++ fallback).
  assert (Forall (fun f => is_mid f = true) mids) as Hmids.
  { apply Forall_app. split; [apply omap_outward_mid|].
    destruct Hfb as [->|[c ->]]; repeat constructor. }
  assert (filter (fun f => is_terminal f = true) mids = []) as Hnoterm.
  { clear -Hmids. induction Hmids as [|f mids Hf _ IH]; [reflexivity|].
    rewrite filter_cons, IH. apply is_terminal_not_mid in Hf. rewrite Hf.
    now destruct (decide (false = true)). }
  replace (metas ++ [ev_start] ++ omap outward (take n events) ++ fallback ++ terminal)
    with (metas ++ [ev_start] ++ mids ++ terminal)
    by (unfold mids; now rewrite <- !app_assoc).
  split.
  - assert (exists t, is_terminal t = true /\
                      (terminal = [] \/ terminal = [t])) as (t & Ht & Hcase).
    { destruct Hterm as [->|[[c ->]|[c ->]]].
      - exists (ev_end (Str EmptyString)). auto.
      - exists (ev_error c). auto.
      - exists (ev_end c). auto. }
    exists (metas ++ [ev_start] ++ mids ++ [t]). split.
    + pose proof (after_start_app mids t Hmids Ht) as Hw.
      destruct Hmeta as [->|[id ->]]; exact Hw.
    + destruct Hcase as [-> | ->]; [|reflexivity].
      rewrite app_nil_r. exists [t]. now rewrite <- !app_assoc.
  - rewrite !filter_app, Hnoterm.
    assert (filter (fun f => is_terminal f = true) metas = []) as ->
      by (destruct Hmeta as [->|[id ->]]; reflexivity).
    destruct Hterm as [->|[[c ->]|[c ->]]]; vm_compute; lia.
Qed.

(** A handler that swallows the exception leaves the world of the body. *)
Lemma try_swallow {A} (body : M A) (a : A) w :
  exists x, try_except body (fun _ => ret a) w = (Returned x, (body w).2).
Proof.
  unfold try_except. destruct (body w) as [[x|e] w1]; eexists; reflexivity.
Qed.

Lemma open_conversation_emits conversation_id user_id data w :
  exists conversation_id' metas delivered,
    (open_conversation conversation_id user_id data w).1 = Returned conversation_id' /\
    emits w (open_conversation conversation_id user_id data w).2 metas delivered /\
    at_most_meta metas.
Proof.
  unfold open_conversation. rewrite bind_gets.
  destruct (negb (given conversation_id) && _).
  - destruct (try_swallow (create_conversation (slice_to 50 data) user_id) [] w)
      as [res Hres].
    rewrite (bind_returned _ _ _ _ _ Hres).
    pose proof (db_only_emits _ _
                  (create_conversation_db_only (slice_to 50 data) user_id w)) as Hdb.
    destruct res as [|row res'].
    + exists conversation_id, [], []. cbn. split; [reflexivity|].
      split; [exact Hdb | now left].
    + destruct (try_swallow (send_personal_message (ev_meta (c_id row))) tt
                  (create_conversation (slice_to 50 data) user_id w).2) as [[] Hsend].
      rewrite (bind_returned _ _ _ _ _ Hsend).
      destruct (send_personal_message_emits (ev_meta (c_id row))
                  (create_conversation (slice_to 50 data) user_id w).2) as [d Hd].
      exists (Some (c_id row)), [ev_meta (c_id row)], d. cbn.
      split; [reflexivity|].
      split; [exact (emits_trans _ _ _ [] [] _ _ Hdb Hd) | right; eauto].
  - exists conversation_id, [], []. cbn. split; [reflexivity|].
    split; [apply emits_refl | now left].
Qed.

Lemma no_stream_fallback_emits thread_id full_response w :
  exists c fallback delivered,
    (no_stream_fallback thread_id full_response w).1 = Returned c /\
    emits w (no_stream_fallback thread_id full_response w).2 fallback delivered /\
    at_most_token fallback.
Proof.
  unfold no_stream_fallback.
  set (body := (state_snapshot <- aget_state thread_id ;; ret (final_content state_snapshot))).
  destruct (try_swallow body None w) as [found Hfound].
  rewrite (bind_returned _ _ _ _ _ Hfound).
  assert (emits w (body w).2 [] []) as Hbody.
  { unfold body, bind. pose proof (aget_state_emits thread_id w) as Hg.
    destruct (aget_state thread_id w) as [[v|e] w1]; exact Hg. }
  destruct found as [c|].
  - destruct (try_swallow (send_personal_message (ev_token c)) tt (body w).2)
      as [[] Hsend].
    rewrite (bind_returned _ _ _ _ _ Hsend).
    destruct (send_personal_message_emits (ev_token c) (body w).2) as [d Hd].
    exists c, [ev_token c], d. cbn. split; [reflexivity|].
    split; [exact (emits_trans _ _ _ [] [] _ _ Hbody Hd) | right; eauto].
  - exists full_response, [], []. cbn. split; [reflexivity|].
    split; [exact Hbody | now left].
Qed.

Lemma stream_agent_grows input thread_id w :
  exists n delivered,
    grows w (stream_agent agent_executor input thread_id w).2
          (omap outward
             (take n (astream_events agent_executor input thread_id (memory w)).1.1))
          delivered /\
    agent_calls (stream_agent agent_executor input thread_id w).2
      = agent_calls w ++ [(thread_id, input)].
Proof.
  unfold stream_agent. rewrite bind_modify, bind_gets.
  set (w1 := set_agent_calls (agent_calls w ++ [(thread_id, input)]) w).
  change (memory w1) with (memory w).
  destruct (astream_events agent_executor input thread_id (memory w))
    as [[events ending] after].
  destruct (consume_emits events EmptyString 0 w1) as (n & d & (Hg & Hc & Hm)).
  exists n, d. cbn [fst].
  destruct (consume events EmptyString 0 w1) as [[streamed|e] w2] eqn:Hrun;
    cbn [snd] in *.
  - rewrite (bind_returned _ _ _ _ _ Hrun), bind_modify.
    destruct ending as [e|]; cbn; auto.
  - rewrite (bind_raised _ _ _ _ _ Hrun). cbn. auto.
Qed.

Lemma respond_frames history_messages conversation_id w :
  exists events n fallback delivered,
    at_most_token fallback /\
    grows w (respond agent_executor history_messages conversation_id w).2
          ([ev_start] ++ omap outward (take n events) ++ fallback) delivered /\
    run_of agent_executor w (respond agent_executor history_messages conversation_id w).2
           conversation_id history_messages events.
Proof.
  unfold respond.
  destruct (send_personal_message_emits ev_start w) as [d1 (H1 & Hc1 & Hm1)].
  destruct (send_personal_message ev_start w) as [[[]|e] w1] eqn:Hstart;
    cbn [snd] in *.
  2:{ rewrite (bind_raised _ _ _ _ _ Hstart). exists [], 0, [], d1. cbn.
      split; [now left|]. split; [exact H1 | left; auto]. }
  rewrite (bind_returned _ _ _ _ _ Hstart).
  destruct (stream_agent_grows history_messages conversation_id w1)
    as (n & d2 & H2 & Hc2).
  rewrite Hm1, Hc1 in *.
  set (events := (astream_events agent_executor history_messages conversation_id
                    (memory w)).1.1) in *.
  assert (run_of agent_executor w (stream_agent agent_executor history_messages conversation_id w1).2
            conversation_id history_messages events) as Hrun by (right; eauto).
  exists events, n.
  destruct (stream_agent agent_executor history_messages conversation_id w1)
    as [[[full_response tokens_streamed]|e] w2] eqn:Hstream; cbn [snd] in *.
  2:{ rewrite (bind_raised _ _ _ _ _ Hstream). exists [], (d1 ++ d2 ++ []).
      rewrite !app_nil_r. cbn [snd].
      split; [now left|]. split; [exact (grows_trans _ _ _ _ _ _ _ H1 H2) | exact Hrun]. }
  rewrite (bind_returned _ _ _ _ _ Hstream).
  destruct ((tokens_streamed =? 0) && negb (truthy full_response)).
  - destruct (no_stream_fallback_emits conversation_id (Str full_response) w2)
      as (c & fallback & d3 & Hret & (H3 & Hc3 & Hm3) & Hfb).
    destruct (no_stream_fallback conversation_id (Str full_response) w2)
      as [r w3] eqn:Hfall; cbn [fst snd] in *. subst r.
    rewrite (bind_returned _ _ _ _ _ Hfall). cbn [snd ret].
    exists fallback, (d1 ++ d2 ++ d3). split; [exact Hfb|]. split.
    + exact (grows_trans _ _ _ _ _ _ _ H1 (grows_trans _ _ _ _ _ _ _ H2 H3)).
    + destruct Hrun as [[Hr _]|(Hr & He)]; [left|right].
      * rewrite Hc2 in Hr. apply (f_equal length) in Hr.
        rewrite length_app in Hr. cbn in Hr. lia.
      * split; [congruence | exact He].
  - exists [], (d1 ++ d2 ++ []). rewrite !app_nil_r. cbn [snd ret].
    split; [now left|]. split; [exact (grows_trans _ _ _ _ _ _ _ H1 H2) | exact Hrun].
Qed.

Lemma stream_failed_emits conversation_id e w :
  exists terminal delivered,
    emits w (stream_failed conversation_id e w).2 terminal delivered /\
    at_most_terminal terminal.
Proof.
  assert (forall content,
            exists terminal delivered,
              emits w ((send_personal_message (ev_error content) ;;;
                        ret (next_turn conversation_id)) w).2 terminal delivered /\
              at_most_terminal terminal) as Hreport.
  { intros content. destruct (send_personal_message_emits (ev_error content) w) as [d Hd].
    exists [ev_error content], d. split; [|right; left; eauto].
    unfold bind. destruct (send_personal_message (ev_error content) w) as [[[]|e'] w1];
      exact Hd. }
  destruct e; cbn [stream_failed]; try apply Hreport.
  exists [], []. split; [apply emits_refl | now left].
Qed.

Lemma finish_turn_emits conversation_id full_response w :
  exists terminal delivered,
    emits w (finish_turn conversation_id full_response w).2 terminal delivered /\
    at_most_terminal terminal.
Proof.
  unfold finish_turn.
  pose proof (log_to_file_emits w) as Hlog.
  destruct (log_to_file w) as [[[]|e] w1] eqn:Hl; cbn [snd] in Hlog.
  2:{ rewrite (bind_raised _ _ _ _ _ Hl). exists [], []. split; [exact Hlog | now left]. }
  rewrite (bind_returned _ _ _ _ _ Hl).
  destruct (send_personal_message_emits (ev_end full_response) w1) as [d Hd].
  exists [ev_end full_response], d. split; [|right; right; eauto].
  destruct (send_personal_message (ev_end full_response) w1) as [[[]|e] w2] eqn:Hs;
    cbn [snd] in Hd.
  2:{ rewrite (bind_raised _ _ _ _ _ Hs). exact (emits_trans _ _ _ [] [] _ _ Hlog Hd). }
  rewrite (bind_returned _ _ _ _ _ Hs).
  pose proof (db_only_emits _ _
                (save_assistant_message_db_only conversation_id full_response w2)) as Hsave.
  pose proof (emits_trans _ _ _ [] [] _ _ Hlog
                (emits_trans _ _ _ [ev_end full_response] d [] [] Hd Hsave)) as Hall.
  rewrite !app_nil_r in Hall. unfold bind.
  destruct (save_assistant_message conversation_id full_response w2) as [[[]|e] w3];
    exact Hall.
Qed.

Lemma turn_outcome_intro w w1 w2 w3 thread_id input metas d1 events n fallback d2
    terminal d3 :
  emits w w1 metas d1 -> at_most_meta metas ->
  grows w1 w2 ([ev_start] ++ omap outward (take n events) ++ fallback) d2 ->
  at_most_token fallback ->
  run_of agent_executor w1 w2 thread_id input events ->
  emits w2 w3 terminal d3 -> at_most_terminal terminal ->
  turn_outcome agent_executor w w3 thread_id input.
Proof.
  intros (Hg1 & Hc1 & Hm1) Hmeta Hg2 Hfb Hrun (Hg3 & Hc3 & Hm3) Hterm.
  pose proof (TurnFrames events metas n fallback terminal Hmeta Hfb Hterm) as Hframes.
  pose proof (grows_trans _ _ _ _ _ _ _ Hg1 (grows_trans _ _ _ _ _ _ _ Hg2 Hg3)) as Hg.
  rewrite <- !app_assoc in Hg.
  eexists _, _, events. split; [exact Hg|]. split; [exact Hframes|].
  unfold run_of in *. rewrite Hc3. rewrite Hc1, Hm1 in Hrun. exact Hrun.
Qed.

(** The parts of a turn: the history it loads, the conversation it
    settles on, and what follows. *)
Lemma turn_anatomy user_id conversation_id data w :
  exists history w1 id w2,
    load_history conversation_id w = (Returned history, w1) /\
    open_conversation conversation_id user_id data w1 = (Returned id, w2) /\
    turn_outcome agent_executor w (turn agent_executor user_id conversation_id data w).2
      id (history ++ [("user", Str data)]).
Proof.
  unfold turn.
  (* history *)
  destruct (load_history_returns conversation_id w) as [history Hhist].
  pose proof (db_only_emits _ _ (load_history_db_only conversation_id w)) as E1.
  destruct (load_history conversation_id w) as [r1 w1] eqn:H1; cbn [fst snd] in *.
  subst r1. rewrite (bind_returned _ _ _ _ _ H1).
  (* the conversation, and its identifier to the client *)
  destruct (open_conversation_emits conversation_id user_id data w1)
    as (id & metas & d2 & Hid & E2 & Hmeta).
  destruct (open_conversation conversation_id user_id data w1) as [r2 w2] eqn:H2;
    cbn [fst snd] in *.
  subst r2. rewrite (bind_returned _ _ _ _ _ H2).
  exists history, w1, id, w2. split; [reflexivity|]. split; [exact H2|].
  (* the user message *)
  destruct (save_user_message_returns id data w2) as [[] Hsaved].
  pose proof (db_only_emits _ _ (save_user_message_db_only id data w2)) as E3.
  destruct (save_user_message id data w2) as [r3 w3] eqn:H3; cbn [fst snd] in *.
  subst r3. rewrite (bind_returned _ _ _ _ _ H3).
  pose proof (emits_trans _ _ _ _ _ _ _ E1 (emits_trans _ _ _ _ _ _ _ E2 E3)) as Epre.
  rewrite !app_nil_r in Epre. cbn [app] in Epre.
  (* the answer *)
  destruct (respond_frames (history ++ [("user", Str data)]) id w3)
    as (events & n & fallback & d4 & Hfb & G4 & Hrun).
  unfold bind at 1, try_except.
  destruct (respond agent_executor (history ++ [("user", Str data)]) id w3)
    as [[[full_response tokens_streamed]|e] w4] eqn:H4; cbn [snd] in *.
  - rewrite (bind_returned _ _ _ _ _ H4). cbn [ret].
    destruct (finish_turn_emits id full_response w4) as (terminal & d5 & E5 & Hterm).
    eapply turn_outcome_intro; eauto.
  - rewrite (bind_raised _ _ _ _ _ H4).
    destruct (stream_failed_emits id e w4) as (terminal & d5 & E5 & Hterm).
    unfold bind.
    destruct (stream_failed id e w4) as [[leave|e'] w5]; cbn [snd] in *;
      eapply turn_outcome_intro; eauto.
Qed.

(** C5. Token ordering invariant: what one turn of the socket endpoint
    hands to [send_text] is an initial part of a word of
    [meta? start (status|token)* (end|error)], made of the optional [meta],
    [start], the frames of the run's events in the order of the events, the
    fallback token and at most one closing frame ([end] or [error], never
    both); what reaches the client is a subsequence of it, in the same
    order. *)
Theorem turn_frame_order (user_id : string) (conversation_id : option string)
    (data : string) (w : world) :
  let w' := (turn agent_executor user_id conversation_id data w).2 in
  exists sent delivered events thread_id input,
    grows w w' sent delivered /\
    turn_frames events sent /\
    run_of agent_executor w w' thread_id input events /\
    (exists word,
        turn_word word = true /\ sent `prefix_of` word /\ delivered `sublist_of` word) /\
    length (filter (fun f => is_terminal f = true) sent) <= 1.
Proof.
  cbn zeta.
  destruct (turn_anatomy user_id conversation_id data w)
    as (history & w1 & id & w2 & _ & _ & sent & delivered & events & Hg & Hframes & Hrun).
  destruct (turn_frames_word _ _ Hframes) as [(word & Hword & Hprefix) Hcount].
  exists sent, delivered, events, id, (history ++ [("user", Str data)]).
  split; [exact Hg|]. split; [exact Hframes|]. split; [exact Hrun|].
  split; [|exact Hcount].
  exists word. split; [exact Hword|]. split; [exact Hprefix|].
  destruct Hg as (_ & _ & Hsub). destruct Hprefix as [k ->].
  now apply sublist_inserts_r.
Qed.

(** *** When nothing around the socket fails *)

Lemma next_fault_calm script :
  calm script -> exists rest, next_fault script = (None, rest) /\ calm rest.
Proof.
  intros Hc. destruct Hc as [|o rest <- Hrest]; cbn.
  - exists []. split; [reflexivity | constructor].
  - exists rest. split; [reflexivity | exact Hrest].
Qed.

Lemma delivers_refl w : healthy w -> delivers w w [].
Proof. intros Hw. unfold delivers. rewrite !app_nil_r. auto. Qed.

Lemma delivers_trans w1 w2 w3 f1 f2 :
  delivers w1 w2 f1 -> delivers w2 w3 f2 -> delivers w1 w3 (f1 ++ f2).
Proof.
  intros (Ho1 & Hw1 & Hm1 & _) (Ho2 & Hw2 & Hm2 & Hh). unfold delivers.
  rewrite Ho2, Ho1, Hw2, Hw1, Hm2, Hm1, <- !app_assoc. auto.
Qed.

Lemma db_only_delivers w w' : healthy w -> db_only w w' -> delivers w w' [].
Proof.
  intros (Hl & Hm & Hd) []. unfold delivers, healthy. rewrite !app_nil_r.
  repeat split; congruence.
Qed.

Lemma send_personal_message_delivers f w :
  healthy w ->
  exists w', send_personal_message f w = (Returned tt, w') /\ delivers w w' [f].
Proof.
  intros (Hl & Hm & Hd). unfold send_personal_message.
  destruct (next_fault_calm _ Hl) as (rest & -> & Hrest).
  eexists. split; [reflexivity|]. unfold delivers, healthy. cbn. auto 10.
Qed.

Lemma log_to_file_delivers w :
  healthy w -> exists w', log_to_file w = (Returned tt, w') /\ delivers w w' [].
Proof.
  intros (Hl & Hm & Hd). unfold log_to_file.
  destruct (next_fault_calm _ Hd) as (rest & -> & Hrest).
  eexists. split; [reflexivity|]. unfold delivers, healthy. cbn.
  rewrite !app_nil_r. auto 10.
Qed.

Lemma aget_state_delivers thread_id w :
  healthy w ->
  exists w',
    aget_state thread_id w = (Returned (snapshot (memory w) thread_id), w') /\
    delivers w w' [].
Proof.
  intros (Hl & Hm & Hd). unfold aget_state, bind, checkpointer_call, gets.
  destruct (next_fault_calm _ Hm) as (rest & -> & Hrest).
  eexists. split; [reflexivity|]. unfold delivers, healthy. cbn.
  rewrite !app_nil_r. auto 10.
Qed.

Lemma consume_delivers events full_response tokens_streamed w :
  healthy w ->
  no_fragments events ->
  exists statuses w',
    consume events full_response tokens_streamed w
      = (Returned (full_response, tokens_streamed), w') /\
    delivers w w' statuses /\
    Forall (fun f => is_status f = true) statuses.
Proof.
  intros Hw Hnone. revert w Hw.
  induction Hnone as [|event events Hevent _ IH]; intros w Hw.
  - exists [], w. cbn. auto using delivers_refl.
  - destruct event as [name|name|c|kind]; cbn [consume].
    + destruct (send_personal_message_delivers
                  (ev_status ("Running tool: " +:+ name +:+ "...")) w Hw)
        as (w1 & Hsend & Hd1).
      rewrite (bind_returned _ _ _ _ _ Hsend).
      destruct (IH w1 ltac:(apply Hd1)) as (statuses & w2 & Hrun & Hd2 & Hst).
      eexists (_ :: statuses), w2. split; [exact Hrun|].
      split; [exact (delivers_trans _ _ _ [_] _ Hd1 Hd2) | now constructor].
    + apply IH, Hw.
    + rewrite Hevent. apply IH, Hw.
    + apply IH, Hw.
Qed.

Lemma open_conversation_delivers conversation_id user_id data w :
  healthy w ->
  exists conversation_id' metas w',
    open_conversation conversation_id user_id data w = (Returned conversation_id', w') /\
    delivers w w' metas /\
    at_most_meta metas.
Proof.
  intros Hw. unfold open_conversation. rewrite bind_gets.
  destruct (negb (given conversation_id) && _).
  - destruct (try_swallow (create_conversation (slice_to 50 data) user_id) [] w)
      as [res Hres].
    rewrite (bind_returned _ _ _ _ _ Hres).
    pose proof (db_only_delivers _ _ Hw
                  (create_conversation_db_only (slice_to 50 data) user_id w)) as Hdb.
    destruct res as [|row res'].
    + eexists conversation_id, [], _. split; [reflexivity|]. split; [exact Hdb | now left].
    + destruct (send_personal_message_delivers (ev_meta (c_id row)) _ ltac:(apply Hdb))
        as (w2 & Hsend & Hd).
      unfold bind at 1, try_except. rewrite Hsend.
      eexists (Some (c_id row)), [ev_meta (c_id row)], w2.
      split; [reflexivity|].
      split; [exact (delivers_trans _ _ _ [] _ Hdb Hd) | right; eauto].
  - eexists conversation_id, [], w. split; [reflexivity|].
    split; [now apply delivers_refl | now left].
Qed.

Lemma passes_trans w1 w2 w3 f1 f2 :
  passes w1 w2 f1 -> passes w2 w3 f2 -> passes w1 w3 (f1 ++ f2).
Proof.
  intros (Ho1 & Hw1) (Ho2 & Hw2). unfold passes.
  rewrite Ho2, Ho1, Hw2, Hw1, <- !app_assoc. auto.
Qed.

Lemma delivers_passes w w' frames : delivers w w' frames -> passes w w' frames.
Proof. intros (Ho & Hw & _). split; assumption. Qed.

Lemma delivers_healthy w w' frames : delivers w w' frames -> healthy w'.
Proof. intros (_ & _ & _ & Hh). exact Hh. Qed.

Lemma delivers_memory w w' frames : delivers w w' frames -> memory w' = memory w.
Proof. intros (_ & _ & Hm & _). exact Hm. Qed.

(** A run that streams no text and ends well. *)
Lemma stream_agent_silent input thread_id w events after :
  healthy w ->
  astream_events agent_executor input thread_id (memory w) = (events, None, after) ->
  no_fragments events ->
  exists statuses w',
    stream_agent agent_executor input thread_id w = (Returned (EmptyString, 0), w') /\
    passes w w' statuses /\
    healthy w' /\
    memory w' = after /\
    Forall (fun f => is_status f = true) statuses.
Proof.
  intros Hw Hrun Hnone. unfold stream_agent. rewrite bind_modify, bind_gets.
  set (w1 := set_agent_calls _ w).
  change (memory w1) with (memory w). rewrite Hrun.
  assert (healthy w1) as Hw1 by exact Hw.
  destruct (consume_delivers events EmptyString 0 w1 Hw1 Hnone)
    as (statuses & w2 & Hconsume & D2 & Hst).
  rewrite (bind_returned _ _ _ _ _ Hconsume), bind_modify.
  exists statuses, (set_memory after w2). split; [reflexivity|].
  split; [exact (delivers_passes _ _ _ D2)|].
  split; [exact (delivers_healthy _ _ _ D2)|]. split; [reflexivity | exact Hst].
Qed.

(** The fallback when the final state has a last message with content. *)
Lemma no_stream_fallback_found thread_id full_response w c :
  healthy w ->
  final_content (snapshot (memory w) thread_id) = Some c ->
  exists w',
    no_stream_fallback thread_id full_response w = (Returned c, w') /\
    delivers w w' [ev_token c].
Proof.
  intros Hw Hfinal. unfold no_stream_fallback.
  destruct (aget_state_delivers thread_id w Hw) as (w1 & Hstate & D1).
  assert (try_except
            (state_snapshot <- aget_state thread_id ;;
             ret (final_content state_snapshot))
            (fun _ => ret None) w = (Returned (Some c), w1)) as Hfound.
  { unfold try_except. rewrite (bind_returned _ _ _ _ _ Hstate). cbn [ret].
    now rewrite Hfinal. }
  rewrite (bind_returned _ _ _ _ _ Hfound).
  destruct (send_personal_message_delivers (ev_token c) w1 (delivers_healthy _ _ _ D1))
    as (w2 & Htoken & D2).
  assert (try_except (send_personal_message (ev_token c)) (fun _ => ret tt) w1
            = (Returned tt, w2)) as Hsent
    by (unfold try_except; now rewrite Htoken).
  rewrite (bind_returned _ _ _ _ _ Hsent).
  exists w2. split; [reflexivity|]. exact (delivers_trans _ _ _ [] _ D1 D2).
Qed.

(** The fallback when there is nothing to show in the state read back. *)
Lemma no_stream_fallback_missing thread_id full_response w :
  healthy w ->
  final_content (snapshot (memory w) thread_id) = None ->
  exists w',
    no_stream_fallback thread_id full_response w = (Returned full_response, w') /\
    delivers w w' [].
Proof.
  intros Hw Hfinal. unfold no_stream_fallback.
  destruct (aget_state_delivers thread_id w Hw) as (w1 & Hstate & D1).
  assert (try_except
            (state_snapshot <- aget_state thread_id ;;
             ret (final_content state_snapshot))
            (fun _ => ret None) w = (Returned None, w1)) as Hfound.
  { unfold try_except. rewrite (bind_returned _ _ _ _ _ Hstate). cbn [ret].
    now rewrite Hfinal. }
  rewrite (bind_returned _ _ _ _ _ Hfound).
  exists w1. split; [reflexivity | exact D1].
Qed.

(** Step 3 of the loop body when the run streams no text and leaves a
    final message with content [c]. *)
Lemma respond_fallback history_messages conversation_id w events after c :
  healthy w ->
  astream_events agent_executor history_messages conversation_id (memory w)
    = (events, None, after) ->
  no_fragments events ->
  final_content (snapshot after conversation_id) = Some c ->
  exists statuses w',
    respond agent_executor history_messages conversation_id w = (Returned (c, 0), w') /\
    passes w w' ([ev_start] ++ statuses ++ [ev_token c]) /\
    healthy w' /\
    Forall (fun f => is_status f = true) statuses.
Proof.
  intros Hw Hrun Hnone Hfinal. unfold respond.
  destruct (send_personal_message_delivers ev_start w Hw) as (w1 & Hstart & D1).
  rewrite (bind_returned _ _ _ _ _ Hstart).
  rewrite <- (delivers_memory _ _ _ D1) in Hrun.
  destruct (stream_agent_silent _ _ w1 events after (delivers_healthy _ _ _ D1)
              Hrun Hnone) as (statuses & w2 & Hstream & P2 & Hw2 & Hafter & Hst).
  rewrite (bind_returned _ _ _ _ _ Hstream). cbn [Nat.eqb truthy negb andb].
  rewrite <- Hafter in Hfinal.
  destruct (no_stream_fallback_found conversation_id (Str EmptyString) w2 c Hw2 Hfinal)
    as (w3 & Hfallback & D3).
  rewrite (bind_returned _ _ _ _ _ Hfallback).
  exists statuses, w3. split; [reflexivity|].
  split; [|split; [exact (delivers_healthy _ _ _ D3) | exact Hst]].
  apply (passes_trans w w1 w3); [exact (delivers_passes _ _ _ D1)|].
  apply (passes_trans w1 w2 w3); [exact P2 | exact (delivers_passes _ _ _ D3)].
Qed.

(** Step 3 when the run streams no text and nothing can be read back:
    the answer stays empty and no [token] frame is sent. *)
Lemma respond_no_state history_messages conversation_id w events after :
  healthy w ->
  astream_events agent_executor history_messages conversation_id (memory w)
    = (events, None, after) ->
  no_fragments events ->
  final_content (snapshot after conversation_id) = None ->
  exists statuses w',
    respond agent_executor history_messages conversation_id w
      = (Returned (Str EmptyString, 0), w') /\
    passes w w' ([ev_start] ++ statuses) /\
    healthy w' /\
    Forall (fun f => is_status f = true) statuses.
Proof.
  intros Hw Hrun Hnone Hfinal. unfold respond.
  destruct (send_personal_message_delivers ev_start w Hw) as (w1 & Hstart & D1).
  rewrite (bind_returned _ _ _ _ _ Hstart).
  rewrite <- (delivers_memory _ _ _ D1) in Hrun.
  destruct (stream_agent_silent _ _ w1 events after (delivers_healthy _ _ _ D1)
              Hrun Hnone) as (statuses & w2 & Hstream & P2 & Hw2 & Hafter & Hst).
  rewrite (bind_returned _ _ _ _ _ Hstream). cbn [Nat.eqb truthy negb andb].
  rewrite <- Hafter in Hfinal.
  destruct (no_stream_fallback_missing conversation_id (Str EmptyString) w2 Hw2 Hfinal)
    as (w3 & Hfallback & D3).
  rewrite (bind_returned _ _ _ _ _ Hfallback).
  exists statuses, w3. split; [reflexivity|].
  split; [|split; [exact (delivers_healthy _ _ _ D3) | exact Hst]].
  pose proof (passes_trans _ _ _ _ _ (delivers_passes _ _ _ D1)
                (passes_trans _ _ _ _ _ P2 (delivers_passes _ _ _ D3))) as Hall.
  rewrite app_nil_r in Hall. exact Hall.
Qed.

(** A turn around its step 3, when nothing around the socket fails: the
    history is read, the conversation is opened, step 3 answers with
    frames that [good] describes, and the [end] frame closes the turn. *)
Lemma turn_answered user_id conversation_id data w
    (good : option string -> content -> list frame -> Prop) :
  healthy w ->
  (forall history id w3,
      healthy w3 ->
      memory w3 = memory w ->
      exists c n frames w4,
        respond agent_executor (history ++ [("user", Str data)]) id w3
          = (Returned (c, n), w4) /\
        passes w3 w4 frames /\
        healthy w4 /\
        good id c frames) ->
  exists history w1 id metas w2 c frames w',
    load_history conversation_id w = (Returned history, w1) /\
    open_conversation conversation_id user_id data w1 = (Returned id, w2) /\
    delivers w1 w2 metas /\
    at_most_meta metas /\
    turn agent_executor user_id conversation_id data w = (Returned (next_turn id), w') /\
    good id c frames /\
    passes w w' (metas ++ frames ++ [ev_end c]) /\
    healthy w'.
Proof.
  intros Hw Hrespond. unfold turn.
  (* history *)
  destruct (load_history_returns conversation_id w) as [history Hhist].
  pose proof (db_only_delivers _ _ Hw (load_history_db_only conversation_id w)) as D1.
  destruct (load_history conversation_id w) as [r1 w1] eqn:H1; cbn [fst snd] in *.
  subst r1. rewrite (bind_returned _ _ _ _ _ H1).
  (* the conversation *)
  destruct (open_conversation_delivers conversation_id user_id data w1
              (delivers_healthy _ _ _ D1)) as (id & metas & w2 & H2 & D2 & Hmeta).
  rewrite (bind_returned _ _ _ _ _ H2).
  (* the user message *)
  destruct (save_user_message_returns id data w2) as [[] Hsaved].
  pose proof (db_only_delivers _ _ (delivers_healthy _ _ _ D2)
                (save_user_message_db_only id data w2)) as D3.
  destruct (save_user_message id data w2) as [r3 w3] eqn:H3; cbn [fst snd] in *.
  subst r3. rewrite (bind_returned _ _ _ _ _ H3).
  (* the answer *)
  assert (memory w3 = memory w) as Hmem.
  { rewrite (delivers_memory _ _ _ D3), (delivers_memory _ _ _ D2).
    exact (delivers_memory _ _ _ D1). }
  destruct (Hrespond history id w3 (delivers_healthy _ _ _ D3) Hmem)
    as (c & n & frames & w4 & H4 & P4 & Hw4 & Hgood).
  assert (try_except
            (r <- respond agent_executor (history ++ [("user", Str data)]) id ;;
             ret (inr r))
            (fun e => leave <- stream_failed id e ;; ret (inl leave)) w3
          = (Returned (inr (c, n)), w4)) as Hanswered
    by (unfold try_except; now rewrite (bind_returned _ _ _ _ _ H4)).
  rewrite (bind_returned _ _ _ _ _ Hanswered).
  (* the end *)
  unfold finish_turn.
  destruct (log_to_file_delivers w4 Hw4) as (w5 & H5 & D5).
  rewrite (bind_returned _ _ _ _ _ H5).
  destruct (send_personal_message_delivers (ev_end c) w5 (delivers_healthy _ _ _ D5))
    as (w6 & H6 & D6).
  rewrite (bind_returned _ _ _ _ _ H6).
  destruct (save_assistant_message_returns id c w6) as [[] Hsave].
  pose proof (db_only_delivers _ _ (delivers_healthy _ _ _ D6)
                (save_assistant_message_db_only id c w6)) as D7.
  destruct (save_assistant_message id c w6) as [r7 w7] eqn:H7; cbn [fst snd] in *.
  subst r7. rewrite (bind_returned _ _ _ _ _ H7).
  exists history, w1, id, metas, w2, c, frames, w7.
  split; [reflexivity|]. split; [exact H2|]. split; [exact D2|].
  split; [exact Hmeta|]. split; [reflexivity|]. split; [exact Hgood|].
  split; [|exact (delivers_healthy _ _ _ D7)].
  pose proof (passes_trans _ _ _ _ _ (delivers_passes _ _ _ D1)
             (passes_trans _ _ _ _ _ (delivers_passes _ _ _ D2)
             (passes_trans _ _ _ _ _ (delivers_passes _ _ _ D3)
             (passes_trans _ _ _ _ _ P4
             (passes_trans _ _ _ _ _ (delivers_passes _ _ _ D5)
             (passes_trans _ _ _ _ _ (delivers_passes _ _ _ D6)
                (delivers_passes _ _ _ D7))))))) as Hall.
  cbn [app] in Hall. exact Hall.
Qed.

End TurnFacts.

(** ** [chat.py]: uploads *)

Section UploadFacts.
Import Chat.
Local Open Scope chat_scope.
Context `{Text} (format_exc : exn -> string).

Lemma append_empty_r (s : string) : s +:+ EmptyString = s.
Proof. induction s as [|c s IH]; [reflexivity|]. now rewrite append_cons, IH. Qed.

Lemma append_assoc (s t u : string) : (s +:+ t) +:+ u = s +:+ t +:+ u.
Proof. induction s as [|c s IH]; [reflexivity|]. now rewrite !append_cons, IH. Qed.

#[local] Instance extends_preorder conversation_id : PreOrder (extends conversation_id).
Proof.
  split.
  - intros w. split; [|auto]. exists EmptyString. now rewrite append_empty_r.
  - intros w1 w2 w3 [[m1 H1] C1] [[m2 H2] C2]. split; [|auto].
    exists (m1 +:+ m2). now rewrite H2, H1, append_assoc.
Qed.

Lemma db_only_extends conversation_id w w' :
  db_only w w' -> extends conversation_id w w'.
Proof.
  intros []. unfold extends, pdf_context_of.
  rewrite db_only_memory0, db_only_memory_script0. split; [|auto].
  exists EmptyString. now rewrite append_empty_r.
Qed.

Lemma along_db_only_extends {A} conversation_id (m : M A) :
  along db_only m -> along (extends conversation_id) m.
Proof. intros Hm w. apply db_only_extends, Hm. Qed.

Lemma existing_pdf_context_eq (v : values) :
  (if has_values v then default EmptyString (v_pdf_context v) else EmptyString)
  = default EmptyString (v_pdf_context v).
Proof. destruct v as [[?|] [?|] [?|]]; reflexivity. Qed.

Lemma calm_tail o rest : calm (o :: rest) -> calm rest.
Proof. intros Hc. now inversion Hc. Qed.

Lemma next_fault_keeps_calm script :
  calm script -> calm (next_fault script).2.
Proof. destruct script as [|o rest]; cbn; [auto | apply calm_tail]. Qed.

Lemma pdf_context_of_stored conversation_id messages summary updated m w :
  pdf_context_of
    (set_memory (<[Some conversation_id :=
                     {| v_messages := messages; v_summary := summary;
                        v_pdf_context := Some updated |}]> m) w)
    conversation_id = updated.
Proof. unfold pdf_context_of. cbn. now rewrite lookup_insert_eq. Qed.

(** The checkpoint after [update_agent_memory]: untouched when the
    checkpointer fails, extended by the document's block otherwise. *)
Lemma update_agent_memory_spec conversation_id file text w :
  exists w',
    update_agent_memory conversation_id file text w = (Returned tt, w') /\
    (calm (memory_script w) -> calm (memory_script w')) /\
    (pdf_context_of w' conversation_id = pdf_context_of w conversation_id \/
     pdf_context_of w' conversation_id
       = pdf_context_of w conversation_id +:+ document_block file text) /\
    (calm (memory_script w) ->
     pdf_context_of w' conversation_id
       = pdf_context_of w conversation_id +:+ document_block file text).
Proof.
  assert (forall w0,
            pdf_context_of
              (set_memory
                 (<[Some conversation_id :=
                      {| v_messages := v_messages (default no_values (memory w !! Some conversation_id));
                         v_summary := v_summary (default no_values (memory w !! Some conversation_id));
                         v_pdf_context :=
                           Some ((if has_values (default no_values (memory w !! Some conversation_id))
                                  then default EmptyString
                                         (v_pdf_context (default no_values (memory w !! Some conversation_id)))
                                  else EmptyString) +:+ document_block file text) |}]>
                    (memory w)) w0) conversation_id
            = pdf_context_of w conversation_id +:+ document_block file text) as Hstored.
  { intros w0. now rewrite pdf_context_of_stored, existing_pdf_context_eq. }
  unfold update_agent_memory, try_except, aget_state, aupdate_pdf_context,
    checkpointer_call, bind, gets, modify, ret.
  destruct (memory_script w) as [|[e1|] [|[e2|] rest]] eqn:Hscript; cbn;
    (eexists; split; [reflexivity|]; cbn).
  - (* the script has run out: both calls work *)
    split; [intros _; constructor|]. split; [right|intros _]; apply Hstored.
  - (* [aget_state] raises *)
    split; [apply calm_tail|]. split; [left; reflexivity|].
    intros Hc. inversion Hc; discriminate.
  - split; [apply calm_tail|]. split; [left; reflexivity|].
    intros Hc. inversion Hc; discriminate.
  - split; [apply calm_tail|]. split; [left; reflexivity|].
    intros Hc. inversion Hc; discriminate.
  - split; [intros _; constructor|]. split; [right|intros _]; apply Hstored.
  - (* [aupdate_state] raises *)
    split; [intros Hc; now do 2 apply calm_tail in Hc|]. split; [left; reflexivity|].
    intros Hc. apply calm_tail in Hc. inversion Hc; discriminate.
  - split; [intros Hc; now do 2 apply calm_tail in Hc|].
    split; [right|intros _]; apply Hstored.
Qed.

Lemma read_pdf_pure file w : exists r, read_pdf file w = (r, w).
Proof.
  unfold read_pdf, try_except. destruct (pages file) as [pages|e]; cbn.
  - destruct (truthy _); eexists; reflexivity.
  - eexists; reflexivity.
Qed.

(** One upload: whatever happens the stored context is at most extended;
    when the upload succeeds and the checkpointer works, it is extended by
    the block of the document. *)
Lemma upload_pdf_run conversation_id file silent current_user w :
  exists r w',
    upload_pdf format_exc conversation_id file silent current_user w = (r, w') /\
    extends conversation_id w w' /\
    forall result,
      r = Returned result ->
      calm (memory_script w) ->
      pdf_context_of w' conversation_id
      = pdf_context_of w conversation_id
          +:+ document_block file (extracted_text result).
Proof.
  unfold upload_pdf. unfold try_except at 1.
  pose proof (db_only_extends conversation_id _ _
                (query_conversation_db_only conversation_id current_user w)) as X1.
  pose proof (db_only_memory_script _ _
                (query_conversation_db_only conversation_id current_user w)) as S1.
  pose proof (db_only_memory _ _
                (query_conversation_db_only conversation_id current_user w)) as M1.
  destruct (query_conversation conversation_id current_user w) as [[rows|e] w1] eqn:Eq;
    cbn [snd] in *.
  2:{ rewrite (bind_raised _ _ _ _ _ Eq).
      destruct e; (eexists _, w1; split; [reflexivity|]; split; [exact X1 | discriminate]). }
  rewrite (bind_returned _ _ _ _ _ Eq).
  destruct rows as [|row rows];
    [eexists _, w1; split; [reflexivity|]; split; [exact X1 | discriminate]|].
  rewrite (bind_returned _ _ _ tt w1 eq_refl).
  destruct (read_pdf_pure file w1) as [r Hread].
  destruct r as [text|e].
  2:{ rewrite (bind_raised _ _ _ _ _ Hread).
      destruct e; (eexists _, w1; split; [reflexivity|]; split; [exact X1 | discriminate]). }
  rewrite (bind_returned _ _ _ _ _ Hread).
  destruct (update_agent_memory_spec conversation_id file text w1)
    as (w2 & Hupdate & Hcalm & Hcases & Hstored).
  rewrite (bind_returned _ _ _ _ _ Hupdate).
  assert (extends conversation_id w w2) as X2.
  { etransitivity; [exact X1|]. split; [|exact Hcalm].
    destruct Hcases as [-> | ->]; [exists EmptyString; now rewrite append_empty_r | eauto]. }
  assert (pdf_context_of w1 conversation_id = pdf_context_of w conversation_id) as Hsame
    by (unfold pdf_context_of; now rewrite M1).
  rewrite S1, Hsame in Hstored.
  destruct silent; cbn [negb].
  - rewrite (bind_returned _ _ _ tt w2 eq_refl).
    eexists _, w2. split; [reflexivity|]. split; [exact X2|].
    intros result [= <-] Hc. cbn. auto.
  - match goal with
    | |- context [bind (try_except (bind (add_messages ?rows) ?k) ?handler) _ w2] =>
        pose proof (add_messages_db_only rows w2) as D3;
        destruct (add_messages rows w2) as [[saved|e] w3] eqn:Ea; cbn [snd] in D3;
        [ assert (try_except (bind (add_messages rows) k) handler w2 = (Returned tt, w3))
            as Hsaved
            by (unfold try_except; now rewrite (bind_returned _ _ _ _ _ Ea))
        | assert (try_except (bind (add_messages rows) k) handler w2
                  = (Raised (HTTPException 500 ("Lỗi lưu Database: " +:+ exn_str e)), w3))
            as Hrefused
            by (unfold try_except; now rewrite (bind_raised _ _ _ _ _ Ea)) ]
    end.
    + rewrite (bind_returned _ _ _ _ _ Hsaved).
      eexists _, w3. split; [reflexivity|].
      split; [etransitivity; [exact X2 | now apply db_only_extends]|].
      intros result [= <-] Hc. cbn.
      unfold pdf_context_of. rewrite (db_only_memory _ _ D3). now apply Hstored.
    + rewrite (bind_raised _ _ _ _ _ Hrefused).
      eexists _, w3. split; [reflexivity|].
      split; [etransitivity; [exact X2 | now apply db_only_extends] | discriminate].
Qed.

Lemma upload_pdf_spec conversation_id file silent current_user w :
  extends conversation_id w
    (upload_pdf format_exc conversation_id file silent current_user w).2 /\
  forall result,
    (upload_pdf format_exc conversation_id file silent current_user w).1
      = Returned result ->
    calm (memory_script w) ->
    pdf_context_of
      (upload_pdf format_exc conversation_id file silent current_user w).2
      conversation_id
    = pdf_context_of w conversation_id
        +:+ document_block file (extracted_text result).
Proof.
  destruct (upload_pdf_run conversation_id file silent current_user w)
    as (r & w' & -> & Hext & Hstored).
  split; [exact Hext | exact Hstored].
Qed.


End UploadFacts.

(** ** [chat.py]: the history handed to the agent *)

Section HistoryFacts.
Import Chat.
Local Open Scope chat_scope.
Context `{Text} (agent_executor : executor).

#[local] Instance tables_kept_preorder : PreOrder tables_kept.
Proof.
  split; [intros w; apply db_grows_refl|].
  intros w1 w2 w3. apply db_grows_trans.
Qed.

#[local] Instance calls_kept_preorder : PreOrder calls_kept.
Proof. split; unfold calls_kept; [now intros w | intros w1 w2 w3; congruence]. Qed.

Lemma along_db_only_tables {A} (m : M A) : along db_only m -> along tables_kept m.
Proof. intros Hm w. apply (db_only_tables _ _ (Hm w)). Qed.

Lemma along_db_only_calls {A} (m : M A) : along db_only m -> along calls_kept m.
Proof. intros Hm w. apply (db_only_agent_calls _ _ (Hm w)). Qed.

Lemma send_personal_message_tables f : along tables_kept (send_personal_message f).
Proof.
  intros w. unfold send_personal_message, tables_kept.
  destruct (next_fault (link_script w)) as [[e|] rest]; [destruct e|];
    cbn; apply db_grows_refl.
Qed.

Lemma log_to_file_tables : along tables_kept log_to_file.
Proof.
  intros w. unfold log_to_file, tables_kept.
  destruct (next_fault (disk_script w)) as [[e|] rest]; cbn; apply db_grows_refl.
Qed.

Lemma log_to_file_calls : along calls_kept log_to_file.
Proof.
  intros w. unfold log_to_file, calls_kept.
  destruct (next_fault (disk_script w)) as [[e|] rest]; reflexivity.
Qed.

Lemma aget_state_tables thread_id : along tables_kept (aget_state thread_id).
Proof.
  intros w. unfold aget_state, bind, checkpointer_call, gets, tables_kept.
  destruct (next_fault (memory_script w)) as [[e|] rest]; cbn; apply db_grows_refl.
Qed.

Lemma checkpointer_call_tables : along tables_kept checkpointer_call.
Proof.
  intros w. unfold checkpointer_call, tables_kept.
  destruct (next_fault (memory_script w)) as [[e|] rest]; cbn; apply db_grows_refl.
Qed.

Lemma run_agent_tables input thread_id :
  along tables_kept (run_agent agent_executor input thread_id).
Proof.
  intros w. unfold run_agent, tables_kept.
  destruct (ainvoke agent_executor input thread_id (memory w)) as [r m].
  cbn. apply db_grows_refl.
Qed.

Lemma consume_tables events full_response tokens_streamed :
  along tables_kept (consume events full_response tokens_streamed).
Proof.
  revert full_response tokens_streamed.
  induction events as [|[name|name|c|kind] events IH];
    intros full_response tokens_streamed; cbn [consume];
    try destruct (fragment c);
    walk; auto using send_personal_message_tables.
Qed.

Lemma stream_agent_tables input thread_id :
  along tables_kept (stream_agent agent_executor input thread_id).
Proof.
  intros w. unfold stream_agent. rewrite bind_modify, bind_gets.
  destruct (astream_events _ _ _ _) as [[events ending] after].
  set (w1 := set_agent_calls _ w).
  pose proof (consume_tables events EmptyString 0 w1) as Hc.
  unfold bind. destruct (consume events EmptyString 0 w1) as [[streamed|e] w2];
    [destruct ending|]; exact Hc.
Qed.

End HistoryFacts.

#[local] Existing Instance tables_kept_preorder.
#[local] Existing Instance calls_kept_preorder.

#[local] Hint Resolve send_personal_message_tables log_to_file_tables
  log_to_file_calls aget_state_tables checkpointer_call_tables run_agent_tables
  consume_tables stream_agent_tables : core.
#[local] Hint Extern 1 (tables_kept _ _) =>
  unfold tables_kept; cbn; apply db_grows_refl : core.
#[local] Hint Extern 2 (along tables_kept _) => apply along_db_only_tables : core.
#[local] Hint Extern 2 (along calls_kept _) => apply along_db_only_calls : core.

Section HistoryWindow.
Import Chat.
Local Open Scope chat_scope.
Context `{Text} (agent_executor : executor).

Lemma chat_endpoint_tables request current_user :
  along tables_kept (chat_endpoint agent_executor request current_user).
Proof. unfold chat_endpoint, fetch_history, save_exchange. walk. Qed.

Lemma turn_tables user_id conversation_id data :
  along tables_kept (turn agent_executor user_id conversation_id data).
Proof.
  unfold turn, load_history, open_conversation, save_user_message, respond,
    stream_failed, finish_turn, no_stream_fallback, save_assistant_message.
  walk.
Qed.

Lemma obliging_next n script :
  obliging (S n) script ->
  exists rest, next_reply script = (Done, rest) /\ obliging n rest.
Proof.
  unfold obliging. destruct script as [|r rest]; cbn.
  - intros _. exists []. split; [reflexivity|]. rewrite take_nil. constructor.
  - intros Hall. inversion Hall as [|? ? <- Hrest]. eauto.
Qed.

Lemma execute_done {A} (s : statement) (run : database -> list A * database) w d n :
  supabase w = Some d ->
  obliging (S n) (db_script w) ->
  exists w1,
    execute s run w = (Returned (run d).1, w1) /\
    supabase w1 = Some (run d).2 /\
    obliging n (db_script w1).
Proof.
  intros Hd Hob. unfold execute. rewrite Hd.
  destruct (obliging_next _ _ Hob) as (rest & -> & Hrest).
  destruct (run d) as [rows d']. eexists. split; [reflexivity|]. cbn. auto.
Qed.

Lemma try_bind_returned {A B} (m : M A) (k : A -> M B) (h : exn -> M B) w a w1 :
  m w = (Returned a, w1) ->
  try_except (bind m k) h w = try_except (k a) h w1.
Proof. intros Hm. unfold try_except, bind. now rewrite Hm. Qed.

Lemma try_bind_gets {A B} (f : world -> A) (k : A -> M B) (h : exn -> M B) w :
  try_except (bind (gets f) k) h w = try_except (k (f w)) h w.
Proof. reflexivity. Qed.

(** Once a first step is done, what holds along the rest of a [try] and
    along its handler holds from there to the end. *)
Lemma after_step (R : relation world) `{!PreOrder R} {A B}
    (m : M A) (k : A -> M B) (h : exn -> M B) w :
  (forall a, along R (k a)) ->
  (forall e, along R (h e)) ->
  R (m w).2 (try_except (bind m k) h w).2.
Proof.
  intros Hk Hh. unfold try_except, bind.
  destruct (m w) as [[a|e] w1]; cbn [snd]; [|apply Hh].
  pose proof (Hk a w1) as Hka.
  destruct (k a w1) as [[b|e] w2]; cbn [snd] in *; [exact Hka|].
  etransitivity; [exact Hka | apply Hh].
Qed.

Lemma fetch_history_window id current_user w d :
  supabase w = Some d ->
  obliging 2 (db_script w) ->
  List.filter (owned_by id current_user) (conversations d) <> [] ->
  exists w1,
    fetch_history id current_user w = (Returned (window d id), w1) /\
    agent_calls w1 = agent_calls w.
Proof.
  intros Hd Hob Howned.
  pose proof (db_only_agent_calls _ _ (fetch_history_db_only id current_user w)) as Hcalls.
  unfold fetch_history, try_except in *.
  destruct (execute_done (select_conversation id current_user)
              (fun d => (List.filter (owned_by id current_user) (conversations d), d))
              w d 1 Hd Hob) as (w1 & Hcheck & Hd1 & Hob1).
  cbn [fst snd] in *. fold (query_conversation id current_user) in Hcheck.
  rewrite (bind_returned _ _ _ _ _ Hcheck) in *.
  destruct (List.filter (owned_by id current_user) (conversations d)) as [|row rows];
    [contradiction|].
  destruct (execute_done (select_messages id 20)
              (fun d => (take 20 (List.filter (of_conversation id) (messages d)), d))
              w1 d 0 Hd1 Hob1) as (w2 & Hfetch & _ & _).
  cbn [fst snd] in *. fold (query_messages id 20) in Hfetch.
  rewrite (bind_returned _ _ _ _ _ Hfetch) in *.
  exists w2. split; [reflexivity | exact Hcalls].
Qed.

Lemma load_history_window id w d :
  supabase w = Some d ->
  truthy id = true ->
  obliging 1 (db_script w) ->
  exists w1, load_history (Some id) w = (Returned (window d id), w1).
Proof.
  intros Hd Hid Hob. unfold load_history. rewrite bind_gets. cbn [given].
  rewrite Hid, Hd, (bool_decide_eq_true_2 _ (mk_is_Some _ _ eq_refl)).
  cbn [andb]. change (default EmptyString (Some id)) with id.
  destruct (execute_done (select_messages id 20)
              (fun d => (take 20 (List.filter (of_conversation id) (messages d)), d))
              w d 0 Hd Hob) as (w1 & Hfetch & _ & _).
  cbn [fst snd] in *. fold (query_messages id 20) in Hfetch.
  unfold try_except. rewrite (bind_returned _ _ _ _ _ Hfetch).
  exists w1. reflexivity.
Qed.

Lemma open_conversation_given id user_id data w :
  truthy id = true ->
  open_conversation (Some id) user_id data w = (Returned (Some id), w).
Proof.
  intros Hid. unfold open_conversation. rewrite bind_gets. cbn [given].
  now rewrite Hid.
Qed.

(** The one run [POST /chat] starts gets the history it fetched and the
    new message. *)
Lemma chat_endpoint_call request current_user w d id history w1 :
  conversation_id request = Some id ->
  truthy id = true ->
  supabase w = Some d ->
  fetch_history id current_user w = (Returned history, w1) ->
  agent_calls w1 = agent_calls w ->
  agent_calls (chat_endpoint agent_executor request current_user w).2
    = agent_calls w ++ [(Some id, history ++ [("user", Str (message request))])].
Proof.
  intros Hreq Hid Hd Hfetch Hcalls. unfold chat_endpoint.
  rewrite try_bind_gets, Hreq. cbn [given].
  rewrite Hid, Hd, (bool_decide_eq_true_2 _ (mk_is_Some _ _ eq_refl)).
  cbn [andb]. change (default EmptyString (Some id)) with id.
  rewrite (try_bind_returned _ _ _ _ _ _ Hfetch).
  match goal with
  | |- agent_calls (try_except (bind ?m ?k) ?h w1).2 = _ =>
      pose proof (after_step calls_kept m k h w1) as Hrest
  end.
  unfold calls_kept in Hrest at 3. rewrite Hrest.
  - unfold run_agent.
    destruct (ainvoke agent_executor _ _ _) as [r m]. cbn. now rewrite Hcalls.
  - intros output. unfold save_exchange. walk.
  - intros e. walk.
Qed.

(** C8, as the code has it. Bounded history window: with a conversation
    identifier and a database that answers, both endpoints read the
    conversation's messages in creation order limited to 20 rows, that is
    the first 20 and not the latest 20, and hand them, followed by the new
    message, to the one run of the agent they start; the tables only grow
    at their end. *)
Theorem history_window (request : ChatRequest) (current_user user_id data id : string)
    (w : world) (d : database) :
  supabase w = Some d ->
  truthy id = true ->
  let posted := (chat_endpoint agent_executor request current_user w).2 in
  let turned := (turn agent_executor user_id (Some id) data w).2 in
  (conversation_id request = Some id ->
   obliging 2 (db_script w) ->
   List.filter (owned_by id current_user) (conversations d) <> [] ->
   agent_calls posted
     = agent_calls w ++ [(Some id, window d id ++ [("user", Str (message request))])]) /\
  (obliging 1 (db_script w) ->
   agent_calls turned = agent_calls w \/
   agent_calls turned
     = agent_calls w ++ [(Some id, window d id ++ [("user", Str data)])]) /\
  db_grows (supabase w) (supabase posted) /\
  db_grows (supabase w) (supabase turned).
Proof.
  intros Hd Hid. cbn zeta. split; [|split; [|split]].
  - intros Hreq Hob Howned.
    destruct (fetch_history_window id current_user w d Hd Hob Howned)
      as (w1 & Hfetch & Hcalls).
    exact (chat_endpoint_call request current_user w d id _ w1 Hreq Hid Hd Hfetch Hcalls).
  - intros Hob.
    destruct (turn_anatomy agent_executor user_id (Some id) data w)
      as (history & w1 & id' & w2 & Hload & Hopen & sent & delivered & events
          & _ & _ & Hrun).
    destruct (load_history_window id w d Hd Hid Hob) as (w1' & Hload').
    rewrite Hload' in Hload. injection Hload as <- <-.
    rewrite (open_conversation_given id user_id data w1' Hid) in Hopen.
    injection Hopen as <- <-.
    destruct Hrun as [[Hcalls _]|[Hcalls _]]; auto.
  - apply chat_endpoint_tables.
  - apply turn_tables.
Qed.

(** *** The ownership check of [POST /chat] *)

Lemma fetch_history_fails id current_user w d rest :
  supabase w = Some d ->
  fetch_fails id current_user d (db_script w) rest ->
  exists w1,
    fetch_history id current_user w = (Returned [], w1) /\
    supabase w1 = Some d /\
    db_script w1 = rest /\
    db_only w w1.
Proof.
  intros Hd Hfail.
  pose proof (fetch_history_db_only id current_user w) as Hdb.
  unfold fetch_history, try_except, bind, query_conversation, query_messages,
    execute, raise, ret in *.
  rewrite Hd in *.
  destruct Hfail as [e Hs|Hs|Hs Howned|e Hs Howned].
  - rewrite Hs in *. cbn in *. eexists. split; [reflexivity|]. cbn. auto.
  - rewrite Hs in *. cbn in *. eexists. split; [reflexivity|]. cbn. auto.
  - rewrite Hs in *. cbn in *. rewrite Howned in *.
    eexists. split; [reflexivity|]. cbn. auto.
  - rewrite Hs in *. cbn in *.
    destruct (List.filter (owned_by id current_user) (conversations d)); [contradiction|].
    cbn in *. eexists. split; [reflexivity|]. cbn. auto.
Qed.

(** [POST /chat] answers or fails with a 500; no other status leaves its
    last handler. *)
Lemma chat_endpoint_status request current_user w :
  (exists answer,
      (chat_endpoint agent_executor request current_user w).1 = Returned answer) \/
  (exists detail,
      (chat_endpoint agent_executor request current_user w).1
        = Raised (HTTPException 500 detail)).
Proof.
  unfold chat_endpoint, try_except.
  match goal with |- context [?body w] =>
    lazymatch body with bind _ _ => destruct (body w) as [[answer|e] w1] end
  end.
  - left. eauto.
  - right. destruct (py_in _ _); eexists; reflexivity.
Qed.

Lemma execute_same_tables {A} (s : statement) (run : database -> list A * database) w :
  (forall d, (run d).2 = d) ->
  supabase (execute s run w).2 = supabase w.
Proof.
  intros Hrun. unfold execute. destruct (supabase w) as [d|] eqn:Hd; [|exact Hd].
  destruct (next_reply (db_script w)) as [[| |e] rest]; cbn; try exact Hd.
  specialize (Hrun d). destruct (run d) as [rows d']. cbn in *. now subst.
Qed.

(** Both messages are appended to the conversation the request names. *)
Lemma save_exchange_given id current_user message assistant_response w d :
  truthy id = true ->
  supabase w = Some d ->
  obliging 1 (db_script w) ->
  exists w',
    save_exchange (Some id) current_user message assistant_response w
      = (Returned (Some id), w') /\
    supabase w'
      = Some {| conversations := conversations d;
                messages := messages d ++
                  [ {| m_conversation_id := id; m_role := "user";
                       m_content := Str message |};
                    {| m_conversation_id := id; m_role := "assistant";
                       m_content := Str assistant_response |} ] |} /\
    db_only w w'.
Proof.
  intros Hid Hd Hob.
  pose proof (save_exchange_db_only (Some id) current_user message assistant_response w)
    as Hdb.
  set (rows := [ {| m_conversation_id := id; m_role := "user"; m_content := Str message |};
                 {| m_conversation_id := id; m_role := "assistant";
                    m_content := Str assistant_response |} ]).
  assert (exists w',
            save_exchange (Some id) current_user message assistant_response w
              = (Returned (Some id), w') /\
            supabase w'
              = Some {| conversations := conversations d;
                        messages := messages d ++ rows |})
    as (w' & Hsave & Hd');
    [|rewrite Hsave in Hdb; exists w'; auto].
  unfold save_exchange. cbn [given]. rewrite Hid. cbv iota.
  rewrite (bind_returned _ _ _ (Some id) w eq_refl). cbn [given].
  rewrite Hid. cbv iota. change (default EmptyString (Some id)) with id.
  fold rows.
  destruct (execute_done (insert_messages rows)
              (fun d => (rows, {| conversations := conversations d;
                                  messages := messages d ++ rows |}))
              w d 0 Hd Hob) as (w1 & Hadd & Hd1 & _).
  cbn [fst snd] in *. fold (add_messages rows) in Hadd.
  pose proof (execute_same_tables (update_conversation id)
                (fun d => (List.filter (fun c => String.eqb (c_id c) id) (conversations d), d))
                w1 (fun _ => eq_refl)) as Htouch.
  fold (touch_conversation id) in Htouch. rewrite Hd1 in Htouch.
  assert (exists w2,
            try_except (add_messages rows ;;; touch_conversation id ;;; ret tt)
                       (fun _ => ret tt) w = (Returned tt, w2) /\
            supabase w2 = supabase (touch_conversation id w1).2) as (w2 & Hsaved & Hd2).
  { unfold try_except. rewrite (bind_returned _ _ _ _ _ Hadd). unfold bind.
    destruct (touch_conversation id w1) as [[touched|e] w2]; eexists; split; reflexivity. }
  rewrite (bind_returned _ _ _ _ _ Hsaved).
  exists w2. split; [reflexivity | congruence].
Qed.

(** C9. In [POST /chat] whatever is raised while ownership is checked and
    history fetched, the 403 for a conversation of another user included,
    is caught by the handler of that [try]: the agent is run with an empty
    history on the thread of that conversation, the request never ends in
    a 403, and when the agent answers and the database takes the insert,
    the user message and the answer are appended to that conversation. *)
Theorem chat_endpoint_swallows_403 (request : ChatRequest) (current_user id : string)
    (w : world) (d : database) (rest : list reply) :
  conversation_id request = Some id ->
  truthy id = true ->
  supabase w = Some d ->
  fetch_fails id current_user d (db_script w) rest ->
  let outcome := chat_endpoint agent_executor request current_user w in
  agent_calls outcome.2
    = agent_calls w ++ [(Some id, [("user", Str (message request))])] /\
  (forall detail, outcome.1 <> Raised (HTTPException 403 detail)) /\
  (forall output after answer,
      ainvoke agent_executor [("user", Str (message request))] (Some id) (memory w)
        = (Returned output, after) ->
      last output = Some answer ->
      obliging 1 rest ->
      supabase outcome.2
        = Some {| conversations := conversations d;
                  messages := messages d ++
                    [ {| m_conversation_id := id; m_role := "user";
                         m_content := Str (message request) |};
                      {| m_conversation_id := id; m_role := "assistant";
                         m_content := Str (_get_text_content answer) |} ] |} /\
      (calm (take 1 (disk_script w)) ->
       outcome.1 = Returned {| response := _get_text_content answer;
                               response_conversation_id := Some id |})).
Proof.
  intros Hreq Hid Hd Hfail. cbn zeta.
  destruct (fetch_history_fails id current_user w d rest Hd Hfail)
    as (w1 & Hfetch & Hd1 & Hrest & Hdb1).
  split; [|split].
  - exact (chat_endpoint_call request current_user w d id [] w1 Hreq Hid Hd Hfetch
             (db_only_agent_calls _ _ Hdb1)).
  - intros detail Hraised.
    destruct (chat_endpoint_status request current_user w) as [[a Ha]|[detail' Ha]];
      rewrite Ha in Hraised; discriminate.
  - intros output after answer Hagent Hlast Hob.
    assert (exists r w',
              chat_endpoint agent_executor request current_user w = (r, w') /\
              supabase w'
                = Some {| conversations := conversations d;
                          messages := messages d ++
                            [ {| m_conversation_id := id; m_role := "user";
                                 m_content := Str (message request) |};
                              {| m_conversation_id := id; m_role := "assistant";
                                 m_content := Str (_get_text_content answer) |} ] |} /\
              (calm (take 1 (disk_script w)) ->
               r = Returned {| response := _get_text_content answer;
                               response_conversation_id := Some id |}))
      as (r & w' & -> & Htables & Hanswer); [|split; assumption].
    unfold chat_endpoint.
    rewrite try_bind_gets, Hreq. cbn [given].
    rewrite Hid, Hd, (bool_decide_eq_true_2 _ (mk_is_Some _ _ eq_refl)).
    cbn [andb]. change (default EmptyString (Some id)) with id.
    rewrite (try_bind_returned _ _ _ _ _ _ Hfetch). cbn [app].
    (* the agent *)
    assert (run_agent agent_executor [("user", Str (message request))] (Some id) w1
            = (Returned output,
               set_memory after
                 (set_agent_calls
                    (agent_calls w1 ++ [(Some id, [("user", Str (message request))])]) w1)))
      as Hrun.
    { unfold run_agent. now rewrite (db_only_memory _ _ Hdb1), Hagent. }
    rewrite (try_bind_returned _ _ _ _ _ _ Hrun), Hlast.
    rewrite (try_bind_returned _ _ _ _ answer _ eq_refl).
    (* the exchange is saved *)
    set (w2 := set_memory after _).
    destruct (save_exchange_given id current_user (message request)
                (_get_text_content answer) w2 d Hid Hd1
                ltac:(cbn; now rewrite Hrest))
      as (w3 & Hsave & Hd3 & Hdb3).
    rewrite (try_bind_returned _ _ _ _ _ _ Hsave).
    (* the log line *)
    assert (disk_script w3 = disk_script w) as Hdisk.
    { rewrite (db_only_disk_script _ _ Hdb3). cbn. exact (db_only_disk_script _ _ Hdb1). }
    unfold try_except, bind, log_to_file. rewrite Hdisk.
    destruct (disk_script w) as [|[e|] disk]; cbn.
    + eexists _, _. split; [reflexivity|]. cbn. auto.
    + destruct (py_in _ _); cbn; (eexists _, _; split; [reflexivity|]); cbn;
        (split; [exact Hd3|]); intros Hc; inversion Hc; discriminate.
    + eexists _, _. split; [reflexivity|]. cbn. auto.
Qed.

End HistoryWindow.

(** ** [chat.py]: the fallback after a stream without text *)

Section FallbackFacts.
Import Chat.
Local Open Scope chat_scope.
Context (agent_executor : executor).

(** A content is truthy unless it is the empty text or the empty list. *)
Lemma nonempty_plain (c : content) :
  c <> Str EmptyString -> c <> Parts [] -> nonempty c = true.
Proof. destruct c as [[|a s]|[|p ps]]; intros H1 H2; try reflexivity; congruence. Qed.

Lemma final_content_last (state : values) (messages : list content) (c : content) :
  v_messages state = Some messages ->
  last messages = Some c ->
  c <> Str EmptyString ->
  c <> Parts [] ->
  final_content state = Some c.
Proof.
  intros Hm Hl H1 H2. unfold final_content.
  now rewrite Hm, Hl, (nonempty_plain c H1 H2).
Qed.

Lemma load_history_not_given conversation_id w :
  given conversation_id = false ->
  load_history conversation_id w = (Returned [], w).
Proof. intros Hg. unfold load_history. rewrite bind_gets, Hg. reflexivity. Qed.

(** The thread of a turn: the identifier given; without one, that of the
    conversation the database creates; without a database, none. *)
Lemma open_conversation_thread conversation_id user_id data w id w' :
  open_conversation conversation_id user_id data w = (Returned id, w') ->
  (given conversation_id = true -> id = conversation_id) /\
  (supabase w = None -> id = conversation_id /\ w' = w) /\
  (given conversation_id = false ->
   is_Some (supabase w) ->
   obliging 1 (db_script w) ->
   given id = true).
Proof.
  unfold open_conversation. rewrite bind_gets.
  destruct (given conversation_id) eqn:Hg; cbn [negb andb].
  - intros [= <- <-]. repeat split; try discriminate; auto.
  - destruct (supabase w) as [d|] eqn:Hd.
    + rewrite (bool_decide_eq_true_2 _ (mk_is_Some _ _ eq_refl)).
      intros Hopen. split; [discriminate|]. split; [discriminate|].
      intros _ _ Hob.
      destruct (execute_done (insert_conversation (slice_to 50 data) user_id)
                  (fun d =>
                     let row := {| c_id := fresh_id d; c_user_id := user_id;
                                   c_title := slice_to 50 data |} in
                     ([row], {| conversations := conversations d ++ [row];
                                messages := messages d |}))
                  w d 0 Hd Hob) as (w1 & Hcreate & _).
      cbn [fst snd] in Hcreate.
      fold (create_conversation (slice_to 50 data) user_id) in Hcreate.
      assert (try_except (create_conversation (slice_to 50 data) user_id)
                         (fun _ => ret []) w
              = (Returned [ {| c_id := fresh_id d; c_user_id := user_id;
                               c_title := slice_to 50 data |} ], w1)) as Hcreated
        by (unfold try_except; now rewrite Hcreate).
      rewrite (bind_returned _ _ _ _ _ Hcreated) in Hopen. cbn [c_id] in Hopen.
      destruct (try_swallow (send_personal_message (ev_meta (fresh_id d))) tt w1)
        as [[] Hsent].
      rewrite (bind_returned _ _ _ _ _ Hsent) in Hopen.
      injection Hopen as <- _. reflexivity.
    + assert (bool_decide (is_Some (None : option database)) = false) as ->
        by (apply bool_decide_eq_false_2; intros [x Hx]; discriminate).
      intros [= <- <-]. split; [discriminate|]. split; [auto|].
      intros _ [x Hx]. discriminate.
Qed.

Lemma delivers_nothing w metas : delivers w w metas -> metas = [].
Proof.
  intros (Ho & _). symmetry in Ho. rewrite <- (app_nil_r (outbox w)) in Ho at 2.
  now apply app_inv_head in Ho.
Qed.


End FallbackFacts.

(** ** [graph.py]: the fallback chain and the compiled graph *)

Section TextOccurrence.

Lemma string_app_assoc (s t u : string) : (s +:+ t) +:+ u = s +:+ t +:+ u.
Proof. induction s as [|c s IH]; [reflexivity|]. now rewrite !append_cons, IH. Qed.

Lemma py_in_app_r (needle s t : string) :
  py_in needle t = true -> py_in needle (s +:+ t) = true.
Proof.
  intros Hin. apply py_in_spec in Hin as (pre & post & ->).
  apply py_in_spec. exists (s +:+ pre), post. now rewrite string_app_assoc.
Qed.

Lemma py_in_app_l (needle s t : string) :
  py_in needle s = true -> py_in needle (s +:+ t) = true.
Proof.
  intros Hin. apply py_in_spec in Hin as (pre & post & ->).
  apply py_in_spec. exists pre, (post +:+ t). now rewrite !string_app_assoc.
Qed.

End TextOccurrence.

Section GraphRunFacts.
Import Graph GraphRun.
Context `{Text}.

Lemma calls_app (t u : list event) : calls (t ++ u) = calls t ++ calls u.
Proof. apply omap_app. Qed.

Lemma ainvoke_calls model_name model input t :
  calls (ainvoke model_name model input t).2 =
    calls t ++ ((fun n => (n, input)) <$> reachable [(model_name, model)]).
Proof.
  destruct model; cbn.
  - now rewrite calls_app.
  - now rewrite app_nil_r.
Qed.

(** Whatever the handles do, the loop goes down the chain and stops at
    the first handle that answers: the handles it has tried are a first
    part of the chain, all failing but the last, which answered; or they
    are the whole chain, all failing.  The backends behind the handles
    tried, and no other, are called, once each, with the same messages. *)
Lemma fallback_loop_stops models input last_error t :
  exists tried later,
    models = tried ++ later /\
    calls (fallback_loop models input last_error t).2 =
      calls t ++ ((fun n => (n, input)) <$> reachable tried) /\
    ((exists failed model_name b response,
         tried = failed ++ [(model_name, Some b)] /\
         Forall (fails input) failed /\
         b input = Returned response /\
         (fallback_loop models input last_error t).1 = inl response) \/
     (later = [] /\
      Forall (fails input) tried /\
      exists last_error', (fallback_loop models input last_error t).1 = inr last_error')).
Proof.
  revert last_error t.
  induction models as [|[model_name model] rest IH]; intros last_error t.
  - exists [], []. split; [reflexivity|]. cbn. rewrite app_nil_r.
    split; [reflexivity|]. right. split; [reflexivity|]. split; [constructor | eauto].
  - rewrite fallback_loop_cons.
    set (t0 := t ++ [Logged ("DEBUG Graph: Attempting model " +:+ model_name +:+ "...")]).
    assert (calls t0 = calls t) as Ht0 by (unfold t0; now rewrite calls_app, app_nil_r).
    destruct model as [b|]; cbn [ainvoke Eff.bind Eff.modify Eff.ret].
    + destruct (b input) as [response|e] eqn:Hb.
      * exists [(model_name, Some b)], rest. split; [reflexivity|]. split.
        { cbn. rewrite !calls_app, Ht0. cbn. now rewrite app_nil_r. }
        left. exists [], model_name, b, response. repeat split; auto.
      * destruct (IH (Some e) ((t0 ++ [Invoked model_name input]) ++
                               [Logged (failure_line model_name e)]))
          as (tried & later & -> & Hcalls & Hend).
        exists ((model_name, Some b) :: tried), later. split; [reflexivity|]. split.
        { rewrite Hcalls, !calls_app, Ht0, reachable_cons. cbn.
          rewrite app_nil_r, <- app_assoc. reflexivity. }
        assert (fails input (model_name, Some b)) as Hfails by (cbn; eauto).
        destruct Hend as [(failed & name & b' & response & -> & Hfailed & Hanswer & Hres)
                         |(-> & Hfailed & Hres)].
        -- left. exists ((model_name, Some b) :: failed), name, b', response.
           repeat split; auto.
        -- right. repeat split; auto.
    + destruct (IH (Some (AttributeError "'NoneType' object has no attribute 'ainvoke'"))
                  (t0 ++ [Logged (failure_line model_name
                            (AttributeError "'NoneType' object has no attribute 'ainvoke'"))]))
        as (tried & later & -> & Hcalls & Hend).
      exists ((model_name, None) :: tried), later. split; [reflexivity|]. split.
      { rewrite Hcalls, calls_app, Ht0, reachable_cons. cbn. now rewrite app_nil_r. }
      assert (fails input (model_name, None)) as Hfails by exact I.
      destruct Hend as [(failed & name & b' & response & -> & Hfailed & Hanswer & Hres)
                       |(-> & Hfailed & Hres)].
      * left. exists ((model_name, None) :: failed), name, b', response.
        repeat split; auto.
      * right. repeat split; auto.
Qed.

Lemma call_model_one_message h state t :
  exists response, (call_model h state t).1 = [response].
Proof.
  unfold call_model, Eff.bind.
  destruct (fallback_loop _ _ _ _) as [[response|last_error] t1]; eexists; reflexivity.
Qed.

(** X1. Whatever the backends do, one call of [call_model] goes down the
    chain (Llama 3.3 70B, Llama 3.1 8B, Gemini 2.5 Flash) and stops at the
    first handle that answers: the handles tried are a first part of the
    chain; either all of them but the last fail and the last answers, and
    its answer is the message returned, or they are the whole chain, all
    fail, and the message returned is the apology.  The backends behind
    the handles tried, and no other, are called, once each and in chain
    order, all with the same messages: the system prompt, then the
    messages of the state, unchanged. *)
Theorem call_model_chain (h : handles) (state : AgentState) (t : list event) :
  let input := SystemMessage (base_prompt state) :: messages state in
  exists tried later response,
    models_to_try h = tried ++ later /\
    (call_model h state t).1 = [response] /\
    calls (call_model h state t).2 =
      calls t ++ ((fun n => (n, input)) <$> reachable tried) /\
    ((exists failed model_name b,
         tried = failed ++ [(model_name, Some b)] /\
         Forall (fails input) failed /\
         b input = Returned response) \/
     (later = [] /\
      Forall (fails input) tried /\
      response = AIMessage apology)) /\
    (models_to_try h).*1 = ["Llama 3.3 70B"; "Llama 3.1 8B"; "Gemini 2.5 Flash"].
Proof.
  intros input.
  destruct (fallback_loop_stops (models_to_try h) (formatted_messages state) None t)
    as (tried & later & Hchain & Hcalls & Hend).
  unfold call_model, Eff.bind.
  destruct (fallback_loop _ _ _ _) as [[r|last_error] t1]; cbn [fst snd] in *.
  - exists tried, later, r. split; [exact Hchain|]. split; [reflexivity|].
    split; [exact Hcalls|]. split; [|reflexivity].
    destruct Hend as [(failed & name & b & response & -> & Hfailed & Hanswer & [= ->])
                     |(_ & _ & le & [=])].
    left. exists failed, name, b. auto.
  - exists tried, later, (AIMessage apology). split; [exact Hchain|].
    split; [reflexivity|]. split.
    + cbn. rewrite calls_app, app_nil_r. exact Hcalls.
    + split; [|reflexivity].
      destruct Hend as [(failed & name & b & response & _ & _ & _ & [=])
                       |(-> & Hfailed & _)].
      right. auto.
Qed.

(** X2. In every state, with or without a PDF context and a summary, the
    system prompt names the tag that [legal_assistant] puts on its
    fallback answers and the tool, [web_search], to call when it shows. *)
Theorem base_prompt_names_fallback_tag (state : AgentState) :
  py_in LegalTools.fallback_tag (base_prompt state) = true /\
  py_in "`web_search`" (base_prompt state) = true.
Proof.
  unfold base_prompt. cbv zeta.
  set (pdf := if truthy (default EmptyString (pdf_context state)) then _ else _).
  match goal with
  | |- context [?a +:+ pdf +:+ ?b] =>
      assert (py_in LegalTools.fallback_tag (a +:+ pdf +:+ b) = true) as Htag
        by (apply py_in_app_r, py_in_app_r; vm_compute; reflexivity);
      assert (py_in "`web_search`" (a +:+ pdf +:+ b) = true) as Htool
        by (apply py_in_app_r, py_in_app_r; vm_compute; reflexivity)
  end.
  destruct (truthy (default EmptyString (summary state))); [|split; assumption].
  split; apply py_in_app_l; assumption.
Qed.

(** *** The run of the graph *)

Lemma tool_node_count run_tool state :
  tool_call_count (tool_node run_tool state) = 0.
Proof.
  unfold tool_node, tool_call_count. destruct (last (messages state)) as [m|]; [|reflexivity].
  induction (default [] (tool_calls m)) as [|c l IH]; [reflexivity|].
  cbn [map]. rewrite filter_cons. cbn. exact IH.
Qed.

Lemma should_continue_write state response :
  should_continue (write state [response]) =
    if 4 <? tool_call_count (messages state) + tool_call_count [response] then END
    else if carries_tool_calls response then tools else END.
Proof.
  rewrite (should_continue_snoc (write state [response]) (messages state) response eq_refl).
  now rewrite tool_call_count_app.
Qed.

Lemma tool_call_count_one response :
  tool_call_count [response] = if carries_tool_calls response then 1 else 0.
Proof.
  unfold tool_call_count. rewrite filter_cons.
  destruct (carries_tool_calls response); reflexivity.
Qed.

Lemma rounds_S k : rounds (S k) = ["agent"; "tools"] ++ rounds k.
Proof. reflexivity. Qed.

(** With [k] bounding what is left under the ceiling, [S k] visits of
    the model suffice. *)
Lemma run_bounded h run_tool k :
  forall state path t n,
    4 - tool_call_count (messages state) <= k ->
    exists final j t',
      run (S k + n) h run_tool state path t = (Some (final, path ++ rounds j), t') /\
      j <= k /\
      messages state `prefix_of` messages final /\
      should_continue final = END.
Proof.
  induction k as [|k IH]; intros state path t n Hk.
  - cbn [run Nat.add]. unfold Eff.bind.
    destruct (call_model_one_message h state t) as [response Hone].
    destruct (call_model h state t) as [update t1]; cbn [fst] in Hone. subst update.
    pose proof (should_continue_write state response) as Hroute.
    rewrite tool_call_count_one in Hroute.
    assert (should_continue (write state [response]) = END) as Hend.
    { rewrite Hroute. destruct (carries_tool_calls response); [|now destruct (_ <? _)].
      assert ((4 <? tool_call_count (messages state) + 1) = true) as ->
        by (apply Nat.ltb_lt; lia).
      reflexivity. }
    rewrite Hend. exists (write state [response]), 0, t1.
    split; [reflexivity|]. split; [lia|]. split; [now apply prefix_app_r | exact Hend].
  - change (S (S k) + n) with (S (S k + n)). cbn [run]. unfold Eff.bind at 1.
    destruct (call_model_one_message h state t) as [response Hone].
    destruct (call_model h state t) as [update t1]; cbn [fst] in Hone. subst update.
    pose proof (should_continue_write state response) as Hroute.
    rewrite tool_call_count_one in Hroute.
    destruct (should_continue (write state [response])) eqn:Hnext.
    + exists (write state [response]), 0, t1.
      split; [reflexivity|]. split; [lia|]. split; [now apply prefix_app_r | exact Hnext].
    + assert (carries_tool_calls response = true /\
              tool_call_count (messages state) + 1 <= 4) as [Hcarries Hcount].
      { destruct (carries_tool_calls response).
        - destruct (4 <? _) eqn:Hlt; [discriminate|].
          apply Nat.ltb_ge in Hlt. auto.
        - now destruct (4 <? _). }
      set (state2 := write (write state [response])
                       (tool_node run_tool (write state [response]))).
      destruct (IH state2 ((path ++ ["agent"]) ++ ["tools"]) t1 n)
        as (final & j & t' & Hrun & Hj & Hprefix & Hend).
      { unfold state2, write, add_messages. cbn [messages].
        rewrite !tool_call_count_app, tool_node_count, tool_call_count_one, Hcarries.
        lia. }
      exists final, (S j), t'. split; [|split; [lia|split; [|exact Hend]]].
      * rewrite Hrun, rounds_S, <- !app_assoc. reflexivity.
      * etransitivity; [|exact Hprefix].
        unfold state2, write, add_messages. cbn [messages]. rewrite <- app_assoc.
        now apply prefix_app_r.
Qed.

(** X3. A run of the compiled graph ends: from a state with [c] messages
    that carry tool calls, [5 - c] visits of the model (one when [c] is 4
    or more) are enough fuel; the nodes visited are at most [4 - c] rounds
    of model and tools and then the model once more; the messages the run
    began with are kept, in place, at the head of the final ones. *)
Theorem run_ends (h : handles) (run_tool : tool_call -> string)
    (state : AgentState) (t : list event) (n : nat) :
  exists final j t',
    run (S (4 - tool_call_count (messages state)) + n) h run_tool state [] t
      = (Some (final, rounds j), t') /\
    j <= 4 - tool_call_count (messages state) /\
    messages state `prefix_of` messages final /\
    should_continue final = END.
Proof.
  destruct (run_bounded h run_tool (4 - tool_call_count (messages state))
              state [] t n (Nat.le_refl _))
    as (final & j & t' & Hrun & Hj & Hprefix & Hend).
  exists final, j, t'. auto.
Qed.

End GraphRunFacts.

(** ** [legal_tools.py]: the knowledge base, the fees and the other tools *)

Section TextLength.
Import Chat.

Lemma len_app (s t : string) : len (s +:+ t) = len s + len t.
Proof.
  induction s as [|c s IH]; [reflexivity|].
  rewrite append_cons. cbn [len]. rewrite IH. now destruct (is_continuation c).
Qed.

(** A slice of [n] code points has at most [n] of them and is an initial
    part of the text. *)
Lemma len_slice_to (n : nat) (s : string) : len (slice_to n s) <= n.
Proof.
  revert n. induction s as [|c s IH]; intros n; cbn [slice_to]; [cbn; lia|].
  destruct (is_continuation c) eqn:Hc.
  - cbn [len]. rewrite Hc. apply IH.
  - destruct n as [|n]; [cbn; lia|]. cbn [len]. rewrite Hc.
    specialize (IH n). lia.
Qed.

Lemma slice_to_prefix (n : nat) (s : string) :
  exists rest, s = slice_to n s +:+ rest.
Proof.
  revert n. induction s as [|c s IH]; intros n; cbn [slice_to].
  - now exists EmptyString.
  - destruct (is_continuation c).
    + destruct (IH n) as [rest Hrest]. exists rest. now rewrite append_cons, <- Hrest.
    + destruct n as [|n]; [now exists (String c s)|].
      destruct (IH n) as [rest Hrest]. exists rest. now rewrite append_cons, <- Hrest.
Qed.

End TextLength.

Section FirstMatch.
Context {A : Type} (f : A -> bool).

(** A [for ... break] loop stops at the first entry that passes. *)
Lemma find_first (pre : list A) (x : A) (post : list A) :
  Forall (fun y => f y = false) pre ->
  f x = true ->
  List.find f (pre ++ x :: post) = Some x.
Proof.
  intros Hpre Hx. induction Hpre as [|y pre Hy _ IH]; cbn.
  - now rewrite Hx.
  - now rewrite Hy.
Qed.

Lemma find_nothing (l : list A) :
  Forall (fun y => f y = false) l -> List.find f l = None.
Proof.
  intros Hl. induction Hl as [|y l Hy _ IH]; cbn; [reflexivity|]. now rewrite Hy.
Qed.

End FirstMatch.

Section KnowledgeBaseFacts.
Import LegalTools.
Context `{Text}.

Lemma dict_get_In {V : Type} (d : list (string * V)) key v :
  dict_get d key = Some v -> In (key, v) d.
Proof.
  induction d as [|[k v'] d IH]; cbn; [discriminate|].
  destruct (String.eqb k key) eqn:Hk.
  - apply String.eqb_eq in Hk as ->. intros [= ->]. now left.
  - intros Hget. right. auto.
Qed.

Lemma kb_answers_untagged :
  Forall (fun entry => py_in fallback_tag (kb_answer entry.2) = false) procedures.
Proof.
  unfold procedures.
  repeat (constructor; [vm_compute; reflexivity|]). constructor.
Qed.

(** What the knowledge base answers for a key of [key_map]. *)
Lemma kb_lookup key :
  match_key key = None \/
  exists matched_key,
    match_key key = Some matched_key /\
    (String.eqb matched_key "giao thông" = true \/
     exists proc,
       String.eqb matched_key "giao thông" = false /\
       dict_get procedures matched_key = Some proc).
Proof.
  unfold match_key.
  destruct (List.find _ key_map) as [entry|] eqn:Hfind; [right|now left].
  apply find_some in Hfind as [Hin _].
  pose proof key_map_covered as Hall. rewrite List.Forall_forall in Hall.
  specialize (Hall entry Hin). exists entry.1. split; [reflexivity|].
  destruct (String.eqb entry.1 "giao thông") eqn:Ht; [now left|].
  destruct Hall as [Hall|[proc Hproc]]; [discriminate|]. right. eauto.
Qed.

Section TwoResources.
Context {vector1 score1 vector2 score2 : Type}
  (percent1 : score1 -> string) (zero1 : score1)
  (percent2 : score2 -> string) (zero2 : score2).

(** X4. A query that names a procedure of the knowledge base is answered
    from it alone: the answer is the traffic note or the entry of the
    matched key, the same whatever the optimizer, the embedding model and
    the index are or do, and it never carries [[FALLBACK_SIGNAL]]. *)
Theorem legal_assistant_knowledge_base
    (resources1 : Resources (vector := vector1) (score := score1))
    (resources2 : Resources (vector := vector2) (score := score2))
    (query matched_key : string) :
  match_key (strip (lower query)) = Some matched_key ->
  legal_assistant percent1 zero1 resources1 query
    = legal_assistant percent2 zero2 resources2 query /\
  py_in fallback_tag (legal_assistant percent1 zero1 resources1 query) = false /\
  (legal_assistant percent1 zero1 resources1 query = traffic_answer \/
   exists proc,
     dict_get procedures matched_key = Some proc /\
     legal_assistant percent1 zero1 resources1 query = kb_answer proc).
Proof.
  intros Hkey. unfold legal_assistant, answer. rewrite Hkey.
  destruct (kb_lookup (strip (lower query))) as [Hnone|(k & Hk & Hcase)];
    [congruence|].
  rewrite Hkey in Hk. injection Hk as <-.
  destruct Hcase as [Ht | (proc & Ht & Hp)]; rewrite Ht; [|rewrite Hp].
  - split; [reflexivity|]. split; [vm_compute; reflexivity | now left].
  - split; [reflexivity|]. split; [|right; eauto].
    pose proof kb_answers_untagged as Hall. rewrite List.Forall_forall in Hall.
    exact (Hall (matched_key, proc) (dict_get_In _ _ _ Hp)).
Qed.

End TwoResources.

Section OneResource.
Context {vector score : Type} (percent : score -> string) (zero : score).

(** X5. The body of [legal_assistant] never raises: the lookup
    [procedures[matched_key]] always finds its key and the vector search
    has a handler of its own, so the last handler of the tool, with its
    apology for a processing error, is never entered. *)
Theorem legal_assistant_handler_dead
    (resources : Resources (vector := vector) (score := score)) (query : string) :
  answer percent zero resources query
    = Returned (legal_assistant percent zero resources query) /\
  (answer percent zero resources query = Returned traffic_answer \/
   (exists proc, answer percent zero resources query = Returned (kb_answer proc)) \/
   answer percent zero resources query = Returned search_trouble_answer \/
   exists text,
     vector_search percent zero resources query (optimize resources query)
       = Returned text /\
     answer percent zero resources query = Returned text).
Proof.
  unfold legal_assistant, answer.
  destruct (kb_lookup (strip (lower query))) as [Hnone|(k & Hk & Hcase)].
  - rewrite Hnone.
    destruct (vector_search percent zero resources query _) as [text|e] eqn:Hsearch.
    + split; [reflexivity|]. right. right. right. eauto.
    + split; [reflexivity|]. right. right. now left.
  - rewrite Hk. destruct Hcase as [Ht | (proc & Ht & Hp)]; rewrite Ht; [|rewrite Hp].
    + split; [reflexivity | now left].
    + split; [reflexivity|]. right. left. eauto.
Qed.

End OneResource.

End KnowledgeBaseFacts.

Section FeeFacts.
Import LegalTools.
Context `{Text}.

Lemma append_empty_l (s : string) : EmptyString +:+ s = s.
Proof. reflexivity. Qed.

Lemma py_in_refl (s : string) : py_in s s = true.
Proof.
  apply py_in_spec. exists EmptyString, EmptyString. now rewrite append_empty_r.
Qed.

Lemma fee_lines_from (acc : string) (fees : list (string * string)) :
  foldl (fun result entry => result +:+ fee_line entry) acc fees
    = acc +:+ foldl (fun result entry => result +:+ fee_line entry) EmptyString fees.
Proof.
  revert acc. induction fees as [|entry fees IH]; intros acc; cbn [foldl].
  - now rewrite append_empty_r.
  - rewrite (IH (acc +:+ fee_line entry)), (IH (EmptyString +:+ fee_line entry)).
    now rewrite string_app_assoc.
Qed.

Lemma fee_lines_has (fees : list (string * string)) (entry : string * string) :
  In entry fees -> py_in (fee_line entry) (fee_lines fees) = true.
Proof.
  unfold fee_lines.
  change (fun result entry0 => result +:+ "- **" +:+ entry0.1 +:+ ":** " +:+ entry0.2 +:+ "
") with (fun result entry0 => result +:+ fee_line entry0).
  induction fees as [|e fees IH]; [contradiction|].
  cbn [foldl]. rewrite fee_lines_from. intros [-> | Hin].
  - rewrite append_empty_l. apply py_in_app_l, py_in_refl.
  - apply py_in_app_r. auto.
Qed.

Lemma fee_table_keys :
  Forall (fun entry => truthy entry.1 = true) fee_table.
Proof. unfold fee_table. repeat constructor. Qed.

(** X6. [calculate_fee] answers for the first key of the fee table, in
    the order of the table, that occurs in the lowercased service: the
    reply opens with that key in upper case and lists every row of its
    table; when no key occurs, the reply is the note that quotes the
    service as it was typed. *)
Theorem calculate_fee_first_match (service details : string) :
  (forall pre key fees post item fee,
      fee_table = pre ++ (key, fees) :: post ->
      Forall (fun entry => py_in entry.1 (lower service) = false) pre ->
      py_in key (lower service) = true ->
      In (item, fee) fees ->
      startswith ("### Lệ phí: " +:+ upper key) (calculate_fee service details) = true /\
      py_in ("- **" +:+ item +:+ ":** " +:+ fee +:+ nl)
            (calculate_fee service details) = true) /\
  (Forall (fun entry => py_in entry.1 (lower service) = false) fee_table ->
   calculate_fee service details = unknown_service service).
Proof.
  split.
  - intros pre key fees post item fee Htable Hpre Hkey Hin.
    unfold calculate_fee. rewrite Htable.
    rewrite (find_first (fun entry => py_in entry.1 (lower service))
               pre (key, fees) post Hpre Hkey).
    assert (truthy key = true) as ->.
    { pose proof fee_table_keys as Hkeys. rewrite Htable in Hkeys.
      apply Forall_app in Hkeys as [_ Hkeys]. now inversion Hkeys. }
    split.
    + rewrite <- string_app_assoc. apply startswith_app.
    + apply py_in_app_r, py_in_app_r, py_in_app_r, py_in_app_l.
      apply (fee_lines_has fees (item, fee) Hin).
  - intros Hnone. unfold calculate_fee.
    now rewrite (find_nothing _ _ Hnone).
Qed.

End FeeFacts.

Section FormatDocumentFacts.
Import LegalTools FormatDocument.
Context `{Text}.

Lemma checklists_cover_key_map :
  Forall (fun entry => truthy entry.1 = true /\ is_Some (dict_get checklists entry.1))
         key_map.
Proof. unfold key_map. repeat (constructor; [split; [reflexivity | eexists; reflexivity]|]). constructor. Qed.

Lemma join_has (sep : string) (parts : list string) (part : string) :
  In part parts -> py_in part (join sep parts) = true.
Proof.
  induction parts as [|p parts IH]; [contradiction|].
  intros [-> | Hin].
  - destruct parts; cbn [join]; [|apply py_in_app_l]; apply py_in_refl.
  - destruct parts as [|q parts]; [contradiction|]. cbn [join].
    apply py_in_app_r, py_in_app_r. auto.
Qed.

(** X7. [format_document] never raises its [KeyError]: every key of
    [key_map] has a checklist.  The reply is the checklist of the first
    entry of [key_map], in its order, one of whose keywords occurs in the
    lowercased document type, with every item of that checklist in it;
    when no keyword occurs, it is the note that quotes the document type
    as it was typed. *)
Theorem format_document_first_match (document_type : string) :
  (exists text, format_document document_type = Returned text) /\
  (forall pre key keywords post,
      key_map = pre ++ (key, keywords) :: post ->
      Forall (fun entry => any_in entry.2 (lower document_type) = false) pre ->
      any_in keywords (lower document_type) = true ->
      exists checklist,
        dict_get checklists key = Some checklist /\
        format_document document_type = Returned (checklist_answer checklist) /\
        forall item, In item (items checklist) ->
                     py_in item (checklist_answer checklist) = true) /\
  (Forall (fun entry => any_in entry.2 (lower document_type) = false) key_map ->
   format_document document_type = Returned (no_checklist_answer document_type)).
Proof.
  pose proof checklists_cover_key_map as Hcover.
  split; [|split].
  - unfold format_document, matched.
    destruct (List.find _ key_map) as [entry|] eqn:Hfind; cbn [fmap option_fmap option_map];
      [|eauto].
    apply find_some in Hfind as [Hin _].
    rewrite List.Forall_forall in Hcover.
    destruct (Hcover entry Hin) as [-> [checklist ->]]. eauto.
  - intros pre key keywords post Hmap Hpre Hkey.
    unfold format_document, matched. rewrite Hmap.
    rewrite (find_first (fun entry => any_in entry.2 (lower document_type))
               pre (key, keywords) post Hpre Hkey).
    cbn [fmap option_fmap option_map fst].
    rewrite Hmap in Hcover. apply Forall_app in Hcover as [_ Hcover].
    inversion Hcover as [|? ? [Htruthy [checklist Hget]] _]; subst.
    cbn [fst] in *. rewrite Htruthy, Hget.
    exists checklist. split; [reflexivity|]. split; [reflexivity|].
    intros item Hitem. unfold checklist_answer.
    apply py_in_app_r, py_in_app_r, py_in_app_r, py_in_app_l.
    now apply join_has.
  - intros Hnone. unfold format_document, matched.
    now rewrite (find_nothing _ _ Hnone).
Qed.

End FormatDocumentFacts.

Section WebSearchFacts.
Import Chat WebSearch.

(** X8. [web_search] shows the first three rows and reads no other: rows
    after the third, well formed or not, change nothing in the reply. *)
Theorem web_search_first_three (rows more : list result) (query : string) :
  length rows = 3 ->
  web_search (answering (found (rows ++ more))) query
    = web_search (answering (found rows)) query.
Proof.
  intros Hlen. destruct rows as [|a [|b [|c [|d rows]]]]; try discriminate.
  reflexivity.
Qed.

(** X9. When the search raises, or a row among the first three lacks a
    key, [web_search] does not raise: its reply is the fixed warning
    followed by an initial part of the text of the exception, of at most
    100 code points. *)
Theorem web_search_trouble_bounded (ddgs : string -> search) (query : string)
    (e : exn) :
  ddgs (query +:+ " pháp luật việt nam") = failed e \/
  (exists results,
      ddgs (query +:+ " pháp luật việt nam") = found results /\
      format_results 1 (take 3 results) = Raised e) ->
  exists detail rest,
    web_search ddgs query = "⚠️ Không thể tìm kiếm web lúc này. Lỗi: " +:+ detail /\
    exn_str e = detail +:+ rest /\
    len detail <= 100 /\
    len (web_search ddgs query) <= 140.
Proof.
  intros Hcase.
  assert (web_search ddgs query = trouble_answer e) as ->.
  { unfold web_search. destruct Hcase as [-> | (results & -> & Hrows)]; [reflexivity|].
    destruct results as [|r results]; [discriminate|]. now rewrite Hrows. }
  destruct (slice_to_prefix 100 (exn_str e)) as [rest Hrest].
  exists (slice_to 100 (exn_str e)), rest.
  split; [reflexivity|]. split; [exact Hrest|].
  pose proof (len_slice_to 100 (exn_str e)) as Hlen. split; [exact Hlen|].
  unfold trouble_answer. rewrite len_app.
  change (len "⚠️ Không thể tìm kiếm web lúc này. Lỗi: ") with 40. lia.
Qed.

End WebSearchFacts.

Section DateInfoFacts.
Import DateInfo.
Context `{Text} `{Calendar}.

(** X10. For a query about a deadline (one that mentions [deadline] or
    [hạn] and neither [hôm nay] nor [today]) the number of days added is
    the first of 15, 30, 60 and 90 that occurs in the query as typed, and
    the due date shown is today moved forward by that number.  When none
    occurs, a query about the acceptance of a claim ([thụ lý]) gets the
    fixed note on the 8 working days, which are never added to a date, and
    any other query gets 30 days. *)
Theorem get_date_info_deadline (today : datetime) (query : string) :
  py_in "hôm nay" (lower query) || py_in "today" (lower query) = false ->
  py_in "deadline" (lower query) || py_in "hạn" (lower query) = true ->
  (forall pre days post,
      [15; 30; 60; 90] = pre ++ days :: post ->
      Forall (fun number => py_in (pretty number) query = false) pre ->
      py_in (pretty days) query = true ->
      get_date_info today query = deadline_answer today days /\
      py_in (strftime (plus_days today days)) (get_date_info today query) = true) /\
  (Forall (fun number => py_in (pretty number) query = false) [15; 30; 60; 90] ->
   get_date_info today query =
     if py_in "thụ lý" (lower query) then acceptance_answer
     else deadline_answer today 30).
Proof.
  intros Htoday Hdeadline. unfold get_date_info. rewrite Htoday, Hdeadline.
  assert (forall days,
            py_in (strftime (plus_days today days)) (deadline_answer today days) = true)
    as Hdue.
  { intros days. unfold deadline_answer. cbv zeta.
    do 5 apply py_in_app_r. apply py_in_app_l, py_in_refl. }
  change "15" with (pretty 15). change "30" with (pretty 30).
  change "60" with (pretty 60). change "90" with (pretty 90).
  split.
  - intros pre days post Hsplit Hpre Hdays.
    destruct pre as [|a [|b [|c [|d pre]]]]; cbn in Hsplit.
    + injection Hsplit as <- _. rewrite Hdays. auto.
    + injection Hsplit as <- <- _. apply Forall_cons in Hpre as [H15 _].
      rewrite H15, Hdays. auto.
    + injection Hsplit as <- <- <- _. apply Forall_cons in Hpre as [H15 Hpre].
      apply Forall_cons in Hpre as [H30 _]. rewrite H15, H30, Hdays. auto.
    + injection Hsplit as <- <- <- <- _. apply Forall_cons in Hpre as [H15 Hpre].
      apply Forall_cons in Hpre as [H30 Hpre]. apply Forall_cons in Hpre as [H60 _].
      rewrite H15, H30, H60, Hdays. auto.
    + injection Hsplit as _ _ _ _ Hsplit. now destruct pre.
  - intros Hnone. apply Forall_cons in Hnone as [H15 Hnone].
    apply Forall_cons in Hnone as [H30 Hnone]. apply Forall_cons in Hnone as [H60 Hnone].
    apply Forall_cons in Hnone as [H90 _]. rewrite H15, H30, H60, H90.
    now destruct (py_in "thụ lý" (lower query)).
Qed.

End DateInfoFacts.

(** ** [deps.py]: who is let in *)

Section DepsFacts.
Import Deps.
Context (decode : string -> decoded).

Lemma user_of_spec (p : payload) (u : user) :
  user_of p = Some u <->
  sub p = Some (id u) /\ truthy (id u) = true /\ user_email u = email p.
Proof.
  unfold user_of. split.
  - destruct (sub p) as [user_id|]; [|discriminate].
    destruct (truthy user_id) eqn:Ht; [|discriminate].
    intros [= <-]. auto.
  - intros (-> & -> & Hmail). destruct u as [user_id mail]. cbn in *. now subst.
Qed.

(** X11. The three ways in agree on who is a user: the dependency of the
    HTTP endpoints, the optional one and the helper of the socket accept a
    token exactly when it decodes to claims with a non-empty [sub], and
    give the same user for it.  Otherwise [get_current_user] raises 401
    and the helper gives nothing; the optional dependency differs in one
    case only: what [jwt.decode] raises besides [JWTError] leaves it. *)
Theorem authentication_agrees (token : string) (u : user) :
  (get_current_user decode token = Returned u <->
   exists p, decode token = claims p /\ sub p = Some (id u) /\
             truthy (id u) = true /\ user_email u = email p) /\
  (get_current_user decode token = Returned u <->
   get_user_from_token decode token = Some u) /\
  (get_current_user decode token = Returned u <->
   get_current_user_optional decode (Some token) = Returned (Some u)) /\
  (get_user_from_token decode token = None ->
   get_current_user decode token
     = Raised (HTTPException 401 "Could not validate credentials")) /\
  (forall e, get_current_user_optional decode (Some token) = Raised e <->
             decode token = decode_raised e).
Proof.
  unfold get_current_user, get_current_user_optional, get_user_from_token.
  pose proof (user_of_spec) as Hspec.
  destruct (decode token) as [p|msg|e0]; repeat split; intros;
    repeat match goal with
    | Hx : exists _, _ |- _ => destruct Hx as (? & ? & ?)
    | Hx : _ /\ _ |- _ => destruct Hx
    end; try discriminate; try congruence.
  - destruct (user_of p) as [u'|] eqn:Hu; [|discriminate].
    match goal with Hx : Returned _ = Returned _ |- _ => injection Hx as -> end.
    exists p. split; [reflexivity|]. now apply Hspec.
  - match goal with Hx : claims _ = claims _ |- _ => injection Hx as <- end.
    assert (user_of p = Some u) as -> by (apply Hspec; auto). reflexivity.
  - destruct (user_of p); congruence.
  - match goal with Hx : user_of p = Some u |- _ => now rewrite Hx end.
  - destruct (user_of p); congruence.
  - destruct (user_of p); congruence.
  - match goal with Hx : user_of p = None |- _ => now rewrite Hx end.
Qed.

(** X12. [verify_admin] lets a user through exactly when the profile row
    has the role [admin]; every other outcome with a database, an error of
    the database included, is the status 403 with the detail [Forbidden]:
    the detail of the role check is caught by the handler around it and
    never leaves. *)
Theorem verify_admin_outcomes (supabase : option profiles) (current_user : user) :
  (verify_admin supabase current_user = Returned current_user <->
   exists execute,
     supabase = Some execute /\
     execute (id current_user) = Returned (Some (Some "admin"))) /\
  (forall u, verify_admin supabase current_user = Returned u -> u = current_user) /\
  (forall e,
      verify_admin supabase current_user = Raised e ->
      (supabase = None /\ e = HTTPException 500 "Database not configured") \/
      (supabase <> None /\ e = HTTPException 403 "Forbidden")).
Proof.
  unfold verify_admin. destruct supabase as [execute|].
  2:{ split; [|split].
      - split; [discriminate | intros (? & ? & _); discriminate].
      - discriminate.
      - intros e [= <-]. now left. }
  destruct (execute (id current_user)) as [[[role|]|]|e0] eqn:Hrun.
  - destruct (String.eqb role "admin") eqn:Hrole.
    + apply String.eqb_eq in Hrole as ->. split; [|split].
      * split; [intros _; eauto | reflexivity].
      * now intros u [= <-].
      * discriminate.
    + split; [|split].
      * split; [discriminate|]. intros (execute' & [= <-] & Hadmin).
        rewrite Hrun in Hadmin. injection Hadmin as ->.
        now rewrite String.eqb_refl in Hrole.
      * discriminate.
      * intros e [= <-]. right. split; [discriminate | reflexivity].
  - split; [|split].
    + split; [discriminate|]. intros (execute' & [= <-] & Hadmin). congruence.
    + discriminate.
    + intros e [= <-]. right. split; [discriminate | reflexivity].
  - split; [|split].
    + split; [discriminate|]. intros (execute' & [= <-] & Hadmin). congruence.
    + discriminate.
    + intros e [= <-]. right. split; [discriminate | reflexivity].
  - split; [|split].
    + split; [discriminate|]. intros (execute' & [= <-] & Hadmin). congruence.
    + discriminate.
    + intros e [= <-]. right. split; [discriminate | reflexivity].
Qed.

End DepsFacts.

(** ** [chat.py]: deleting a message *)

Section RaisingFacts.
Import Raising.
Context {S : Type}.

Lemma raising_bind_returned {A B} (m : M S A) (k : A -> M S B) s a s1 :
  m s = (Returned a, s1) -> bind m k s = k a s1.
Proof. unfold bind. now intros ->. Qed.

Lemma raising_bind_raised {A B} (m : M S A) (k : A -> M S B) s e s1 :
  m s = (Raised e, s1) -> bind m k s = (Raised e, s1).
Proof. unfold bind. now intros ->. Qed.

Lemma raising_try_returned {A B} (m : M S A) (k : A -> M S B) (h : exn -> M S B)
    s a s1 :
  m s = (Returned a, s1) ->
  try_except (bind m k) h s = try_except (k a) h s1.
Proof. intros Hm. unfold try_except, bind. now rewrite Hm. Qed.

Lemma raising_try_raised {A B} (m : M S A) (k : A -> M S B) (h : exn -> M S B)
    s e s1 :
  m s = (Raised e, s1) ->
  try_except (bind m k) h s = h e s1.
Proof. intros Hm. unfold try_except, bind. now rewrite Hm. Qed.

End RaisingFacts.

Section MessagesFacts.
Import Raising Messages.
Local Open Scope raising_scope.

(** What one statement does to the tables: nothing when the database
    refuses it or hides its rows, [run] otherwise. *)
Lemma messages_execute_cases {A} (s : statement) (run : tables -> list A * tables)
    st d :
  supabase st = Some d ->
  exists st1,
    statements st1 = statements st ++ [s] /\
    ((exists e, execute s run st = (Raised e, st1) /\ supabase st1 = Some d) \/
     (execute s run st = (Returned [], st1) /\ supabase st1 = Some d) \/
     (execute s run st = (Returned (run d).1, st1) /\ supabase st1 = Some (run d).2)).
Proof.
  intros Hd. unfold execute. rewrite Hd.
  destruct (Chat.next_reply (db_script st)) as [[| |e] rest]; cbn.
  - destruct (run d) as [rows d'] eqn:Hrun.
    exists (Store (Some d') (statements st ++ [s]) rest). split; [reflexivity|].
    right. right. cbn. auto.
  - exists (Store (Some d) (statements st ++ [s]) rest). split; [reflexivity|].
    right. left. auto.
  - exists (Store (Some d) (statements st ++ [s]) rest). split; [reflexivity|].
    left. eauto.
Qed.

Lemma messages_execute_done {A} (s : statement) (run : tables -> list A * tables)
    st d n :
  supabase st = Some d ->
  obliging (S n) (db_script st) ->
  exists st1,
    execute s run st = (Returned (run d).1, st1) /\
    supabase st1 = Some (run d).2 /\
    obliging n (db_script st1) /\
    statements st1 = statements st ++ [s].
Proof.
  intros Hd Hob. unfold execute. rewrite Hd.
  destruct (obliging_next _ _ Hob) as (rest & -> & Hrest).
  destruct (run d) as [rows d']. eexists. split; [reflexivity|]. cbn. auto.
Qed.

Lemma delete_handler_raises (e : exn) (st : store) :
  exists e',
    match e with
    | HTTPException _ _ => raise e
    | _ => raise (HTTPException 500 (exn_str e))
    end st = (Raised e' : outcome string, st) /\
    (forall status detail, e = HTTPException status detail -> e' = e).
Proof. destruct e; eexists; (split; [reflexivity|]); congruence. Qed.

(** X13. [delete_message] deletes nothing for a user who does not own
    the conversation of the message: whatever the database replies, the
    request ends in an exception, no [delete] is executed and both tables
    are left as they were. *)
Theorem delete_message_guarded (message_id current_user : string)
    (st : store) (d : tables) :
  supabase st = Some d ->
  (forall m,
      In m (messages d) -> msg_id m = message_id ->
      List.filter (Chat.owned_by (msg_conversation_id m) current_user)
                  (conversations d) = []) ->
  exists e st',
    delete_message message_id current_user st = (Raised e, st') /\
    supabase st' = Some d /\
    ~ In (delete_from_messages message_id) (drop (length (statements st)) (statements st')).
Proof.
  intros Hd Hforeign. unfold delete_message.
  rewrite (raising_bind_returned _ _ st true st)
    by (unfold gets; now rewrite Hd, (bool_decide_eq_true_2 _ (mk_is_Some _ _ eq_refl))).
  cbn [negb].
  set (h := fun e : exn => match e with
                           | HTTPException _ _ => raise e
                           | _ => raise (HTTPException 500 (exn_str e))
                           end : M store string).
  assert (forall (e : exn) (st1 : store) (added : list statement),
            supabase st1 = Some d ->
            statements st1 = statements st ++ added ->
            ~ In (delete_from_messages message_id) added ->
            exists e' st',
              h e st1 = (Raised e', st') /\ supabase st' = Some d /\
              ~ In (delete_from_messages message_id)
                   (drop (length (statements st)) (statements st'))) as Hout.
  { intros e st1 added Hd1 Hs1 Hadded.
    destruct (delete_handler_raises e st1) as (e' & He' & _).
    exists e', st1. split; [exact He'|]. split; [exact Hd1|].
    now rewrite Hs1, drop_app_length. }
  destruct (messages_execute_cases (select_message message_id)
              (fun d => (List.filter (has_id message_id) (messages d), d)) st d Hd)
    as (st1 & Hs1 & [(e & Hrun & Hd1)|[(Hrun & Hd1)|(Hrun & Hd1)]]); cbn [fst snd] in *.
  - rewrite (raising_try_raised _ _ _ _ _ _ Hrun).
    apply (Hout e st1 [select_message message_id]); auto.
    intros [Hin|[]]. discriminate.
  - rewrite (raising_try_returned _ _ _ _ _ _ Hrun). unfold try_except, raise.
    apply (Hout _ st1 [select_message message_id]); auto.
    intros [Hin|[]]. discriminate.
  - rewrite (raising_try_returned _ _ _ _ _ _ Hrun).
    destruct (List.filter (has_id message_id) (messages d)) as [|found others] eqn:Hfound.
    { unfold try_except, raise.
      apply (Hout _ st1 [select_message message_id]); auto.
      intros [Hin|[]]. discriminate. }
    assert (In found (messages d) /\ msg_id found = message_id) as [Hin Hid].
    { assert (In found (List.filter (has_id message_id) (messages d))) as Hmem
        by (rewrite Hfound; now left).
      apply filter_In in Hmem as [Hmem Hhas]. split; [exact Hmem|].
      now apply String.eqb_eq in Hhas. }
    specialize (Hforeign found Hin Hid).
    destruct (messages_execute_cases
                (select_conversation (msg_conversation_id found) current_user)
                (fun d => (List.filter
                             (Chat.owned_by (msg_conversation_id found) current_user)
                             (conversations d), d)) st1 d Hd1)
      as (st2 & Hs2 & Hcases); cbn [fst snd] in *.
    assert (statements st2 = statements st ++
              [select_message message_id;
               select_conversation (msg_conversation_id found) current_user]) as Hs2'
      by (rewrite Hs2, Hs1, <- app_assoc; reflexivity).
    assert (~ In (delete_from_messages message_id)
              [select_message message_id;
               select_conversation (msg_conversation_id found) current_user]) as Hnodel
      by (intros [Hx|[Hx|[]]]; discriminate).
    destruct Hcases as [(e & Hrun2 & Hd2)|[(Hrun2 & Hd2)|(Hrun2 & Hd2)]].
    + rewrite (raising_try_raised _ _ _ _ _ _ Hrun2). eapply Hout; eauto.
    + rewrite (raising_try_returned _ _ _ _ _ _ Hrun2). unfold try_except, raise.
      eapply Hout; eauto.
    + rewrite (raising_try_returned _ _ _ _ _ _ Hrun2), Hforeign.
      unfold try_except, raise. eapply Hout; eauto.
Qed.

(** X14. For the owner of its conversation, when the database answers,
    [delete_message] removes the rows of that identifier and no other:
    the messages left are the others, in their order, and the
    conversations are untouched. *)
Theorem delete_message_deletes (message_id current_user : string)
    (st : store) (d : tables) (found : stored_message) (others : list stored_message) :
  supabase st = Some d ->
  obliging 3 (db_script st) ->
  List.filter (has_id message_id) (messages d) = found :: others ->
  List.filter (Chat.owned_by (msg_conversation_id found) current_user)
              (conversations d) <> [] ->
  exists st',
    delete_message message_id current_user st
      = (Returned "Message deleted successfully", st') /\
    supabase st'
      = Some {| conversations := conversations d;
                messages := List.filter (fun m => negb (has_id message_id m))
                                        (messages d) |} /\
    statements st'
      = statements st ++
        [ select_message message_id;
          select_conversation (msg_conversation_id found) current_user;
          delete_from_messages message_id ] /\
    forall m, In m (messages d) -> msg_id m <> message_id ->
              exists d', supabase st' = Some d' /\ In m (messages d').
Proof.
  intros Hd Hob Hfound Howned. unfold delete_message.
  rewrite (raising_bind_returned _ _ st true st)
    by (unfold gets; now rewrite Hd, (bool_decide_eq_true_2 _ (mk_is_Some _ _ eq_refl))).
  cbn [negb].
  destruct (messages_execute_done (select_message message_id)
              (fun d => (List.filter (has_id message_id) (messages d), d))
              st d 2 Hd Hob) as (st1 & Hrun1 & Hd1 & Hob1 & Hs1); cbn [fst snd] in *.
  rewrite (raising_try_returned _ _ _ _ _ _ Hrun1), Hfound.
  destruct (messages_execute_done
              (select_conversation (msg_conversation_id found) current_user)
              (fun d => (List.filter
                           (Chat.owned_by (msg_conversation_id found) current_user)
                           (conversations d), d))
              st1 d 1 Hd1 Hob1) as (st2 & Hrun2 & Hd2 & Hob2 & Hs2); cbn [fst snd] in *.
  rewrite (raising_try_returned _ _ _ _ _ _ Hrun2).
  destruct (List.filter (Chat.owned_by (msg_conversation_id found) current_user)
                        (conversations d)) as [|row rows]; [contradiction|].
  destruct (messages_execute_done (delete_from_messages message_id)
              (fun d =>
                 (List.filter (has_id message_id) (messages d),
                  {| conversations := conversations d;
                     messages := List.filter (fun m => negb (has_id message_id m))
                                             (messages d) |}))
              st2 d 0 Hd2 Hob2) as (st3 & Hrun3 & Hd3 & _ & Hs3); cbn [fst snd] in *.
  rewrite (raising_try_returned _ _ _ _ _ _ Hrun3).
  exists st3. split; [reflexivity|]. split; [exact Hd3|]. split.
  - rewrite Hs3, Hs2, Hs1, <- !app_assoc. reflexivity.
  - intros m Hin Hother. eexists. split; [exact Hd3|]. cbn.
    apply filter_In. split; [exact Hin|].
    unfold has_id. apply negb_true_iff, String.eqb_neq. exact Hother.
Qed.

End MessagesFacts.

(** ** [resources.py]: the cached index *)

Section ResourcesCacheFacts.
Import Raising ResourcesCache.
Local Open Scope raising_scope.
Context {client index : Type}
  (PINECONE_API_KEY PINECONE_INDEX_NAME : string)
  (Pinecone : nat -> string -> outcome client)
  (Index : nat -> client -> string -> outcome index).

Abbreviation get_index' :=
  (get_index PINECONE_API_KEY PINECONE_INDEX_NAME Pinecone Index).

(** What [get_index] returns is what it leaves in the cache, and it makes
    at most the two calls, in their order. *)
Lemma get_index_leaves (index_name : option string) (self self1 : Resources)
    (r : option index) :
  get_index' index_name self = (Returned r, self1) ->
  _pinecone_index self1 = r /\
  exists made,
    calls self1 = calls self ++ made /\
    (made = [] \/
     (exists name, made = [Index_call name]) \/
     (exists name, made = [Pinecone_call PINECONE_API_KEY; Index_call name])).
Proof.
  unfold get_index, pc, bind, gets, modify, ret, raise, record.
  destruct self as [cached_client cached_index made0]. cbn.
  destruct cached_index as [i|]; cbn.
  { intros [= <- <-]. split; [reflexivity|]. exists []. rewrite app_nil_r. auto. }
  destruct cached_client as [c|]; cbn.
  - destruct (Index _ c _) as [i|e]; cbn; [|discriminate].
    intros [= <- <-]. split; [reflexivity|]. eexists. split; [reflexivity|]. eauto.
  - destruct (truthy PINECONE_API_KEY); cbn.
    + destruct (Pinecone _ _) as [c|e]; cbn; [|discriminate].
      destruct (Index _ c _) as [i|e]; cbn; [|discriminate].
      intros [= <- <-]. split; [reflexivity|]. eexists.
      split; [now rewrite <- app_assoc|]. eauto.
    + intros [= <- <-]. split; [reflexivity|]. exists []. rewrite app_nil_r. auto.
Qed.

(** X15. The index is connected once: after a call of [get_index] that
    returned an index, every later call returns that same index, whatever
    index name it is given, makes no call to Pinecone and changes nothing.
    A call makes at most two calls to Pinecone: the client, then the
    index.  Without an API key and with nothing cached, [get_index]
    returns [None], makes no call and caches nothing, so the next call
    tries again. *)
Theorem get_index_cached (name1 name2 : option string) (self self1 : Resources)
    (found : index) :
  get_index' name1 self = (Returned (Some found), self1) ->
  get_index' name2 self1 = (Returned (Some found), self1) /\
  (exists made,
      calls self1 = calls self ++ made /\ length made <= 2) /\
  (forall blank : Resources,
      truthy PINECONE_API_KEY = false ->
      _pinecone_client blank = None ->
      _pinecone_index blank = None ->
      get_index' name2 blank = (Returned None, blank)).
Proof.
  intros Hfirst. destruct (get_index_leaves _ _ _ _ Hfirst) as (Hcached & made & Hcalls & Hmade).
  split; [|split].
  - unfold get_index, bind, gets, ret. now rewrite Hcached.
  - exists made. split; [exact Hcalls|].
    destruct Hmade as [-> | [[name ->] | [name ->]]]; cbn; lia.
  - intros blank Hkey Hclient Hindex.
    unfold get_index, pc, bind, gets, ret. rewrite Hindex, Hclient, Hkey. cbn.
    now rewrite Hindex.
Qed.

End ResourcesCacheFacts.

(** ** [chat.py]: the whole connection of [/ws/chat] *)

Section SessionFacts.
Import Raising Chat Session.
Local Open Scope raising_scope.
Context (agent_executor : executor) (decode : string -> Deps.decoded).

Lemma lift_run {A} (m : Chat.M A) (s : server) :
  lift m s = ((m (world s)).1, Server (m (world s)).2 (active_connections s)).
Proof. unfold lift. now destruct (m (world s)). Qed.

Lemma converses_refl s : converses s s [].
Proof. unfold converses. cbn. rewrite app_nil_r. split; [|split]; [reflexivity|constructor|lia]. Qed.

Lemma converses_trans s1 s2 s3 t1 t2 :
  converses s1 s2 t1 -> converses s2 s3 t2 -> converses s1 s3 (t1 ++ t2).
Proof.
  intros (Ho1 & Hf1 & Hc1) (Ho2 & Hf2 & Hc2). unfold converses.
  rewrite Ho2, Ho1, concat_app, <- app_assoc, length_app.
  split; [reflexivity|]. split; [now apply Forall_app | lia].
Qed.

Lemma same_converses s s' :
  outbox (world s') = outbox (world s) ->
  agent_calls (world s') = agent_calls (world s) ->
  converses s s' [].
Proof.
  intros Ho Hc. unfold converses. cbn. rewrite Ho, Hc, app_nil_r.
  split; [|split]; [reflexivity|constructor|lia].
Qed.

Lemma disconnect_world websocket s : world (disconnect websocket s).2 = world s.
Proof. unfold disconnect. now destruct (remove _ _). Qed.

Lemma close_quiet s :
  outbox (world (close s).2) = outbox (world s) /\
  untouched (world s) (world (close s).2).
Proof.
  unfold close. rewrite lift_run. cbn [snd world].
  destruct (next_fault (link_script (world s))) as [[e|] rest]; cbn;
    unfold untouched; cbn; auto.
Qed.

Lemma send_personal_message_untouched f w :
  outbox (send_personal_message f w).2 = outbox w ++ [f] /\
  untouched w (send_personal_message f w).2.
Proof.
  unfold send_personal_message.
  destruct (next_fault (link_script w)) as [[e|] rest]; [destruct e|];
    cbn; unfold untouched; cbn; auto.
Qed.

(** The error frame is handed to the socket and nothing else happens. *)
Lemma turn_away_frame websocket content s :
  outbox (world (turn_away websocket content s).2)
    = outbox (world s) ++ [ev_error content] /\
  untouched (world s) (world (turn_away websocket content s).2).
Proof.
  unfold turn_away, Raising.bind. rewrite lift_run.
  destruct (send_personal_message_untouched (ev_error content) (world s))
    as (Hout & Hsame).
  destruct (send_personal_message (ev_error content) (world s)) as [[[]|e] w1];
    cbn [fst snd world] in *; [|auto].
  set (s1 := Server w1 (active_connections s)).
  pose proof (disconnect_world websocket s1) as Hd.
  destruct (disconnect websocket s1) as [[[]|e] s2]; cbn [snd] in *;
    [|rewrite Hd; auto].
  destruct (close_quiet s2) as (Hc & Hs). rewrite Hd in Hc, Hs. subst s1.
  cbn [world] in *.
  rewrite Hc. split; [exact Hout|].
  destruct Hsame as (? & ? & ? & ?), Hs as (? & ? & ? & ?).
  unfold untouched. repeat split; congruence.
Qed.

Lemma serve_converses websocket user_id (incoming : list arrival) :
  forall conversation_id s,
  exists turns,
    converses s (serve agent_executor websocket user_id conversation_id incoming s).2
              turns /\
    length turns <= length incoming.
Proof.
  induction incoming as [|[data|] incoming IH]; intros conversation_id s; cbn [serve].
  - exists []. split; [apply converses_refl | cbn; lia].
  - unfold Raising.bind. rewrite lift_run.
    destruct (turn_anatomy agent_executor user_id conversation_id data (world s))
      as (history & w1 & id & w2 & _ & _ & sent & delivered & events
          & (Hout & _ & _) & Hframes & Hrun).
    set (w' := (turn agent_executor user_id conversation_id data (world s)).2) in *.
    set (s1 := Server w' (active_connections s)).
    assert (converses s s1 [sent]) as Hturn.
    { unfold converses. cbn. rewrite app_nil_r. split; [exact Hout|].
      split; [repeat constructor; eauto|].
      destruct Hrun as [[-> _]|[-> _]]; [lia|]. rewrite length_app. cbn. lia. }
    destruct ((turn agent_executor user_id conversation_id data (world s)).1)
      as [[next|]|e]; cbn [snd].
    + destruct (IH next s1) as (turns & Hrest & Hlen).
      exists ([sent] ++ turns). split; [exact (converses_trans _ _ _ _ _ Hturn Hrest)|].
      cbn. lia.
    + exists ([sent] ++ []). split; [|cbn; lia].
      apply (converses_trans _ s1); [exact Hturn|].
      apply same_converses; now rewrite disconnect_world.
    + exists [sent]. split; [exact Hturn | cbn; lia].
  - exists []. split; [apply converses_refl | cbn; lia].
Qed.

Lemma handler_world websocket (e : exn) s :
  world (match e with
         | WebSocketDisconnect => disconnect websocket
         | _ => disconnect websocket
         end s).2 = world s.
Proof. destruct e; apply disconnect_world. Qed.

Lemma websocket_endpoint_run (websocket : WebSocket)
    (conversation_id token : option string) (s : server) :
  exists r s',
    websocket_endpoint agent_executor decode websocket conversation_id token s
      = (r, s') /\
    ((exists content,
         (content = "Unauthorized" \/ content = "Access denied to conversation") /\
         outbox (world s') = outbox (world s) ++ [ev_error content] /\
         agent_calls (world s') = agent_calls (world s)) \/
     (exists turns,
         converses s s' turns /\
         length turns <= length (incoming websocket))).
Proof.
  unfold websocket_endpoint.
  destruct (accept websocket) as [e|].
  { eexists _, s. split; [reflexivity|]. right. exists [].
    split; [apply converses_refl | cbn; lia]. }
  set (s0 := Server (world s) (active_connections s ++ [socket websocket])).
  match goal with
  | |- context [Raising.bind ?m ?k s] =>
      rewrite (raising_bind_returned m k s true s0 eq_refl)
  end.
  cbn [negb].
  destruct (match token with
            | Some t => if truthy t then Deps.get_user_from_token decode t else None
            | None => None
            end) as [user|].
  2:{ destruct (turn_away_frame (socket websocket) "Unauthorized" s0)
        as (Hout & _ & _ & Hcalls & _).
      destruct (turn_away (socket websocket) "Unauthorized" s0) as [r s2].
      exists r, s2. split; [reflexivity|]. left. exists "Unauthorized".
      split; [now left|]. split; [exact Hout | exact Hcalls]. }
  unfold Raising.try_except.
  destruct (given conversation_id) eqn:Hgiven.
  - unfold Raising.bind at 1 2. rewrite lift_run.
    pose proof (query_conversation_db_only
                  (default EmptyString conversation_id) (Deps.id user) (world s0))
      as Hdb.
    set (w1 := (query_conversation (default EmptyString conversation_id)
                  (Deps.id user) (world s0)).2) in *.
    set (s1 := Server w1 (active_connections s0)).
    assert (outbox (world s1) = outbox (world s) /\
            agent_calls (world s1) = agent_calls (world s)) as [Ho1 Hc1].
    { cbn. split; [exact (db_only_outbox _ _ Hdb) | exact (db_only_agent_calls _ _ Hdb)]. }
    destruct ((query_conversation (default EmptyString conversation_id)
                 (Deps.id user) (world s0)).1) as [[|row rows]|e]; cbn [fst snd].
    + destruct (turn_away_frame (socket websocket) "Access denied to conversation" s1)
        as (Hout & _ & _ & Hcalls & _).
      unfold Raising.bind at 1.
      destruct (turn_away (socket websocket) "Access denied to conversation" s1)
        as [[[]|e] s2]; cbn [snd] in *.
      * eexists _, s2. split; [reflexivity|]. left.
        exists "Access denied to conversation". split; [now right|].
        rewrite Hout, Hcalls, Ho1, Hc1. auto.
      * pose proof (handler_world (socket websocket) e s2) as Hh.
        destruct (match e with
                  | WebSocketDisconnect => disconnect (socket websocket)
                  | _ => disconnect (socket websocket)
                  end s2) as [r s3]; cbn [snd] in Hh.
        exists r, s3. split; [reflexivity|]. left.
        exists "Access denied to conversation". split; [now right|].
        rewrite Hh, Hout, Hcalls, Ho1, Hc1. auto.
    + unfold Raising.ret. cbn beta iota.
      destruct (serve_converses (socket websocket) (Deps.id user)
                  (incoming websocket) conversation_id s1) as (turns & Hserve & Hlen).
      assert (converses s s1 []) as Hpre by (now apply same_converses).
      destruct (serve agent_executor (socket websocket) (Deps.id user)
                  conversation_id (incoming websocket) s1) as [[[]|e] s2];
        cbn [snd] in *.
      * eexists _, s2. split; [reflexivity|]. right. exists turns.
        split; [|exact Hlen]. exact (converses_trans s s1 _ [] turns Hpre Hserve).
      * pose proof (handler_world (socket websocket) e s2) as Hh.
        destruct (match e with
                  | WebSocketDisconnect => disconnect (socket websocket)
                  | _ => disconnect (socket websocket)
                  end s2) as [r s3]; cbn [snd] in Hh.
        exists r, s3. split; [reflexivity|]. right. exists turns.
        split; [|exact Hlen].
        apply (converses_trans s s1 _ [] turns Hpre).
        rewrite <- (app_nil_r turns). apply (converses_trans _ s2); [exact Hserve|].
        apply same_converses; now rewrite Hh.
    + pose proof (handler_world (socket websocket) e s1) as Hh.
      destruct (match e with
                | WebSocketDisconnect => disconnect (socket websocket)
                | _ => disconnect (socket websocket)
                end s1) as [r s3]; cbn [snd] in Hh.
      exists r, s3. split; [reflexivity|]. right. exists [].
      split; [|cbn; lia]. apply same_converses; rewrite Hh; assumption.
  - unfold Raising.bind at 1, Raising.ret.
    destruct (serve_converses (socket websocket) (Deps.id user)
                (incoming websocket) conversation_id s0) as (turns & Hserve & Hlen).
    assert (converses s s0 []) as Hpre by (apply same_converses; reflexivity).
    destruct (serve agent_executor (socket websocket) (Deps.id user)
                conversation_id (incoming websocket) s0) as [[[]|e] s2];
      cbn [snd] in *.
    + eexists _, s2. split; [reflexivity|]. right. exists turns.
      split; [|exact Hlen]. exact (converses_trans s s0 _ [] turns Hpre Hserve).
    + pose proof (handler_world (socket websocket) e s2) as Hh.
      destruct (match e with
                | WebSocketDisconnect => disconnect (socket websocket)
                | _ => disconnect (socket websocket)
                end s2) as [r s3]; cbn [snd] in Hh.
      exists r, s3. split; [reflexivity|]. right. exists turns.
      split; [|exact Hlen].
      apply (converses_trans s s0 _ [] turns Hpre).
      rewrite <- (app_nil_r turns). apply (converses_trans _ s2); [exact Hserve|].
      apply same_converses; now rewrite Hh.
Qed.

(** X16. The frames of a connection.  Whatever the client, the database,
    the agent and the link do, what [websocket_endpoint] hands to the
    socket is either one [error] frame that turns the client away
    ([Unauthorized], or [Access denied to conversation]), with no run of
    the agent, or the frames of its turns, group after group and never
    interleaved, each group in the order of a turn, with at most one run
    of the agent for each and at most one group for each text received. *)
Theorem websocket_endpoint_frames (websocket : WebSocket)
    (conversation_id token : option string) (s : server) :
  let s' := (websocket_endpoint agent_executor decode websocket conversation_id
               token s).2 in
  (exists content,
      (content = "Unauthorized" \/ content = "Access denied to conversation") /\
      outbox (world s') = outbox (world s) ++ [ev_error content] /\
      agent_calls (world s') = agent_calls (world s)) \/
  (exists turns,
      converses s s' turns /\
      length turns <= length (incoming websocket)).
Proof.
  cbn zeta.
  destruct (websocket_endpoint_run websocket conversation_id token s)
    as (r & s' & -> & Hcases).
  exact Hcases.
Qed.

Lemma untouched_refl w : untouched w w.
Proof. unfold untouched. auto. Qed.

Lemma untouched_trans w1 w2 w3 : untouched w1 w2 -> untouched w2 w3 -> untouched w1 w3.
Proof.
  intros (? & ? & ? & ?) (? & ? & ? & ?). unfold untouched. repeat split; congruence.
Qed.

(** X17. Without a token that decodes to a user the connection is turned
    away before anything else happens: no statement reaches the database,
    no run of the agent is started, its memory is left alone, nothing that
    arrives is read, and all the socket is handed, once it is accepted, is
    the [Unauthorized] error frame. *)
Theorem websocket_endpoint_unauthorized (websocket : WebSocket)
    (conversation_id token : option string) (s : server) :
  (forall t, token = Some t -> truthy t = true ->
             Deps.get_user_from_token decode t = None) ->
  let s' := (websocket_endpoint agent_executor decode websocket conversation_id
               token s).2 in
  untouched (world s) (world s') /\
  outbox (world s')
    = outbox (world s) ++
      match accept websocket with
      | None => [ev_error "Unauthorized"]
      | Some _ => []
      end.
Proof.
  intros Hnone. cbn zeta.
  assert (exists r s',
            websocket_endpoint agent_executor decode websocket conversation_id token s
              = (r, s') /\
            untouched (world s) (world s') /\
            outbox (world s')
              = outbox (world s) ++
                match accept websocket with
                | None => [ev_error "Unauthorized"]
                | Some _ => []
                end) as (r & s' & -> & Hsame & Hout); [|split; assumption].
  unfold websocket_endpoint.
  destruct (accept websocket) as [e|].
  { eexists _, s. split; [reflexivity|]. rewrite app_nil_r.
    split; [apply untouched_refl | reflexivity]. }
  set (s0 := Server (world s) (active_connections s ++ [socket websocket])).
  match goal with
  | |- context [Raising.bind ?m ?k s] =>
      rewrite (raising_bind_returned m k s true s0 eq_refl)
  end.
  cbn [negb].
  assert (match token with
          | Some t => if truthy t then Deps.get_user_from_token decode t else None
          | None => None
          end = None) as ->.
  { destruct token as [t|]; [|reflexivity].
    destruct (truthy t) eqn:Ht; [|reflexivity]. now apply Hnone. }
  destruct (turn_away_frame (socket websocket) "Unauthorized" s0) as (Hout & Hsame).
  destruct (turn_away (socket websocket) "Unauthorized" s0) as [r s2].
  exists r, s2. split; [reflexivity|]. split; [exact Hsame | exact Hout].
Qed.

(** What the ownership check finds for a conversation the user does not
    own: no row, or the exception of a database that refuses. *)
Lemma query_conversation_foreign id user_id w :
  match supabase w with
  | Some d => List.filter (owned_by id user_id) (conversations d) = []
  | None => True
  end ->
  supabase (query_conversation id user_id w).2 = supabase w /\
  (((query_conversation id user_id w).1 = Returned [] /\
    is_Some (supabase w) /\
    (forall e, (next_reply (db_script w)).1 <> Refused e)) \/
   (exists e, (query_conversation id user_id w).1 = Raised e /\
              (supabase w = None \/ (next_reply (db_script w)).1 = Refused e))).
Proof.
  intros Hforeign. unfold query_conversation, execute.
  destruct (supabase w) as [d|] eqn:Hd.
  2:{ cbn. split; [exact Hd|]. right. eauto. }
  destruct (next_reply (db_script w)) as [[| |e] rest]; cbn; rewrite ?Hforeign.
  - split; [reflexivity|]. left. split; [reflexivity|]. split; [eauto | discriminate].
  - split; [exact Hd|]. left. split; [reflexivity|]. split; [eauto | discriminate].
  - split; [exact Hd|]. right. eauto.
Qed.

(** X18. A user who asks for a conversation of somebody else is turned
    away by the socket endpoint, unlike by [POST /chat]: nothing that
    arrives is read, no run of the agent is started, its memory and both
    tables are left as they were, and the socket is handed the
    [Access denied to conversation] error frame and nothing else.  When
    the database is missing or refuses the check, the connection ends
    the same way without any frame. *)
Theorem websocket_endpoint_foreign_conversation (websocket : WebSocket)
    (id t : string) (user : Deps.user) (s : server) :
  accept websocket = None ->
  truthy t = true ->
  Deps.get_user_from_token decode t = Some user ->
  truthy id = true ->
  match supabase (world s) with
  | Some d => List.filter (owned_by id (Deps.id user)) (conversations d) = []
  | None => True
  end ->
  let s' := (websocket_endpoint agent_executor decode websocket (Some id)
               (Some t) s).2 in
  supabase (world s') = supabase (world s) /\
  agent_calls (world s') = agent_calls (world s) /\
  memory (world s') = memory (world s) /\
  outbox (world s')
    = outbox (world s) ++
      match supabase (world s), (next_reply (db_script (world s))).1 with
      | None, _ | _, Refused _ => []
      | _, _ => [ev_error "Access denied to conversation"]
      end.
Proof.
  intros Haccept Ht Huser Hid Hforeign. cbn zeta.
  assert (exists r s',
            websocket_endpoint agent_executor decode websocket (Some id) (Some t) s
              = (r, s') /\
            supabase (world s') = supabase (world s) /\
            agent_calls (world s') = agent_calls (world s) /\
            memory (world s') = memory (world s) /\
            outbox (world s')
              = outbox (world s) ++
                match supabase (world s), (next_reply (db_script (world s))).1 with
                | None, _ | _, Refused _ => []
                | _, _ => [ev_error "Access denied to conversation"]
                end) as (r & s' & -> & H1 & H2 & H3 & H4); [|auto].
  unfold websocket_endpoint. rewrite Haccept.
  set (s0 := Server (world s) (active_connections s ++ [socket websocket])).
  match goal with
  | |- context [Raising.bind ?m ?k s] =>
      rewrite (raising_bind_returned m k s true s0 eq_refl)
  end.
  cbn [negb]. rewrite Ht, Huser. cbn [given]. rewrite Hid.
  change (default EmptyString (Some id)) with id.
  unfold Raising.try_except, Raising.bind at 1 2. rewrite lift_run.
  pose proof (query_conversation_db_only id (Deps.id user) (world s0)) as Hdb.
  destruct (query_conversation_foreign id (Deps.id user) (world s0) Hforeign)
    as [Htables Hcases].
  set (w1 := (query_conversation id (Deps.id user) (world s0)).2) in *.
  set (s1 := Server w1 (active_connections s0)).
  change (world s0) with (world s) in *.
  destruct Hcases as [(-> & Hsome & Hreply)|(e & -> & Hwhy)]; cbn [fst snd].
  - destruct (turn_away_frame (socket websocket) "Access denied to conversation" s1)
      as (Hout & Hs & _ & Hc & Hm).
    assert (match supabase (world s), (next_reply (db_script (world s))).1 with
            | None, _ | _, Refused _ => []
            | _, _ => [ev_error "Access denied to conversation"]
            end = [ev_error "Access denied to conversation"]) as ->.
    { destruct Hsome as [d ->].
      destruct ((next_reply (db_script (world s))).1) as [| |e] eqn:Hr;
        [reflexivity..|]. now destruct (Hreply e). }
    change (world s1) with w1 in *. unfold Raising.bind at 1.
    destruct (turn_away (socket websocket) "Access denied to conversation" s1)
      as [[[]|e] s2]; cbn [snd] in *.
    + eexists _, s2. split; [reflexivity|].
      rewrite Hs, Hc, Hm, Hout, Htables, (db_only_agent_calls _ _ Hdb),
        (db_only_memory _ _ Hdb), (db_only_outbox _ _ Hdb). auto.
    + pose proof (handler_world (socket websocket) e s2) as Hh.
      destruct (match e with
                | WebSocketDisconnect => disconnect (socket websocket)
                | _ => disconnect (socket websocket)
                end s2) as [r s3]; cbn [snd] in Hh.
      exists r, s3. split; [reflexivity|].
      rewrite Hh, Hs, Hc, Hm, Hout, Htables, (db_only_agent_calls _ _ Hdb),
        (db_only_memory _ _ Hdb), (db_only_outbox _ _ Hdb). auto.
  - assert (match supabase (world s), (next_reply (db_script (world s))).1 with
            | None, _ | _, Refused _ => []
            | _, _ => [ev_error "Access denied to conversation"]
            end = []) as ->.
    { destruct Hwhy as [-> | ->]; [reflexivity | now destruct (supabase (world s))]. }
    pose proof (handler_world (socket websocket) e s1) as Hh.
    destruct (match e with
              | WebSocketDisconnect => disconnect (socket websocket)
              | _ => disconnect (socket websocket)
              end s1) as [r s3]; cbn [snd] in Hh.
    exists r, s3. split; [reflexivity|]. rewrite Hh, app_nil_r.
    change (world s1) with w1.
    rewrite Htables, (db_only_agent_calls _ _ Hdb), (db_only_memory _ _ Hdb),
      (db_only_outbox _ _ Hdb). auto.
Qed.

End SessionFacts.

(** ** [chat.py]: uploads that are refused or half done *)

Section UploadGuards.
Import Chat.
Local Open Scope chat_scope.
Context `{Text} (format_exc : exn -> string).

Lemma query_conversation_owned id user_id w d n :
  supabase w = Some d ->
  obliging (S n) (db_script w) ->
  List.filter (owned_by id user_id) (conversations d) <> [] ->
  exists row rows w1,
    query_conversation id user_id w = (Returned (row :: rows), w1) /\
    supabase w1 = Some d /\
    obliging n (db_script w1) /\
    db_only w w1 /\
    statements w1 = statements w ++ [select_conversation id user_id].
Proof.
  intros Hd Hob Howned.
  pose proof (query_conversation_db_only id user_id w) as Hdb.
  unfold query_conversation, execute in *. rewrite Hd in *.
  destruct (obliging_next _ _ Hob) as (rest & Hnext & Hrest). rewrite Hnext in *.
  destruct (List.filter (owned_by id user_id) (conversations d)) as [|row rows];
    [contradiction|].
  cbn in *. eexists row, rows, _. split; [reflexivity|]. cbn. auto.
Qed.

Lemma query_conversation_missing id user_id w d :
  supabase w = Some d ->
  List.filter (owned_by id user_id) (conversations d) = [] ->
  (forall e, (next_reply (db_script w)).1 <> Refused e) ->
  exists w1,
    query_conversation id user_id w = (Returned [], w1) /\
    supabase w1 = Some d /\
    db_only w w1 /\
    statements w1 = statements w ++ [select_conversation id user_id].
Proof.
  intros Hd Hforeign Hreply.
  pose proof (query_conversation_db_only id user_id w) as Hdb.
  unfold query_conversation, execute in *. rewrite Hd in *.
  destruct (next_reply (db_script w)) as [[| |e] rest] eqn:Hnext;
    [| |now destruct (Hreply e)].
  - rewrite Hforeign in *. cbn in *. eexists. split; [reflexivity|]. cbn. auto.
  - cbn in *. eexists. split; [reflexivity|]. cbn. auto.
Qed.

Lemma read_pdf_unreadable file detail w :
  unreadable file detail ->
  read_pdf file w = (Raised (HTTPException 400 ("Lỗi đọc PDF: " +:+ detail)), w).
Proof.
  intros [e He|pages_read Hp Hblank]; unfold read_pdf, try_except.
  - now rewrite He.
  - now rewrite Hp, Hblank.
Qed.

Lemma read_pdf_readable file text w :
  readable file text -> read_pdf file w = (Returned text, w).
Proof.
  intros (pages_read & Hp & -> & Htext). unfold read_pdf, try_except.
  now rewrite Hp, Htext.
Qed.

(** [update_agent_memory] talks to the checkpointer only. *)
Lemma update_agent_memory_elsewhere conversation_id file text w :
  let w' := (update_agent_memory conversation_id file text w).2 in
  supabase w' = supabase w /\
  db_script w' = db_script w /\
  statements w' = statements w /\
  agent_calls w' = agent_calls w.
Proof.
  cbn zeta.
  unfold update_agent_memory, try_except, aget_state, aupdate_pdf_context,
    checkpointer_call, bind, gets, modify, ret.
  destruct (memory_script w) as [|[e1|] [|[e2|] rest]]; cbn; auto.
Qed.

(** X20. An upload by a user who does not own the conversation is
    refused with the status 403 before the file is read: the context of
    the agent, its runs and both tables are left as they were, and the
    ownership check is the only statement executed. *)
Theorem upload_pdf_not_owner (conversation_id : string) (file : UploadFile)
    (silent : bool) (current_user : string) (w : world) (d : database) :
  supabase w = Some d ->
  List.filter (owned_by conversation_id current_user) (conversations d) = [] ->
  (forall e, (next_reply (db_script w)).1 <> Refused e) ->
  exists w',
    upload_pdf format_exc conversation_id file silent current_user w
      = (Raised (HTTPException 403 "Không có quyền truy cập đoạn chat này"), w') /\
    supabase w' = Some d /\
    memory w' = memory w /\
    agent_calls w' = agent_calls w /\
    statements w' = statements w ++ [select_conversation conversation_id current_user].
Proof.
  intros Hd Hforeign Hreply.
  destruct (query_conversation_missing conversation_id current_user w d
              Hd Hforeign Hreply) as (w1 & Hcheck & Hd1 & Hdb & Hs1).
  unfold upload_pdf, try_except at 1.
  rewrite (bind_returned _ _ _ _ _ Hcheck). cbv beta iota.
  match goal with
  | |- context [bind (raise ?e) ?k w1] =>
      rewrite (bind_raised (raise e) k w1 e w1 eq_refl)
  end.
  exists w1. split; [reflexivity|]. split; [exact Hd1|].
  split; [exact (db_only_memory _ _ Hdb)|].
  split; [exact (db_only_agent_calls _ _ Hdb) | exact Hs1].
Qed.

(** X21. An upload of a file that cannot be read, or that has no text,
    by the owner of the conversation is refused with the status 400 and
    the text of the problem: nothing is added to the context of the agent
    and no message is stored. *)
Theorem upload_pdf_unreadable (conversation_id : string) (file : UploadFile)
    (silent : bool) (current_user : string) (w : world) (d : database)
    (detail : string) :
  supabase w = Some d ->
  obliging 1 (db_script w) ->
  List.filter (owned_by conversation_id current_user) (conversations d) <> [] ->
  unreadable file detail ->
  exists w',
    upload_pdf format_exc conversation_id file silent current_user w
      = (Raised (HTTPException 400 ("Lỗi đọc PDF: " +:+ detail)), w') /\
    supabase w' = Some d /\
    memory w' = memory w /\
    pdf_context_of w' conversation_id = pdf_context_of w conversation_id.
Proof.
  intros Hd Hob Howned Hbad.
  destruct (query_conversation_owned conversation_id current_user w d 0 Hd Hob Howned)
    as (row & rows & w1 & Hcheck & Hd1 & _ & Hdb & _).
  unfold upload_pdf, try_except at 1.
  rewrite (bind_returned _ _ _ _ _ Hcheck).
  rewrite (bind_returned _ _ _ tt w1 eq_refl).
  rewrite (bind_raised _ _ _ _ _ (read_pdf_unreadable file detail w1 Hbad)).
  exists w1. split; [reflexivity|]. split; [exact Hd1|].
  split; [exact (db_only_memory _ _ Hdb)|].
  unfold pdf_context_of. now rewrite (db_only_memory _ _ Hdb).
Qed.

(** X22. No rollback: when the text of an upload has been added to the
    context of the agent and the database then refuses the message that
    records it, the request fails with the status 500, the tables are as
    they were, and the context keeps the text of the document. *)
Theorem upload_pdf_no_rollback (conversation_id : string) (file : UploadFile)
    (current_user : string) (w : world) (d : database) (text : string)
    (e : exn) (rest : list reply) :
  supabase w = Some d ->
  db_script w = Done :: Refused e :: rest ->
  List.filter (owned_by conversation_id current_user) (conversations d) <> [] ->
  readable file text ->
  calm (memory_script w) ->
  exists w',
    upload_pdf format_exc conversation_id file false current_user w
      = (Raised (HTTPException 500 ("Lỗi lưu Database: " +:+ exn_str e)), w') /\
    supabase w' = Some d /\
    pdf_context_of w' conversation_id
      = pdf_context_of w conversation_id +:+ document_block file text.
Proof.
  intros Hd Hscript Howned Hread Hcalm.
  assert (obliging 1 (db_script w)) as Hob
    by (rewrite Hscript; repeat constructor).
  pose proof (query_conversation_db_only conversation_id current_user w) as Hdb.
  assert (exists row rows w1,
             query_conversation conversation_id current_user w
               = (Returned (row :: rows), w1) /\
             supabase w1 = Some d /\ db_script w1 = Refused e :: rest)
    as (row & rows & w1 & Hcheck & Hd1 & Hs1).
  { unfold query_conversation, execute. rewrite Hd, Hscript. cbn.
    destruct (List.filter (owned_by conversation_id current_user) (conversations d))
      as [|row rows]; [contradiction|].
    eexists row, rows, _. split; [reflexivity|]. cbn. auto. }
  rewrite Hcheck in Hdb. cbn [snd] in Hdb.
  unfold upload_pdf, try_except at 1.
  rewrite (bind_returned _ _ _ _ _ Hcheck).
  rewrite (bind_returned _ _ _ tt w1 eq_refl).
  rewrite (bind_returned _ _ _ _ _ (read_pdf_readable file text w1 Hread)).
  destruct (update_agent_memory_spec conversation_id file text w1)
    as (w2 & Hupdate & _ & _ & Hstored).
  destruct (update_agent_memory_elsewhere conversation_id file text w1)
    as (Hd2 & Hs2 & _ & _).
  rewrite Hupdate in Hd2, Hs2. cbn [snd] in Hd2, Hs2.
  rewrite (bind_returned _ _ _ _ _ Hupdate). cbn [negb].
  rewrite (db_only_memory_script _ _ Hdb) in Hstored. specialize (Hstored Hcalm).
  match goal with
  | |- context [bind (try_except (bind (add_messages ?rows) ?k) ?handler) _ w2] =>
      assert (try_except (bind (add_messages rows) k) handler w2
              = (Raised (HTTPException 500 ("Lỗi lưu Database: " +:+ exn_str e)),
                 set_db_script rest
                   (set_statements (statements w2 ++ [insert_messages rows]) w2)))
        as Hrefused
  end.
  { unfold try_except, bind, add_messages, execute. rewrite Hd2, Hd1, Hs2, Hs1.
    reflexivity. }
  rewrite (bind_raised _ _ _ _ _ Hrefused).
  eexists. split; [reflexivity|]. cbn. split; [now rewrite Hd2|].
  unfold pdf_context_of in *. cbn. rewrite Hstored.
  now rewrite (db_only_memory _ _ Hdb).
Qed.

(** X23. A silent upload writes nothing to the database, whatever
    happens; an upload that is not silent and succeeds, with a database
    that answers, adds to the messages one row of the assistant in the
    conversation, whose content is the message returned to the client. *)
Theorem upload_pdf_stores (conversation_id : string) (file : UploadFile)
    (current_user : string) (w : world) :
  supabase (upload_pdf format_exc conversation_id file true current_user w).2
    = supabase w /\
  (forall d result,
      supabase w = Some d ->
      obliging 2 (db_script w) ->
      (upload_pdf format_exc conversation_id file false current_user w).1
        = Returned result ->
      supabase (upload_pdf format_exc conversation_id file false current_user w).2
        = Some {| conversations := conversations d;
                  messages := messages d ++
                    [ {| m_conversation_id := conversation_id;
                         m_role := "assistant";
                         m_content := Str (result_message result) |} ] |}).
Proof.
  assert (forall silent,
            exists r w',
              upload_pdf format_exc conversation_id file silent current_user w = (r, w') /\
              (silent = true -> supabase w' = supabase w) /\
              (forall d result,
                  silent = false ->
                  supabase w = Some d ->
                  obliging 2 (db_script w) ->
                  r = Returned result ->
                  supabase w'
                  = Some {| conversations := conversations d;
                            messages := messages d ++
                              [ {| m_conversation_id := conversation_id;
                                   m_role := "assistant";
                                   m_content := Str (result_message result) |} ] |}))
    as Hrun.
  { intros silent. unfold upload_pdf, try_except at 1.
    pose proof (execute_same_tables (select_conversation conversation_id current_user)
                  (fun d => (List.filter (owned_by conversation_id current_user)
                                         (conversations d), d))
                  w (fun _ => eq_refl)) as Hsame1.
    fold (query_conversation conversation_id current_user) in Hsame1.
    assert (forall d, supabase w = Some d -> obliging 2 (db_script w) ->
                      obliging 1 (db_script (query_conversation conversation_id
                                               current_user w).2)) as Hob1.
    { intros d Hd Hob. unfold query_conversation, execute. rewrite Hd.
      destruct (obliging_next _ _ Hob) as (rest & -> & Hrest).
      cbn. exact Hrest. }
    destruct (query_conversation conversation_id current_user w) as [[rows|e] w1] eqn:Eq;
      cbn [snd] in *.
    2:{ rewrite (bind_raised _ _ _ _ _ Eq).
        destruct e; (eexists _, w1; split; [reflexivity|]; split; [auto | discriminate]). }
    rewrite (bind_returned _ _ _ _ _ Eq).
    destruct rows as [|row rows];
      [eexists _, w1; split; [reflexivity|]; split; [auto | discriminate]|].
    rewrite (bind_returned _ _ _ tt w1 eq_refl).
    destruct (read_pdf_pure file w1) as [r Hread].
    destruct r as [text|e].
    2:{ rewrite (bind_raised _ _ _ _ _ Hread).
        destruct e; (eexists _, w1; split; [reflexivity|]; split; [auto | discriminate]). }
    rewrite (bind_returned _ _ _ _ _ Hread).
    destruct (update_agent_memory_spec conversation_id file text w1)
      as (w2 & Hupdate & _).
    destruct (update_agent_memory_elsewhere conversation_id file text w1)
      as (Hd2 & Hs2 & _ & _).
    rewrite Hupdate in Hd2, Hs2. cbn [snd] in Hd2, Hs2.
    rewrite (bind_returned _ _ _ _ _ Hupdate).
    destruct silent; cbn [negb].
    - rewrite (bind_returned _ _ _ tt w2 eq_refl).
      eexists _, w2. split; [reflexivity|].
      split; [intros _; congruence | discriminate].
    - match goal with
      | |- context [bind (try_except (bind (add_messages ?rows) ?k) ?handler) _ w2] =>
          pose proof (fun d (Hd : supabase w2 = Some d) (Hob : obliging 1 (db_script w2)) =>
                        execute_done (insert_messages rows)
                          (fun d => (rows, {| conversations := conversations d;
                                              messages := messages d ++ rows |}))
                          w2 d 0 Hd Hob) as Hdone;
          change (execute (insert_messages rows)
                    (fun d => (rows, {| conversations := conversations d;
                                        messages := messages d ++ rows |})))
            with (add_messages rows) in Hdone;
          destruct (add_messages rows w2) as [[saved|e] w3] eqn:Ea;
          [ assert (try_except (bind (add_messages rows) k) handler w2
                    = (Returned tt, w3)) as Hsaved
              by (unfold try_except; now rewrite (bind_returned _ _ _ _ _ Ea))
          | assert (try_except (bind (add_messages rows) k) handler w2
                    = (Raised (HTTPException 500
                                 ("Lỗi lưu Database: " +:+ exn_str e)), w3))
              as Hrefused
              by (unfold try_except; now rewrite (bind_raised _ _ _ _ _ Ea)) ]
      end.
      + rewrite (bind_returned _ _ _ _ _ Hsaved).
        eexists _, w3. split; [reflexivity|]. split; [discriminate|].
        intros d result _ Hd Hob [= <-]. cbn [result_message].
        specialize (Hob1 d Hd Hob). rewrite <- Hs2 in Hob1.
        destruct (Hdone d ltac:(congruence) Hob1) as (w3' & Hadd & Hd3 & _).
        cbn [fst snd] in *. injection Hadd as _ <-. exact Hd3.
      + rewrite (bind_raised _ _ _ _ _ Hrefused).
        eexists _, w3. split; [reflexivity|]. split; discriminate. }
  split.
  - destruct (Hrun true) as (r & w' & -> & Hsilent & _). now apply Hsilent.
  - intros d result Hd Hob Hres.
    destruct (Hrun false) as (r & w' & Heq & _ & Hstored).
    rewrite Heq in *. cbn [fst snd] in *. now apply (Hstored d result).
Qed.

End UploadGuards.

(** ** [chat.py]: [POST /chat] without a conversation, without a database,
    and when the agent fails *)

Section ChatEndpointMore.
Import Chat.
Local Open Scope chat_scope.
Context `{Text} (agent_executor : executor).

Lemma fresh_id_truthy d : truthy (fresh_id d) = true.
Proof. reflexivity. Qed.

(** A new conversation is created for the exchange and both messages are
    filed under its identifier. *)
Lemma save_exchange_new current_user message assistant_response w d :
  supabase w = Some d ->
  obliging 2 (db_script w) ->
  exists w',
    save_exchange None current_user message assistant_response w
      = (Returned (Some (fresh_id d)), w') /\
    supabase w'
      = Some {| conversations := conversations d ++
                  [ {| c_id := fresh_id d; c_user_id := current_user;
                       c_title := slice_to 50 message +:+ "..." |} ];
                messages := messages d ++
                  [ {| m_conversation_id := fresh_id d; m_role := "user";
                       m_content := Str message |};
                    {| m_conversation_id := fresh_id d; m_role := "assistant";
                       m_content := Str assistant_response |} ] |} /\
    db_only w w'.
Proof.
  intros Hd Hob.
  pose proof (save_exchange_db_only None current_user message assistant_response w)
    as Hdb.
  set (row := {| c_id := fresh_id d; c_user_id := current_user;
                 c_title := slice_to 50 message +:+ "..." |}).
  set (rows := [ {| m_conversation_id := fresh_id d; m_role := "user";
                    m_content := Str message |};
                 {| m_conversation_id := fresh_id d; m_role := "assistant";
                    m_content := Str assistant_response |} ]).
  assert (exists w',
            save_exchange None current_user message assistant_response w
              = (Returned (Some (fresh_id d)), w') /\
            supabase w'
              = Some {| conversations := conversations d ++ [row];
                        messages := messages d ++ rows |})
    as (w' & Hsave & Hd');
    [|rewrite Hsave in Hdb; exists w'; auto].
  unfold save_exchange. cbn [given].
  destruct (execute_done (insert_conversation (slice_to 50 message +:+ "...") current_user)
              (fun d =>
                 let row := {| c_id := fresh_id d; c_user_id := current_user;
                               c_title := slice_to 50 message +:+ "..." |} in
                 ([row], {| conversations := conversations d ++ [row];
                            messages := messages d |}))
              w d 1 Hd Hob) as (w1 & Hcreate & Hd1 & Hob1).
  cbn [fst snd] in *.
  fold (create_conversation (slice_to 50 message +:+ "...") current_user) in Hcreate.
  fold row in Hcreate, Hd1.
  assert (try_except
            (conv_result <- create_conversation (slice_to 50 message +:+ "...")
                              current_user ;;
             ret (match conv_result with
                  | r :: _ => Some (c_id r)
                  | [] => None
                  end))
            (fun _ => ret None) w = (Returned (Some (fresh_id d)), w1)) as Hcreated.
  { unfold try_except. now rewrite (bind_returned _ _ _ _ _ Hcreate). }
  rewrite (bind_returned _ _ _ _ _ Hcreated). cbn [given].
  rewrite fresh_id_truthy. change (default EmptyString (Some (fresh_id d))) with (fresh_id d).
  fold rows.
  destruct (execute_done (insert_messages rows)
              (fun d => (rows, {| conversations := conversations d;
                                  messages := messages d ++ rows |}))
              w1 _ 0 Hd1 Hob1) as (w2 & Hadd & Hd2 & _).
  cbn [fst snd conversations messages] in *. fold (add_messages rows) in Hadd.
  pose proof (execute_same_tables (update_conversation (fresh_id d))
                (fun d0 => (List.filter (fun c => String.eqb (c_id c) (fresh_id d))
                                        (conversations d0), d0))
                w2 (fun _ => eq_refl)) as Htouch.
  fold (touch_conversation (fresh_id d)) in Htouch. rewrite Hd2 in Htouch.
  assert (exists w3,
            try_except (add_messages rows ;;; touch_conversation (fresh_id d) ;;; ret tt)
                       (fun _ => ret tt) w1 = (Returned tt, w3) /\
            supabase w3 = supabase (touch_conversation (fresh_id d) w2).2)
    as (w3 & Hsaved & Hd3).
  { unfold try_except. rewrite (bind_returned _ _ _ _ _ Hadd). unfold bind.
    destruct (touch_conversation (fresh_id d) w2) as [[touched|e] w3];
      eexists; split; reflexivity. }
  rewrite (bind_returned _ _ _ _ _ Hsaved).
  exists w3. split; [reflexivity | congruence].
Qed.

Lemma log_to_file_works w :
  calm (take 1 (disk_script w)) ->
  exists w',
    log_to_file w = (Returned tt, w') /\
    supabase w' = supabase w /\
    agent_calls w' = agent_calls w /\
    statements w' = statements w.
Proof.
  intros Hcalm. unfold log_to_file.
  destruct (disk_script w) as [|[e|] disk]; cbn.
  - eexists. split; [reflexivity|]. cbn. auto.
  - inversion Hcalm; discriminate.
  - eexists. split; [reflexivity|]. cbn. auto.
Qed.

(** X24. [POST /chat] without a conversation identifier, when the agent
    answers and the database takes the two inserts: the agent is run
    on the message alone, on the thread [None]; then a conversation is
    created for the user, titled with the first 50 code points of the
    message and three dots; the message and the answer are appended under
    its identifier, and the response carries that identifier. *)
Theorem chat_endpoint_new_conversation (request : ChatRequest)
    (current_user : string) (w : world) (d : database)
    (output : list content) (after : checkpoints) (answer : content) :
  conversation_id request = None ->
  supabase w = Some d ->
  obliging 2 (db_script w) ->
  ainvoke agent_executor [("user", Str (message request))] None (memory w)
    = (Returned output, after) ->
  last output = Some answer ->
  calm (take 1 (disk_script w)) ->
  exists w',
    chat_endpoint agent_executor request current_user w
      = (Returned {| response := _get_text_content answer;
                     response_conversation_id := Some (fresh_id d) |}, w') /\
    agent_calls w' = agent_calls w ++ [(None, [("user", Str (message request))])] /\
    supabase w'
      = Some {| conversations := conversations d ++
                  [ {| c_id := fresh_id d; c_user_id := current_user;
                       c_title := slice_to 50 (message request) +:+ "..." |} ];
                messages := messages d ++
                  [ {| m_conversation_id := fresh_id d; m_role := "user";
                       m_content := Str (message request) |};
                    {| m_conversation_id := fresh_id d; m_role := "assistant";
                       m_content := Str (_get_text_content answer) |} ] |}.
Proof.
  intros Hreq Hd Hob Hagent Hlast Hdisk. unfold chat_endpoint.
  rewrite try_bind_gets, Hreq. cbn [given andb].
  rewrite (try_bind_returned (ret []) _ _ w [] w eq_refl). cbn [app].
  rewrite Hd, (bool_decide_eq_true_2 _ (mk_is_Some _ _ eq_refl)).
  set (w1 := set_memory after
               (set_agent_calls
                  (agent_calls w ++ [(None, [("user", Str (message request))])]) w)).
  assert (run_agent agent_executor [("user", Str (message request))] None w
          = (Returned output, w1)) as Hrun
    by (unfold run_agent; now rewrite Hagent).
  rewrite (try_bind_returned _ _ _ _ _ _ Hrun), Hlast.
  rewrite (try_bind_returned (ret answer) _ _ _ answer _ eq_refl).
  destruct (save_exchange_new current_user (message request)
              (_get_text_content answer) w1 d Hd Hob) as (w2 & Hsave & Hd2 & Hdb2).
  rewrite (try_bind_returned _ _ _ _ _ _ Hsave).
  destruct (log_to_file_works w2) as (w3 & Hlog & Hd3 & Hc3 & _).
  { rewrite (db_only_disk_script _ _ Hdb2). exact Hdisk. }
  rewrite (try_bind_returned _ _ _ _ _ _ Hlog).
  exists w3. split; [reflexivity|].
  split; [rewrite Hc3, (db_only_agent_calls _ _ Hdb2); reflexivity|].
  now rewrite Hd3.
Qed.

Lemma fetch_history_same_tables id current_user w :
  supabase (fetch_history id current_user w).2 = supabase w.
Proof.
  unfold fetch_history, try_except.
  pose proof (execute_same_tables (select_conversation id current_user)
                (fun d => (List.filter (owned_by id current_user) (conversations d), d))
                w (fun _ => eq_refl)) as H1.
  fold (query_conversation id current_user) in H1.
  destruct (query_conversation id current_user w) as [[rows|e] w1] eqn:Eq;
    cbn [snd] in H1.
  2:{ now rewrite (bind_raised _ _ _ _ _ Eq). }
  rewrite (bind_returned _ _ _ _ _ Eq).
  destruct rows as [|row rows]; [exact H1|].
  pose proof (execute_same_tables (select_messages id 20)
                (fun d => (take 20 (List.filter (of_conversation id) (messages d)), d))
                w1 (fun _ => eq_refl)) as H2.
  fold (query_messages id 20) in H2.
  destruct (query_messages id 20 w1) as [[msgs|e] w2] eqn:Eq2; cbn [snd] in H2.
  - rewrite (bind_returned _ _ _ _ _ Eq2). cbn. congruence.
  - rewrite (bind_raised _ _ _ _ _ Eq2). cbn. congruence.
Qed.

(** X25. When the run of the agent raises, [POST /chat] fails with the
    status 500 and the text of the exception (cut to 100 code points
    behind a fixed note when it mentions row-level security): nothing has
    been written to the tables. *)
Theorem chat_endpoint_agent_failure (request : ChatRequest)
    (current_user : string) (w : world) (e : exn) :
  (forall input thread_id m,
      exists m', ainvoke agent_executor input thread_id m = (Raised e, m')) ->
  exists w',
    chat_endpoint agent_executor request current_user w
      = (Raised (HTTPException 500
                   (if py_in "row-level security" (lower (exn_str e))
                    then "Database RLS error (chat still works): " +:+
                         slice_to 100 (exn_str e)
                    else exn_str e)), w') /\
    supabase w' = supabase w.
Proof.
  intros Hagent. unfold chat_endpoint. rewrite try_bind_gets.
  set (history :=
         if given (conversation_id request) && bool_decide (is_Some (supabase w))
         then fetch_history (default EmptyString (conversation_id request)) current_user
         else ret []).
  assert (exists rows w1, history w = (Returned rows, w1) /\ supabase w1 = supabase w)
    as (rows & w1 & Hhist & Hd1).
  { unfold history. destruct (given _ && _).
    - destruct (fetch_history_returns
                  (default EmptyString (conversation_id request)) current_user w)
        as [rows Hrows].
      pose proof (fetch_history_same_tables
                    (default EmptyString (conversation_id request)) current_user w) as Hs.
      destruct (fetch_history _ _ w) as [r w1]; cbn in *. subst r. eauto.
    - eexists _, w. split; reflexivity. }
  rewrite (try_bind_returned _ _ _ _ _ _ Hhist).
  destruct (Hagent (rows ++ [("user", Str (message request))])
              (conversation_id request) (memory w1)) as [m' Hrun].
  unfold try_except, bind at 1, run_agent. rewrite Hrun.
  destruct (py_in "row-level security" (lower (exn_str e)));
    (eexists; split; [reflexivity|]; exact Hd1).
Qed.

(** X26. [POST /chat] does not need the database: without a client no
    statement is executed, the agent is run on the message alone, and its
    answer is returned with the conversation identifier of the request. *)
Theorem chat_endpoint_without_database (request : ChatRequest)
    (current_user : string) (w : world)
    (output : list content) (after : checkpoints) (answer : content) :
  supabase w = None ->
  ainvoke agent_executor [("user", Str (message request))]
          (conversation_id request) (memory w)
    = (Returned output, after) ->
  last output = Some answer ->
  calm (take 1 (disk_script w)) ->
  exists w',
    chat_endpoint agent_executor request current_user w
      = (Returned {| response := _get_text_content answer;
                     response_conversation_id := conversation_id request |}, w') /\
    statements w' = statements w /\
    supabase w' = None /\
    agent_calls w'
      = agent_calls w ++
        [(conversation_id request, [("user", Str (message request))])].
Proof.
  intros Hd Hagent Hlast Hdisk. unfold chat_endpoint.
  rewrite try_bind_gets, Hd.
  assert (bool_decide (is_Some (None : option database)) = false) as ->
    by (apply bool_decide_eq_false_2; intros [x Hx]; discriminate).
  rewrite andb_false_r.
  rewrite (try_bind_returned (ret []) _ _ w [] w eq_refl). cbn [app].
  set (w1 := set_memory after
               (set_agent_calls
                  (agent_calls w ++
                   [(conversation_id request, [("user", Str (message request))])]) w)).
  assert (run_agent agent_executor [("user", Str (message request))]
            (conversation_id request) w = (Returned output, w1)) as Hrun
    by (unfold run_agent; now rewrite Hagent).
  rewrite (try_bind_returned _ _ _ _ _ _ Hrun), Hlast.
  rewrite (try_bind_returned (ret answer) _ _ _ answer _ eq_refl).
  rewrite (try_bind_returned (ret (conversation_id request)) _ _ w1 _ w1 eq_refl).
  destruct (log_to_file_works w1 Hdisk) as (w2 & Hlog & Hd2 & Hc2 & Hs2).
  rewrite (try_bind_returned _ _ _ _ _ _ Hlog).
  exists w2. split; [reflexivity|]. rewrite Hs2, Hd2, Hc2. cbn. auto.
Qed.

End ChatEndpointMore.

(** ** [chat.py]: a turn whose answer is streamed *)

Section StreamedTurn.
Import Chat.
Local Open Scope chat_scope.
Context (agent_executor : executor).

Lemma streamed_text_cons e events :
  streamed_text (e :: events) =
    match outward e with
    | Some (ev_token (Str fragment)) => fragment +:+ streamed_text events
    | _ => streamed_text events
    end.
Proof. reflexivity. Qed.

(** With a link that works, the loop hands over the frame of every event
    and gathers the fragments in their order. *)
Lemma consume_streams events full_response tokens_streamed w :
  healthy w ->
  exists n w',
    consume events full_response tokens_streamed w
      = (Returned (full_response +:+ streamed_text events, n), w') /\
    delivers w w' (omap outward events).
Proof.
  revert full_response tokens_streamed w.
  induction events as [|event events IH]; intros full_response tokens_streamed w Hw.
  - exists tokens_streamed, w. cbn [consume streamed_text foldr].
    rewrite append_empty_r. split; [reflexivity | now apply delivers_refl].
  - destruct event as [name|name|c|kind]; cbn [consume omap list_omap];
      rewrite streamed_text_cons; cbn [outward].
    + destruct (send_personal_message_delivers
                  (ev_status ("Running tool: " +:+ name +:+ "...")) w Hw)
        as (w1 & Hsend & D1).
      rewrite (bind_returned _ _ _ _ _ Hsend).
      destruct (IH full_response tokens_streamed w1 (delivers_healthy _ _ _ D1))
        as (n & w2 & Hrun & D2).
      exists n, w2. split; [exact Hrun|]. exact (delivers_trans _ _ _ [_] _ D1 D2).
    + apply IH, Hw.
    + destruct (fragment c) as [content|]; cbn [fmap option_fmap option_map].
      * destruct (send_personal_message_delivers (ev_token (Str content)) w Hw)
          as (w1 & Hsend & D1).
        rewrite (bind_returned _ _ _ _ _ Hsend).
        destruct (IH (full_response +:+ content) (S tokens_streamed) w1
                    (delivers_healthy _ _ _ D1)) as (n & w2 & Hrun & D2).
        exists n, w2. rewrite Hrun, string_app_assoc.
        split; [reflexivity|]. exact (delivers_trans _ _ _ [_] _ D1 D2).
      * apply IH, Hw.
    + apply IH, Hw.
Qed.

Lemma respond_streams history_messages conversation_id w events after :
  healthy w ->
  astream_events agent_executor history_messages conversation_id (memory w)
    = (events, None, after) ->
  truthy (streamed_text events) = true ->
  exists n w',
    respond agent_executor history_messages conversation_id w
      = (Returned (Str (streamed_text events), n), w') /\
    passes w w' ([ev_start] ++ omap outward events) /\
    healthy w'.
Proof.
  intros Hw Hrun Htext. unfold respond.
  destruct (send_personal_message_delivers ev_start w Hw) as (w1 & Hstart & D1).
  rewrite (bind_returned _ _ _ _ _ Hstart).
  rewrite <- (delivers_memory _ _ _ D1) in Hrun.
  assert (exists n w2,
            stream_agent agent_executor history_messages conversation_id w1
              = (Returned (streamed_text events, n), w2) /\
            passes w1 w2 (omap outward events) /\ healthy w2)
    as (n & w2 & Hstream & P2 & Hw2).
  { unfold stream_agent. rewrite bind_modify, bind_gets.
    set (w1' := set_agent_calls _ w1).
    change (memory w1') with (memory w1). rewrite Hrun.
    assert (healthy w1') as Hw1' by exact (delivers_healthy _ _ _ D1).
    destruct (consume_streams events EmptyString 0 w1' Hw1') as (n & w2 & Hc & D2).
    rewrite append_empty_l in Hc.
    rewrite (bind_returned _ _ _ _ _ Hc), bind_modify.
    exists n, (set_memory after w2). split; [reflexivity|].
    split; [exact (delivers_passes _ _ _ D2) | exact (delivers_healthy _ _ _ D2)]. }
  rewrite (bind_returned _ _ _ _ _ Hstream). rewrite Htext, andb_false_r.
  exists n, w2. split; [reflexivity|]. split; [|exact Hw2].
  exact (passes_trans _ _ _ _ _ (delivers_passes _ _ _ D1) P2).
Qed.

(** X27. When the run of a turn streams text and ends well, and the
    socket and the log file work, the turn hands the socket [start], the
    frame of every event of the run in the order of the events, and the
    [end] frame whose content is the fragments of the [token] frames put
    together in their order; all of them reach the client, and no frame
    of the fallback is sent. *)
Theorem turn_streams_answer (user_id : string) (conversation_id : option string)
    (data : string) (w : world) (events : list agent_event) :
  healthy w ->
  (forall input thread_id,
      exists after,
        astream_events agent_executor input thread_id (memory w)
          = (events, None, after)) ->
  truthy (streamed_text events) = true ->
  exists id metas w',
    turn agent_executor user_id conversation_id data w = (Returned (next_turn id), w') /\
    at_most_meta metas /\
    outbox w' = outbox w ++ metas ++ [ev_start] ++ omap outward events ++
                [ev_end (Str (streamed_text events))] /\
    wire w' = wire w ++ metas ++ [ev_start] ++ omap outward events ++
              [ev_end (Str (streamed_text events))].
Proof.
  intros Hw Hagent Htext. unfold turn.
  destruct (load_history_returns conversation_id w) as [history Hhist].
  pose proof (db_only_delivers _ _ Hw (load_history_db_only conversation_id w)) as D1.
  destruct (load_history conversation_id w) as [r1 w1] eqn:H1; cbn [fst snd] in *.
  subst r1. rewrite (bind_returned _ _ _ _ _ H1).
  destruct (open_conversation_delivers conversation_id user_id data w1
              (delivers_healthy _ _ _ D1)) as (id & metas & w2 & H2 & D2 & Hmeta).
  rewrite (bind_returned _ _ _ _ _ H2).
  destruct (save_user_message_returns id data w2) as [[] Hsaved].
  pose proof (db_only_delivers _ _ (delivers_healthy _ _ _ D2)
                (save_user_message_db_only id data w2)) as D3.
  destruct (save_user_message id data w2) as [r3 w3] eqn:H3; cbn [fst snd] in *.
  subst r3. rewrite (bind_returned _ _ _ _ _ H3).
  assert (memory w3 = memory w) as Hmem.
  { rewrite (delivers_memory _ _ _ D3), (delivers_memory _ _ _ D2).
    exact (delivers_memory _ _ _ D1). }
  destruct (Hagent (history ++ [("user", Str data)]) id) as (after & Hrun).
  rewrite <- Hmem in Hrun.
  destruct (respond_streams _ _ w3 events after (delivers_healthy _ _ _ D3) Hrun Htext)
    as (n & w4 & H4 & P4 & Hw4).
  assert (try_except
            (r <- respond agent_executor (history ++ [("user", Str data)]) id ;;
             ret (inr r))
            (fun e => leave <- stream_failed id e ;; ret (inl leave)) w3
          = (Returned (inr (Str (streamed_text events), n)), w4)) as Hanswered
    by (unfold try_except; now rewrite (bind_returned _ _ _ _ _ H4)).
  rewrite (bind_returned _ _ _ _ _ Hanswered).
  unfold finish_turn.
  destruct (log_to_file_delivers w4 Hw4) as (w5 & H5 & D5).
  rewrite (bind_returned _ _ _ _ _ H5).
  destruct (send_personal_message_delivers (ev_end (Str (streamed_text events))) w5
              (delivers_healthy _ _ _ D5)) as (w6 & H6 & D6).
  rewrite (bind_returned _ _ _ _ _ H6).
  destruct (save_assistant_message_returns id (Str (streamed_text events)) w6)
    as [[] Hsave].
  pose proof (db_only_delivers _ _ (delivers_healthy _ _ _ D6)
                (save_assistant_message_db_only id (Str (streamed_text events)) w6))
    as D7.
  destruct (save_assistant_message id (Str (streamed_text events)) w6)
    as [r7 w7] eqn:H7; cbn [fst snd] in *.
  subst r7. rewrite (bind_returned _ _ _ _ _ H7).
  exists id, metas, w7. split; [reflexivity|]. split; [exact Hmeta|].
  pose proof (passes_trans _ _ _ _ _ (delivers_passes _ _ _ D1)
             (passes_trans _ _ _ _ _ (delivers_passes _ _ _ D2)
             (passes_trans _ _ _ _ _ (delivers_passes _ _ _ D3)
             (passes_trans _ _ _ _ _ P4
             (passes_trans _ _ _ _ _ (delivers_passes _ _ _ D5)
             (passes_trans _ _ _ _ _ (delivers_passes _ _ _ D6)
                (delivers_passes _ _ _ D7))))))) as Hall.
  cbn [app] in Hall. exact Hall.
Qed.

End StreamedTurn.

(** ** [chat.py]: the list of active connections *)

Section TurnGoesOn.
Import Chat.
Local Open Scope chat_scope.
Context (agent_executor : executor).

Lemma stream_agent_streams input thread_id w events after :
  healthy w ->
  astream_events agent_executor input thread_id (memory w) = (events, None, after) ->
  exists n w',
    stream_agent agent_executor input thread_id w
      = (Returned (streamed_text events, n), w') /\
    passes w w' (omap outward events) /\
    healthy w'.
Proof.
  intros Hw Hrun. unfold stream_agent. rewrite bind_modify, bind_gets.
  set (w1 := set_agent_calls _ w).
  change (memory w1) with (memory w). rewrite Hrun.
  assert (healthy w1) as Hw1 by exact Hw.
  destruct (consume_streams events EmptyString 0 w1 Hw1) as (n & w2 & Hc & D2).
  rewrite append_empty_l in Hc.
  rewrite (bind_returned _ _ _ _ _ Hc), bind_modify.
  exists n, (set_memory after w2). split; [reflexivity|].
  split; [exact (delivers_passes _ _ _ D2) | exact (delivers_healthy _ _ _ D2)].
Qed.

(** Step 3 of the loop body answers whenever the run ends well and
    nothing around the socket fails. *)
Lemma respond_returns history_messages conversation_id w events after :
  healthy w ->
  astream_events agent_executor history_messages conversation_id (memory w)
    = (events, None, after) ->
  exists c n frames w',
    respond agent_executor history_messages conversation_id w
      = (Returned (c, n), w') /\
    passes w w' frames /\
    healthy w'.
Proof.
  intros Hw Hrun. unfold respond.
  destruct (send_personal_message_delivers ev_start w Hw) as (w1 & Hstart & D1).
  rewrite (bind_returned _ _ _ _ _ Hstart).
  rewrite <- (delivers_memory _ _ _ D1) in Hrun.
  destruct (stream_agent_streams _ _ w1 events after (delivers_healthy _ _ _ D1) Hrun)
    as (n & w2 & Hstream & P2 & Hw2).
  rewrite (bind_returned _ _ _ _ _ Hstream).
  pose proof (passes_trans _ _ _ _ _ (delivers_passes _ _ _ D1) P2) as P12.
  destruct ((n =? 0) && negb (truthy (streamed_text events))).
  - destruct (final_content (snapshot (memory w2) conversation_id)) as [c|] eqn:Hfinal.
    + destruct (no_stream_fallback_found conversation_id
                  (Str (streamed_text events)) w2 c Hw2 Hfinal) as (w3 & Hf & D3).
      rewrite (bind_returned _ _ _ _ _ Hf).
      eexists _, _, _, w3. split; [reflexivity|].
      split; [exact (passes_trans _ _ _ _ _ P12 (delivers_passes _ _ _ D3))|].
      exact (delivers_healthy _ _ _ D3).
    + destruct (no_stream_fallback_missing conversation_id
                  (Str (streamed_text events)) w2 Hw2 Hfinal) as (w3 & Hf & D3).
      rewrite (bind_returned _ _ _ _ _ Hf).
      eexists _, _, _, w3. split; [reflexivity|].
      split; [exact (passes_trans _ _ _ _ _ P12 (delivers_passes _ _ _ D3))|].
      exact (delivers_healthy _ _ _ D3).
  - eexists _, _, _, w2. split; [reflexivity|]. split; [exact P12 | exact Hw2].
Qed.

(** With a run that ends well and nothing failing around the socket, a
    turn goes on to the next one, and nothing has started to fail. *)
Lemma turn_goes_on user_id conversation_id data w :
  healthy w ->
  (forall input thread_id m,
      exists events after,
        astream_events agent_executor input thread_id m = (events, None, after)) ->
  exists id w',
    turn agent_executor user_id conversation_id data w = (Returned (next_turn id), w') /\
    healthy w'.
Proof.
  intros Hw Hagent.
  destruct (turn_answered agent_executor user_id conversation_id data w
              (fun _ _ _ => True) Hw)
    as (_ & _ & id & _ & _ & _ & _ & w' & _ & _ & _ & _ & Hturn & _ & _ & Hw').
  { intros history id w3 Hw3 _.
    destruct (Hagent (history ++ [("user", Str data)]) id (memory w3))
      as (events & after & Hrun).
    destruct (respond_returns _ _ w3 events after Hw3 Hrun)
      as (c & n & frames & w4 & H4 & P4 & Hw4).
    exists c, n, frames, w4. auto. }
  exists id, w'. auto.
Qed.

End TurnGoesOn.

Section RegistryFacts.
Import Raising Chat Session.
Local Open Scope raising_scope.
Context (agent_executor : executor) (decode : string -> Deps.decoded).

Lemma remove_last (x : nat) (l : list nat) :
  ~ In x l -> remove x (l ++ [x]) = Some l.
Proof.
  induction l as [|y l IH]; intros Hnot; cbn.
  - now rewrite Nat.eqb_refl.
  - destruct (Nat.eqb y x) eqn:Hyx.
    + apply Nat.eqb_eq in Hyx. exfalso. apply Hnot. now left.
    + rewrite IH; [reflexivity|]. intros Hin. apply Hnot. now right.
Qed.

(** The loop of a registered socket: when it raises, the socket is still
    on the list; when it returns, the socket was taken off by the turn
    that found the client gone, or the loop has left by [break] and the
    socket is on the list. *)
Lemma serve_registry websocket user_id (l : list nat) (incoming : list arrival) :
  ~ In websocket l ->
  forall conversation_id (w : Chat.world),
  exists r w',
    serve agent_executor websocket user_id conversation_id incoming
          (Server w (l ++ [websocket])) = (r, w') /\
    match r with
    | Raised _ => active_connections w' = l ++ [websocket]
    | Returned _ =>
        active_connections w' = l \/
        active_connections w' = l ++ [websocket] /\ In disconnected incoming
    end.
Proof.
  intros Hfresh.
  induction incoming as [|[data|] incoming IH]; intros conversation_id w; cbn [serve].
  - eexists _, _. split; [reflexivity|]. reflexivity.
  - unfold Raising.bind. rewrite lift_run. cbn [world active_connections fst snd].
    destruct (turn agent_executor user_id conversation_id data w) as [[[next|]|e] w1];
      cbn [fst snd].
    + destruct (IH next w1) as (r & w' & Hrun & Hr). rewrite Hrun.
      exists r, w'. split; [reflexivity|]. destruct r; [|exact Hr].
      destruct Hr as [Hoff|[Hon Hin]]; [now left | right; split; [exact Hon | now right]].
    + unfold disconnect. cbn [active_connections world].
      rewrite (remove_last _ _ Hfresh).
      eexists _, _. split; [reflexivity|]. now left.
    + eexists _, _. split; [reflexivity|]. reflexivity.
  - eexists _, _. split; [reflexivity|]. right. split; [reflexivity | now left].
Qed.

(** When every turn goes on, the loop reaches the [break]. *)
Lemma serve_breaks websocket user_id (l : list nat) (texts : list string)
    (later : list arrival) :
  (forall input thread_id m,
      exists events after,
        astream_events agent_executor input thread_id m = (events, None, after)) ->
  forall conversation_id (w : Chat.world),
  healthy w ->
  exists w',
    serve agent_executor websocket user_id conversation_id
          ((received <$> texts) ++ disconnected :: later) (Server w l)
      = (Returned tt, Server w' l).
Proof.
  intros Hagent.
  induction texts as [|data texts IH]; intros conversation_id w Hw; cbn [fmap list_fmap app serve].
  - exists w. reflexivity.
  - unfold Raising.bind. rewrite lift_run. cbn [world active_connections fst snd].
    destruct (turn_goes_on agent_executor user_id conversation_id data w Hw Hagent)
      as (id & w1 & -> & Hw1).
    cbn [fst snd]. exact (IH id w1 Hw1).
Qed.


End RegistryFacts.

Lemma should_continue_ceiling_witness :
  Graph.should_continue GraphExamples.five_rounds = Graph.END.
Proof.
  apply (should_continue_ceiling GraphExamples.five_rounds
           (replicate 5 GraphExamples.asking) GraphExamples.asking).
  - reflexivity.
  - vm_compute. lia.
Defined.

Lemma call_model_all_fail_witness :
  (Graph.call_model GraphExamples.chain_down GraphExamples.hello []).1
    = [Graph.AIMessage Graph.apology].
Proof.
  apply (call_model_all_fail GraphExamples.chain_down GraphExamples.hello []).
  repeat constructor; cbn; eauto.
Defined.

Lemma call_model_fallback_order_witness :
  (Graph.call_model GraphExamples.chain_abc GraphExamples.hello []).1
    = [GraphExamples.answer] /\
  Graph.invocations (Graph.call_model GraphExamples.chain_abc GraphExamples.hello []).2
    = ["Llama 3.3 70B"; "Llama 3.1 8B"; "Gemini 2.5 Flash"].
Proof.
  destruct (call_model_fallback_order GraphExamples.chain_abc GraphExamples.hello []
              [("Llama 3.3 70B", Some (Graph.llama_70b_with_tools GraphExamples.chain_abc));
               ("Llama 3.1 8B", Some (Graph.llama_8b_with_tools GraphExamples.chain_abc))]
              "Gemini 2.5 Flash" (GraphExamples.always (Returned GraphExamples.answer))
              [] GraphExamples.answer) as (Hr & Ht & _).
  - reflexivity.
  - repeat constructor; cbn; eauto.
  - reflexivity.
  - split; [exact Hr | exact Ht].
Defined.

(** The claim of C2 fails where no index is configured: the answer for the
    query [xyz] carries no tag. *)
Lemma legal_assistant_unconfigured_no_signal :
  py_in LegalTools.fallback_tag
    (LegalTools.legal_assistant LegalToolsExamples.percent 0
       LegalToolsExamples.unconfigured "xyz") = false.
Proof. vm_compute. reflexivity. Qed.

Lemma legal_assistant_fallback_signal_witness :
  py_in LegalTools.fallback_tag
    (LegalTools.legal_assistant LegalToolsExamples.percent 0
       LegalToolsExamples.empty_index "xyz") = true.
Proof.
  apply (legal_assistant_fallback_signal LegalToolsExamples.percent 0
           LegalToolsExamples.empty_index "xyz").
  - vm_compute. reflexivity.
  - eapply zero_matches; [reflexivity..|]. right. reflexivity.
Defined.

(** A match without metadata stops the formatting of the results: the
    reply is the note on a search in trouble. *)
Example legal_assistant_match_without_metadata :
  LegalTools.legal_assistant LegalToolsExamples.percent 0
    LegalToolsExamples.bare_match "xyz"
  = LegalTools.search_trouble_answer.
Proof. vm_compute. reflexivity. Qed.

(** Case is changed beyond ASCII: a query in capitals finds its entry. *)
Example legal_assistant_capitals :
  LegalTools.legal_assistant LegalToolsExamples.percent 0
    LegalToolsExamples.unconfigured "LY HÔN"
  = LegalTools.legal_assistant LegalToolsExamples.percent 0
      LegalToolsExamples.unconfigured "ly hôn".
Proof. vm_compute. reflexivity. Qed.

Example calculate_fee_visa :
  LegalTools.calculate_fee "Xin VISA" "90 days" =
    "### Lệ phí: VISA

- **E-visa 30 ngày (nhập cảnh 1 lần):** 25 USD
- **Visa 90 ngày (nhập cảnh nhiều lần):** 50 USD
- **Thẻ tạm trú (1-3 năm):** 145 - 155 USD

📌 **Lưu ý:** Phí có thể thay đổi, nên kiểm tra với cơ quan trực tiếp.".
Proof. vm_compute. reflexivity. Qed.


(** The same turn on the thread of a conversation: the fallback token and
    [end], all delivered. *)
Example turn_silent_agent :
  Chat.wire (Chat.turn ChatExamples.silent_agent "u1" (Some "c1") "Xin chào"
               (ChatExamples.fresh None)).2
  = [ Chat.ev_start;
      Chat.ev_status "Running tool: legal_assistant...";
      Chat.ev_token (Chat.Str "Xin chào");
      Chat.ev_end (Chat.Str "Xin chào") ].
Proof. vm_compute. reflexivity. Qed.



(** The claim of C8 fails on a conversation of 21 messages: the run gets
    [A] to [T], the latest 20 are [B] to [U]. *)
Lemma history_window_not_most_recent :
  Chat.agent_calls
    (Chat.chat_endpoint ChatExamples.silent_agent (ChatExamples.ask "c1" "tiếp") "u1"
       (ChatExamples.fresh (Some ChatExamples.long_db))).2
  <> [ (Some "c1",
        ChatExamples.most_recent_window ChatExamples.long_db "c1"
          ++ [("user", Chat.Str "tiếp")]) ].
Proof. vm_compute. discriminate. Qed.

Lemma history_window_witness :
  Chat.agent_calls
    (Chat.chat_endpoint ChatExamples.silent_agent (ChatExamples.ask "c1" "tiếp") "u1"
       (ChatExamples.fresh (Some ChatExamples.long_db))).2
  = [ (Some "c1", window ChatExamples.long_db "c1" ++ [("user", Chat.Str "tiếp")]) ].
Proof.
  destruct (history_window ChatExamples.silent_agent (ChatExamples.ask "c1" "tiếp")
              "u1" "u1" "tiếp" "c1" (ChatExamples.fresh (Some ChatExamples.long_db))
              ChatExamples.long_db eq_refl eq_refl) as (Hposted & _).
  apply Hposted.
  - reflexivity.
  - constructor.
  - vm_compute. discriminate.
Defined.

Lemma chat_endpoint_swallows_403_witness :
  Chat.chat_endpoint ChatExamples.silent_agent (ChatExamples.ask "c2" "cho xem") "u1"
    (ChatExamples.fresh (Some ChatExamples.other_db))
  = (Returned {| Chat.response := "Xin chào";
                 Chat.response_conversation_id := Some "c2" |},
     (Chat.chat_endpoint ChatExamples.silent_agent (ChatExamples.ask "c2" "cho xem") "u1"
        (ChatExamples.fresh (Some ChatExamples.other_db))).2) /\
  Chat.supabase
    (Chat.chat_endpoint ChatExamples.silent_agent (ChatExamples.ask "c2" "cho xem") "u1"
       (ChatExamples.fresh (Some ChatExamples.other_db))).2
  = Some {| Chat.conversations := Chat.conversations ChatExamples.other_db;
            Chat.messages := Chat.messages ChatExamples.other_db ++
              [ {| Chat.m_conversation_id := "c2"; Chat.m_role := "user";
                   Chat.m_content := Chat.Str "cho xem" |};
                {| Chat.m_conversation_id := "c2"; Chat.m_role := "assistant";
                   Chat.m_content := Chat.Str "Xin chào" |} ] |}.
Proof.
  destruct (chat_endpoint_swallows_403 ChatExamples.silent_agent
              (ChatExamples.ask "c2" "cho xem") "u1" "c2"
              (ChatExamples.fresh (Some ChatExamples.other_db)) ChatExamples.other_db []
              eq_refl eq_refl eq_refl
              (not_owned "c2" "u1" ChatExamples.other_db [] [] eq_refl eq_refl))
    as (_ & _ & Hsaved).
  destruct (Hsaved [Chat.Str "Xin chào"]
              (<[Some "c2" := ChatExamples.said "Xin chào"]> ∅)
              (Chat.Str "Xin chào") eq_refl eq_refl ltac:(constructor))
    as [Htables Hanswer].
  specialize (Hanswer ltac:(constructor)).
  destruct (Chat.chat_endpoint _ _ _ _) as [r w']. cbn [fst snd] in *.
  subst r. split; [reflexivity | exact Htables].
Defined.

Lemma legal_assistant_knowledge_base_witness :
  LegalTools.legal_assistant LegalToolsExamples.percent 0
    LegalToolsExamples.unconfigured "Thu tuc doi GPLX"
  = LegalTools.legal_assistant LegalToolsExamples.percent 0
      LegalToolsExamples.empty_index "Thu tuc doi GPLX" /\
  py_in LegalTools.fallback_tag
    (LegalTools.legal_assistant LegalToolsExamples.percent 0
       LegalToolsExamples.unconfigured "Thu tuc doi GPLX") = false.
Proof.
  destruct (legal_assistant_knowledge_base
              LegalToolsExamples.percent 0 LegalToolsExamples.percent 0
              LegalToolsExamples.unconfigured LegalToolsExamples.empty_index
              "Thu tuc doi GPLX" "giấy phép lái xe") as (Hsame & Htag & _).
  - vm_compute. reflexivity.
  - split; assumption.
Defined.

Lemma calculate_fee_first_match_witness :
  startswith ("### Lệ phí: " +:+ upper "visa")
    (LegalTools.calculate_fee "Xin VISA" EmptyString) = true /\
  py_in ("- **" +:+ "E-visa 30 ngày (nhập cảnh 1 lần)" +:+ ":** " +:+ "25 USD" +:+ nl)
    (LegalTools.calculate_fee "Xin VISA" EmptyString) = true.
Proof.
  destruct (calculate_fee_first_match "Xin VISA" EmptyString) as [Hmatch _].
  apply (Hmatch (take 5 LegalTools.fee_table) "visa"
           [ ("E-visa 30 ngày (nhập cảnh 1 lần)", "25 USD");
             ("Visa 90 ngày (nhập cảnh nhiều lần)", "50 USD");
             ("Thẻ tạm trú (1-3 năm)", "145 - 155 USD") ] []).
  - reflexivity.
  - repeat (constructor; [vm_compute; reflexivity|]). constructor.
  - vm_compute. reflexivity.
  - left. reflexivity.
Defined.

Lemma format_document_first_match_witness :
  exists checklist,
    LegalTools.dict_get FormatDocument.checklists "lái xe" = Some checklist /\
    FormatDocument.format_document "Doi GPLX"
      = Returned (FormatDocument.checklist_answer checklist) /\
    forall item, In item (FormatDocument.items checklist) ->
                 py_in item (FormatDocument.checklist_answer checklist) = true.
Proof.
  destruct (format_document_first_match "Doi GPLX") as (_ & Hmatch & _).
  apply (Hmatch (take 3 FormatDocument.key_map) "lái xe" ["lái xe"; "gplx"; "bằng lái"] []).
  - reflexivity.
  - repeat (constructor; [vm_compute; reflexivity|]). constructor.
  - vm_compute. reflexivity.
Defined.

Lemma web_search_first_three_witness :
  WebSearch.web_search
    (answering (WebSearch.found
       ([ToolsExamples.row "1"; ToolsExamples.row "2"; ToolsExamples.row "3"]
          ++ [ToolsExamples.broken])))
    "luat dat dai"
  = WebSearch.web_search
      (answering (WebSearch.found
         [ToolsExamples.row "1"; ToolsExamples.row "2"; ToolsExamples.row "3"]))
      "luat dat dai".
Proof.
  apply (web_search_first_three
           [ToolsExamples.row "1"; ToolsExamples.row "2"; ToolsExamples.row "3"]
           [ToolsExamples.broken] "luat dat dai").
  reflexivity.
Defined.

Lemma web_search_trouble_bounded_witness :
  exists detail rest,
    WebSearch.web_search
      (answering (WebSearch.found [ToolsExamples.row "1"; ToolsExamples.broken]))
      "luat dat dai"
      = "⚠️ Không thể tìm kiếm web lúc này. Lỗi: " +:+ detail /\
    exn_str (KeyError "href") = detail +:+ rest /\
    Chat.len detail <= 100 /\
    Chat.len
      (WebSearch.web_search
         (answering (WebSearch.found [ToolsExamples.row "1"; ToolsExamples.broken]))
         "luat dat dai") <= 140.
Proof.
  apply (web_search_trouble_bounded
           (answering (WebSearch.found [ToolsExamples.row "1"; ToolsExamples.broken]))
           "luat dat dai" (KeyError "href")).
  right. eexists. split; reflexivity.
Defined.

Lemma get_date_info_deadline_witness :
  DateInfo.get_date_info (H0 := ToolsExamples.day_count) 10 "Deadline 60 ngay"
    = DateInfo.deadline_answer (H0 := ToolsExamples.day_count) 10 60 /\
  py_in "day 70"
    (DateInfo.get_date_info (H0 := ToolsExamples.day_count) 10 "Deadline 60 ngay") = true.
Proof.
  destruct (get_date_info_deadline (H0 := ToolsExamples.day_count) 10 "Deadline 60 ngay")
    as [Hfirst _].
  - vm_compute. reflexivity.
  - vm_compute. reflexivity.
  - apply (Hfirst [15; 30] 60 [90]).
    + reflexivity.
    + repeat (constructor; [vm_compute; reflexivity|]). constructor.
    + vm_compute. reflexivity.
Defined.

Lemma delete_message_guarded_witness :
  exists e st',
    Messages.delete_message "m2" "u1" ServiceExamples.shelf = (Raised e, st') /\
    Messages.supabase st' = Some ServiceExamples.board /\
    ~ In (Messages.delete_from_messages "m2")
         (drop (length (Messages.statements ServiceExamples.shelf))
               (Messages.statements st')).
Proof.
  apply (delete_message_guarded "m2" "u1" ServiceExamples.shelf ServiceExamples.board).
  - reflexivity.
  - intros m [<-|[<-|[]]] Hid; [discriminate Hid | reflexivity].
Defined.

Lemma delete_message_deletes_witness :
  exists st',
    Messages.delete_message "m1" "u1" ServiceExamples.shelf
      = (Returned "Message deleted successfully", st') /\
    Messages.supabase st'
      = Some {| Messages.conversations := Messages.conversations ServiceExamples.board;
                Messages.messages :=
                  [ {| Messages.msg_id := "m2";
                       Messages.msg_conversation_id := "c2" |} ] |}.
Proof.
  destruct (delete_message_deletes "m1" "u1" ServiceExamples.shelf ServiceExamples.board
              {| Messages.msg_id := "m1"; Messages.msg_conversation_id := "c1" |} [])
    as (st' & Hrun & Htables & _).
  - reflexivity.
  - constructor.
  - reflexivity.
  - discriminate.
  - exists st'. split; [exact Hrun | exact Htables].
Defined.

Lemma get_index_cached_witness :
  ResourcesCache.get_index "key" "laws" ServiceExamples.Pinecone ServiceExamples.Index
    (Some "other") ServiceExamples.warm
  = (Returned (Some "laws"), ServiceExamples.warm).
Proof.
  apply (get_index_cached "key" "laws" ServiceExamples.Pinecone ServiceExamples.Index
           None (Some "other") ServiceExamples.cold ServiceExamples.warm "laws").
  reflexivity.
Defined.

Lemma websocket_endpoint_unauthorized_witness :
  Chat.outbox
    (Session.world
       (Session.websocket_endpoint ChatExamples.silent_agent ServiceExamples.one_token
          (ServiceExamples.caller [Session.received "Xin chào"]) None (Some "stale")
          (ServiceExamples.lobby (Some ChatExamples.other_db))).2)
  = [Chat.ev_error "Unauthorized"].
Proof.
  apply (websocket_endpoint_unauthorized ChatExamples.silent_agent
           ServiceExamples.one_token
           (ServiceExamples.caller [Session.received "Xin chào"]) None (Some "stale")
           (ServiceExamples.lobby (Some ChatExamples.other_db))).
  intros t Ht _. injection Ht as <-. reflexivity.
Defined.

Lemma websocket_endpoint_foreign_conversation_witness :
  Chat.outbox
    (Session.world
       (Session.websocket_endpoint ChatExamples.silent_agent ServiceExamples.one_token
          (ServiceExamples.caller [Session.received "cho xem"]) (Some "c2") (Some "good")
          (ServiceExamples.lobby (Some ChatExamples.other_db))).2)
  = [Chat.ev_error "Access denied to conversation"].
Proof.
  apply (websocket_endpoint_foreign_conversation ChatExamples.silent_agent
           ServiceExamples.one_token
           (ServiceExamples.caller [Session.received "cho xem"]) "c2" "good"
           ServiceExamples.u1 (ServiceExamples.lobby (Some ChatExamples.other_db)));
    reflexivity.
Defined.


Lemma upload_pdf_not_owner_witness :
  exists w',
    Chat.upload_pdf ChatExamples.no_trace "c2" ChatExamples.alpha false "u1"
      (ChatExamples.fresh (Some ChatExamples.other_db))
      = (Raised (HTTPException 403 "Không có quyền truy cập đoạn chat này"), w') /\
    Chat.supabase w' = Some ChatExamples.other_db.
Proof.
  destruct (upload_pdf_not_owner ChatExamples.no_trace "c2" ChatExamples.alpha false "u1"
              (ChatExamples.fresh (Some ChatExamples.other_db)) ChatExamples.other_db)
    as (w' & Hrun & Htables & _).
  - reflexivity.
  - reflexivity.
  - intros e. discriminate.
  - exists w'. split; [exact Hrun | exact Htables].
Defined.

Lemma upload_pdf_unreadable_witness :
  exists w',
    Chat.upload_pdf ChatExamples.no_trace "c1" ServiceExamples.scanned false "u1"
      (ChatExamples.fresh (Some ChatExamples.long_db))
      = (Raised (HTTPException 400
                   ("Lỗi đọc PDF: " +:+ "PDF không chứa văn bản có thể đọc được")), w') /\
    Chat.supabase w' = Some ChatExamples.long_db.
Proof.
  destruct (upload_pdf_unreadable ChatExamples.no_trace "c1" ServiceExamples.scanned
              false "u1" (ChatExamples.fresh (Some ChatExamples.long_db))
              ChatExamples.long_db "PDF không chứa văn bản có thể đọc được")
    as (w' & Hrun & Htables & _).
  - reflexivity.
  - constructor.
  - discriminate.
  - apply (no_text _ [None; None]); reflexivity.
  - exists w'. split; [exact Hrun | exact Htables].
Defined.

Lemma upload_pdf_no_rollback_witness :
  exists w',
    Chat.upload_pdf ChatExamples.no_trace "c1" ChatExamples.alpha false "u1"
      (Chat.set_db_script [Chat.Done; Chat.Refused (OtherException "timeout")]
         (ChatExamples.fresh (Some ChatExamples.long_db)))
      = (Raised (HTTPException 500 "Lỗi lưu Database: timeout"), w') /\
    pdf_context_of w' "c1" = Chat.document_block ChatExamples.alpha "Alpha
".
Proof.
  destruct (upload_pdf_no_rollback ChatExamples.no_trace "c1" ChatExamples.alpha "u1"
              (Chat.set_db_script [Chat.Done; Chat.Refused (OtherException "timeout")]
                 (ChatExamples.fresh (Some ChatExamples.long_db)))
              ChatExamples.long_db "Alpha
" (OtherException "timeout") [])
    as (w' & Hrun & _ & Hcontext).
  - reflexivity.
  - reflexivity.
  - discriminate.
  - exists [Some "Alpha"]. repeat split; reflexivity.
  - constructor.
  - exists w'. split; [exact Hrun | exact Hcontext].
Defined.

Lemma upload_pdf_stores_witness :
  Chat.supabase
    (Chat.upload_pdf ChatExamples.no_trace "c1" ChatExamples.alpha true "u1"
       (ChatExamples.fresh (Some ChatExamples.long_db))).2
  = Some ChatExamples.long_db.
Proof.
  apply (upload_pdf_stores ChatExamples.no_trace "c1" ChatExamples.alpha "u1"
           (ChatExamples.fresh (Some ChatExamples.long_db))).
Defined.

Lemma chat_endpoint_new_conversation_witness :
  exists w',
    Chat.chat_endpoint ChatExamples.silent_agent
      {| Chat.message := "Thủ tục đổi giấy phép lái xe"; Chat.conversation_id := None |}
      "u1" (ChatExamples.fresh (Some ChatExamples.other_db))
      = (Returned {| Chat.response := "Xin chào";
                     Chat.response_conversation_id :=
                       Some (Chat.fresh_id ChatExamples.other_db) |}, w') /\
    Chat.agent_calls w' = [(None, [("user", Chat.Str "Thủ tục đổi giấy phép lái xe")])].
Proof.
  destruct (chat_endpoint_new_conversation ChatExamples.silent_agent
              {| Chat.message := "Thủ tục đổi giấy phép lái xe";
                 Chat.conversation_id := None |}
              "u1" (ChatExamples.fresh (Some ChatExamples.other_db))
              ChatExamples.other_db [Chat.Str "Xin chào"]
              (<[None := ChatExamples.said "Xin chào"]> ∅) (Chat.Str "Xin chào"))
    as (w' & Hrun & Hcalls & _).
  - reflexivity.
  - reflexivity.
  - constructor.
  - reflexivity.
  - reflexivity.
  - constructor.
  - exists w'. split; [exact Hrun | exact Hcalls].
Defined.

Lemma chat_endpoint_agent_failure_witness :
  exists w',
    Chat.chat_endpoint ServiceExamples.failing_agent (ChatExamples.ask "c2" "cho xem")
      "u2" (ChatExamples.fresh (Some ChatExamples.other_db))
      = (Raised (HTTPException 500 "quota"), w') /\
    Chat.supabase w' = Some ChatExamples.other_db.
Proof.
  destruct (chat_endpoint_agent_failure ServiceExamples.failing_agent
              (ChatExamples.ask "c2" "cho xem") "u2"
              (ChatExamples.fresh (Some ChatExamples.other_db)) (OtherException "quota"))
    as (w' & Hrun & Htables).
  - intros input thread_id m. exists m. reflexivity.
  - exists w'. split; [exact Hrun | exact Htables].
Defined.

Lemma chat_endpoint_without_database_witness :
  exists w',
    Chat.chat_endpoint ChatExamples.silent_agent (ChatExamples.ask "c1" "tiếp") "u1"
      (ChatExamples.fresh None)
      = (Returned {| Chat.response := "Xin chào";
                     Chat.response_conversation_id := Some "c1" |}, w') /\
    Chat.statements w' = [].
Proof.
  destruct (chat_endpoint_without_database ChatExamples.silent_agent
              (ChatExamples.ask "c1" "tiếp") "u1" (ChatExamples.fresh None)
              [Chat.Str "Xin chào"]
              (<[Some "c1" := ChatExamples.said "Xin chào"]> ∅) (Chat.Str "Xin chào"))
    as (w' & Hrun & Hstatements & _).
  - reflexivity.
  - reflexivity.
  - reflexivity.
  - constructor.
  - exists w'. split; [exact Hrun | exact Hstatements].
Defined.

Lemma turn_streams_answer_witness :
  exists id metas w',
    Chat.turn ServiceExamples.talkative_agent "u1" None "Xin chào"
      (ChatExamples.fresh None) = (Returned (Chat.next_turn id), w') /\
    at_most_meta metas /\
    Chat.outbox w'
      = [] ++ metas ++ [Chat.ev_start] ++
        [ Chat.ev_token (Chat.Str "Xin ");
          Chat.ev_status ("Running tool: " +:+ "web_search" +:+ "...");
          Chat.ev_token (Chat.Str "chào") ] ++
        [Chat.ev_end (Chat.Str "Xin chào")].
Proof.
  destruct (turn_streams_answer ServiceExamples.talkative_agent "u1" None "Xin chào"
              (ChatExamples.fresh None)
              (Chat.astream_events ServiceExamples.talkative_agent [] None ∅).1.1)
    as (id & metas & w' & Hrun & Hmetas & Hout & _).
  - repeat split; constructor.
  - intros input thread_id. eexists. reflexivity.
  - reflexivity.
  - exists id, metas, w'. split; [exact Hrun|]. split; [exact Hmetas | exact Hout].
Defined.
